(** * DexWallet: multi-chain wallet and transaction engine

    A shallow embedding of the wallet routers of the repository
    (btc-server.mjs, the Tatum-backed BTC router, the EVM router,
    solana_server.mjs and the two routers of cardano-server.mjs) together
    with the properties of key handling, coin selection, fee computation
    and transaction assembly that are stated about them.

    Modelling conventions
    - A finite JavaScript number is the rational it denotes ([Q]).  The
      product of two numbers is the machine's, [fmul] of the class [Float]:
      some rational, exact on integers within 53 bits.  Sums and
      differences occur on integer base-unit quantities only and are exact
      ([Z]); NaN and the infinities are outside the model.  BigInt values
      of the EVM router are [Z].
    - A request handler is a computation in the monad [Act]: it either
      continues, answers the request early ([respond], the source's
      [return res.status(..).json(..)]) or throws ([raise], caught by the
      handler's [catch] and turned into a 500).  Every provider call,
      every signing operation and, for Cardano, every key derivation is
      recorded, in order, in the trace of the run.
    - Functions of third-party packages (bitcoinjs-lib, bip39, bip32,
      ethers, @solana/web3.js, bs58, cardano-serialization-lib) are the
      fields of one class per package; they are pure functions that may
      throw ([Result]).  The replies of the network providers, and of the
      signer where signing is a single opaque call, are the fields of a
      record per router.
    - A field of a request body that the source tests with [!field] is a
      string (the empty string standing for a missing field) or a number
      (zero being falsy). *)

From Stdlib Require Import ZArith QArith Qround Qabs List String Ascii Bool Lia.
From Stdlib Require Import Permutation Sorted Lqa.
Import ListNotations.

Local Open Scope string_scope.
Local Open Scope list_scope.
Local Open Scope Z_scope.

(* ================================================================== *)
(** * JavaScript primitives *)
(* ================================================================== *)

Module Js.

(** Outcome of a call that may throw. *)
Inductive Result (A : Type) : Type :=
| Ok (a : A)
| Err (msg : string).
Arguments Ok {A} a.
Arguments Err {A} msg.

(** The arithmetic of JavaScript numbers.  A finite number is the rational
    it denotes; [fmul x y] is the number that [x * y] evaluates to, the
    double nearest to the exact product, so it is exact on integers whose
    product fits the 53-bit significand. *)
Class Float : Type := {
  fmul : Q -> Q -> Q;
  fmul_int : forall a b : Z,
    Z.abs (a * b) <= 2 ^ 53 ->
    (fmul (inject_Z a) (inject_Z b) == inject_Z (a * b))%Q
}.

Definition Math_floor (x : Q) : Z := Qfloor x.
Definition Math_ceil (x : Q) : Z := Qceiling x.

(** [Math.round]: the nearest integer, halves towards plus infinity. *)
Definition Math_round (x : Q) : Z := Qfloor (x + (1 # 2)).

(** [!s] is false exactly for a non-empty string ([undefined] and the empty
    string are both falsy and are both represented by the empty string). *)
Definition truthy_string (s : string) : bool :=
  match s with
  | EmptyString => false
  | String _ _ => true
  end.

(** [!x] for a number is true exactly for zero. *)
Definition truthy_number (x : Q) : bool := negb (Qeq_bool x 0).

(** [x || y] on an optional number. *)
Definition or_else (x : option Q) (y : Q) : Q :=
  match x with
  | Some v => if truthy_number v then v else y
  | None => y
  end.

(** [s.startsWith(p)] *)
Definition startsWith (s p : string) : bool := String.prefix p s.

Definition lower_ascii (c : ascii) : ascii :=
  let n := nat_of_ascii c in
  if (Nat.leb 65 n && Nat.leb n 90)%bool then ascii_of_nat (n + 32) else c.

(** [s.toLowerCase()] on ASCII text. *)
Fixpoint toLowerCase (s : string) : string :=
  match s with
  | EmptyString => EmptyString
  | String c r => String (lower_ascii c) (toLowerCase r)
  end.

(** Decimal rendering of a non-negative integer, as a template literal
    [`${n}`] prints it. *)
Definition digit_char (d : nat) : ascii := ascii_of_nat (48 + d).

Fixpoint decimal_digits (fuel : nat) (n : nat) (acc : string) : string :=
  match fuel with
  | O => acc
  | S fuel' =>
      let acc' := String (digit_char (Nat.modulo n 10)) acc in
      match Nat.div n 10 with
      | O => acc'
      | q => decimal_digits fuel' q acc'
      end
  end.

Definition decimal (n : nat) : string := decimal_digits (S n) n EmptyString.

End Js.
Export Js.

(* ================================================================== *)
(** * Request handlers *)
(* ================================================================== *)

Module Http.

(** A JSON value of a response payload. *)
Inductive Field : Type :=
| FStr (s : string)
| FInt (z : Z)
| FNum (q : Q)
| FBytes (b : list Byte.byte).

Inductive Body : Type :=
| ErrorBody (error : string)
| Payload (fields : list (string * Field)).

Record Response : Type := mkResponse { status : Z; body : Body }.

Definition error_response (code : Z) (msg : string) : Response :=
  mkResponse code (ErrorBody msg).

Definition json (fields : list (string * Field)) : Response :=
  mkResponse 200 (Payload fields).

Section Act.
Context {E : Type}.

Inductive Step (A : Type) : Type :=
| Continue (a : A)
| Respond (r : Response)
| Raise (msg : string).

(** A handler threads the trace of the effects performed so far. *)
Definition Act (A : Type) : Type := list E -> Step A * list E.

Definition ret {A : Type} (a : A) : Act A :=
  fun tr => (Continue A a, tr).

Definition bind {A B : Type} (m : Act A) (k : A -> Act B) : Act B :=
  fun tr =>
    match m tr with
    | (Continue _ a, tr') => k a tr'
    | (Respond _ r, tr') => (Respond B r, tr')
    | (Raise _ msg, tr') => (Raise B msg, tr')
    end.

(** [return res.status(code).json({ error: msg })] *)
Definition respond {A : Type} (code : Z) (msg : string) : Act A :=
  fun tr => (Respond A (error_response code msg), tr).

(** [throw new Error(msg)] *)
Definition raise {A : Type} (msg : string) : Act A :=
  fun tr => (Raise A msg, tr).

(** Record an effect. *)
Definition emit (e : E) : Act unit :=
  fun tr => (Continue unit tt, tr ++ [e]).

(** A call into a package: it returns or throws, with no recorded effect. *)
Definition lift {A : Type} (r : Result A) : Act A :=
  match r with
  | Ok a => ret a
  | Err msg => raise msg
  end.

(** [await] of a provider call: the call is recorded, then its reply is
    returned or its failure thrown. *)
Definition await {A : Type} (e : E) (reply : Result A) : Act A :=
  bind (emit e) (fun _ => lift reply).

(** [if (c) return res.status(code).json({ error: msg })] *)
Definition reject_if (c : bool) (code : Z) (msg : string) : Act unit :=
  if c then respond code msg else ret tt.

(** [try { ... } catch (e) { res.status(500).json({ error: e.message }) }] *)
Definition run (h : Act Response) : Response * list E :=
  match h [] with
  | (Continue _ r, tr) => (r, tr)
  | (Respond _ r, tr) => (r, tr)
  | (Raise _ msg, tr) => (error_response 500 msg, tr)
  end.

End Act.

Arguments Act E A : clear implicits.

End Http.
Export Http.

Declare Scope act_scope.
Delimit Scope act_scope with act.
Notation "x <- m ;; k" := (bind m (fun x => k))
  (at level 61, m at next level, right associativity) : act_scope.
Notation "m ;;; k" := (bind m (fun _ => k))
  (at level 61, right associativity) : act_scope.

Definition bytes : Type := list Byte.byte.

(* ================================================================== *)
(** * Mnemonics (bip39) *)
(* ================================================================== *)

Module Bip39.

(** State of the system's random generator, consumed by
    [bip39.generateMnemonic]. *)
Class Api : Type := {
  Rng : Type;
  validateMnemonic : string -> bool;
  mnemonicToSeedSync : string -> bytes;
  mnemonicToEntropy : string -> string;
  generateMnemonic : Rng -> Z -> string
}.

End Bip39.

(* ================================================================== *)
(** * BTC router on the Blockstream explorer (btc-server.mjs) *)
(* ================================================================== *)

Module Btc.

Definition DEFAULT_PURPOSE : nat := 84.
Definition DEFAULT_COIN : nat := 0.

Definition VBYTE_PER_INPUT : Z := 68.
Definition VBYTE_PER_OUTPUT : Z := 31.
Definition TX_OVERHEAD_VBYTES : Z := 10.

Definition btcToSats `{Float} (btc : Q) : Z :=
  Math_floor (fmul btc (inject_Z 100000000)).

(** An unspent output as the explorer lists it. *)
Record Utxo : Type := mkUtxo { txid : string; vout : Z; value : Z }.

Record ECPair : Type := mkECPair { privateKey : bytes; publicKey : bytes }.

(** A node of the BIP32 tree. *)
Record Node : Type := mkNode {
  node_privateKey : bytes;
  node_publicKey : bytes;
  node_chainCode : bytes
}.

(** bitcoinjs-lib, bip32 and ecpair, for the fixed mainnet [NETWORK]. *)
Class Lib : Type := {
  ECPair_fromWIF : string -> Result ECPair;
  p2wpkh_address : bytes -> string;
  p2wpkh_output : bytes -> bytes;
  bip32_fromSeed : bytes -> Node;
  derivePath : Node -> string -> Node;
  toWIF : Node -> string;
  (** validation done by [psbt.addOutput] *)
  checkOutput : string -> Z -> Result unit
}.

Record PsbtInput : Type := mkPsbtInput {
  hash : string;
  index : Z;
  witness_script : bytes;
  witness_value : Z
}.

Record Psbt : Type := mkPsbt {
  inputs : list PsbtInput;
  outputs : list (string * Z)
}.

Definition Psbt_new : Psbt := mkPsbt [] [].

Definition addInput (p : Psbt) (i : PsbtInput) : Psbt :=
  mkPsbt (inputs p ++ [i]) (outputs p).

Definition addOutput `{Lib} (p : Psbt) (address : string) (v : Z) : Result Psbt :=
  match checkOutput address v with
  | Ok _ => Ok (mkPsbt (inputs p) (outputs p ++ [(address, v)]))
  | Err msg => Err msg
  end.

(** Replies of the explorer.  The body of the [/fee-estimates] reply is an
    object from confirmation targets (["1"], ["2"], ...) to rates. *)
Record Provider : Type := mkProvider {
  utxo_reply : string -> Result (list Utxo);
  fee_estimates_reply : Result (string -> option Q);
  (** signing, finalising and serialising a PSBT *)
  sign_reply : ECPair -> Psbt -> Result string;
  tx_reply : string -> Result string
}.

Inductive Event : Type :=
| GetUtxos (address : string)
| GetFeeEstimates
| SignInputs (key : ECPair) (p : Psbt)
| PostTx (hex : string).

Definition is_signing (e : Event) : bool :=
  match e with
  | SignInputs _ _ => true
  | _ => false
  end.

(* ---------------------------------------------------------------- *)
(** ** Helpers *)

Definition buildAddressFromNode `{Lib} (node : Node) : string :=
  p2wpkh_address (node_publicKey node).

Definition derivation_path (account addressIndex : nat) : string :=
  ("m/" ++ decimal DEFAULT_PURPOSE ++ "'/" ++ decimal DEFAULT_COIN ++ "'/"
    ++ decimal account ++ "'/0/" ++ decimal addressIndex)%string.

Definition deriveFromMnemonic `{Bip39.Api} `{Lib}
  (mnemonic : string) (account addressIndex : nat) : Result (Node * string) :=
  if negb (Bip39.validateMnemonic mnemonic) then Err "Invalid mnemonic"
  else
    let seed := Bip39.mnemonicToSeedSync mnemonic in
    let root := bip32_fromSeed seed in
    let path := derivation_path account addressIndex in
    let child := derivePath root path in
    Ok (child, path).

Definition fetchUtxos (P : Provider) (address : string) : Act Event (list Utxo) :=
  await (GetUtxos address) (utxo_reply P address).

(** [Math.max(Math.round(r.data['1'] || 10), 1)], and [10] when the request
    fails. *)
Definition fetchFeeRate (P : Provider) : Act Event Q :=
  (emit GetFeeEstimates ;;;
   match fee_estimates_reply P with
   | Ok data =>
       ret (inject_Z (Z.max (Math_round (or_else (data "1") (inject_Z 10))) 1))
   | Err _ => ret (inject_Z 10)
   end)%act.

Definition estimateTxVsize (inputs outputs : Z) : Z :=
  inputs * VBYTE_PER_INPUT + outputs * VBYTE_PER_OUTPUT + TX_OVERHEAD_VBYTES.

(** [[...utxos].sort((a, b) => a.value - b.value)]: a stable sort on the
    value. *)
Fixpoint insertByValue (u : Utxo) (l : list Utxo) : list Utxo :=
  match l with
  | [] => [u]
  | x :: r =>
      if value u <=? value x then u :: x :: r else x :: insertByValue u r
  end.

Fixpoint sortByValue (l : list Utxo) : list Utxo :=
  match l with
  | [] => []
  | u :: r => insertByValue u (sortByValue r)
  end.

Record Selection : Type := mkSelection { chosen : list Utxo; sum : Z }.

(** The [for (const u of sorted)] loop with its [break]. *)
Fixpoint greedyLoop (sorted : list Utxo) (target : Z)
  (chosen : list Utxo) (sum : Z) : Selection :=
  match sorted with
  | [] => mkSelection chosen sum
  | u :: rest =>
      let chosen' := chosen ++ [u] in
      let sum' := sum + value u in
      if sum' >=? target then mkSelection chosen' sum'
      else greedyLoop rest target chosen' sum'
  end.

Definition selectUtxosGreedy (utxos : list Utxo) (target : Z) : Selection :=
  let sorted := sortByValue utxos in
  greedyLoop sorted target [] 0.

Definition broadcastTx (P : Provider) (hex : string) : Act Event string :=
  await (PostTx hex) (tx_reply P hex).

(** The fee of the send route:
    [Math.ceil(estimateTxVsize(chosen.length, 2) * rate)]. *)
Definition txFee `{Float} (nInputs nOutputs : Z) (rate : Q) : Z :=
  Math_ceil (fmul (inject_Z (estimateTxVsize nInputs nOutputs)) rate).

(* ---------------------------------------------------------------- *)
(** ** Routes *)

Record SendRequest : Type := mkSendRequest {
  from : string;
  privateKeyWIF : string;
  to : string;
  amount : Q;
  feeRate : option Q
}.

Definition sum_values (l : list Utxo) : Z :=
  fold_right (fun u acc => value u + acc) 0 l.

Definition witnessInput `{Lib} (keyPair : ECPair) (u : Utxo) : PsbtInput :=
  mkPsbtInput (txid u) (vout u) (p2wpkh_output (publicKey keyPair)) (value u).

(** [router.post('/:from/send', ...)] *)
Definition send_handler `{Float} `{Lib} (P : Provider) (req : SendRequest)
  : Act Event Response :=
  (reject_if (negb (truthy_string (privateKeyWIF req))
              || negb (truthy_string (to req))
              || negb (truthy_number (amount req)))
     400 "privateKeyWIF, to, amount required" ;;;
   keyPair <- lift (ECPair_fromWIF (privateKeyWIF req)) ;;
   let fromAddress := p2wpkh_address (publicKey keyPair) in
   reject_if (negb (String.eqb fromAddress (from req)))
     400 "privateKey mismatch" ;;;
   utxos <- fetchUtxos P fromAddress ;;
   reject_if (Nat.eqb (List.length utxos) 0) 400 "no utxos available" ;;;
   rate <- match feeRate req with
           | Some r => if truthy_number r then ret r else fetchFeeRate P
           | None => fetchFeeRate P
           end ;;
   let amountSats := btcToSats (amount req) in
   let sel := selectUtxosGreedy utxos (amountSats + 1000) in
   let fee := txFee (Z.of_nat (List.length (chosen sel))) 2 rate in
   reject_if (sum sel <? amountSats + fee) 400 "insufficient funds" ;;;
   let psbt0 :=
     fold_left (fun p u => addInput p (witnessInput keyPair u))
       (chosen sel) Psbt_new in
   psbt1 <- lift (addOutput psbt0 (to req) amountSats) ;;
   psbt2 <- lift (addOutput psbt1 fromAddress (sum sel - amountSats - fee)) ;;
   hex <- await (SignInputs keyPair psbt2) (sign_reply P keyPair psbt2) ;;
   txid <- broadcastTx P hex ;;
   ret (json [("network", FStr "mainnet"); ("from", FStr fromAddress);
              ("to", FStr (to req)); ("amount_btc", FNum (amount req));
              ("amount_sats", FInt amountSats); ("fee_sats", FInt fee);
              ("txid", FStr txid)]))%act.

Definition send `{Float} `{Lib} (P : Provider) (req : SendRequest)
  : Response * list Event :=
  run (send_handler P req).

Record MnemonicRequest : Type := mkMnemonicRequest {
  mnemonic : string;
  accountIndex : nat;
  addressIndex : nat
}.

Definition wallet_payload `{Lib} (m : string) (child : Node) (path : string)
  : Response :=
  json [("network", FStr "mainnet"); ("mnemonic", FStr m);
        ("derivationPath", FStr path);
        ("address", FStr (buildAddressFromNode child));
        ("privateKeyWIF", FStr (toWIF child))].

(** [router.post('/wallet/import/mnemonic', ...)] *)
Definition import_mnemonic_handler `{Bip39.Api} `{Lib} (req : MnemonicRequest)
  : Act Event Response :=
  (reject_if (negb (truthy_string (mnemonic req))) 400 "mnemonic required" ;;;
   d <- lift (deriveFromMnemonic (mnemonic req) (accountIndex req)
                (addressIndex req)) ;;
   ret (wallet_payload (mnemonic req) (fst d) (snd d)))%act.

Definition import_mnemonic `{Bip39.Api} `{Lib} (req : MnemonicRequest)
  : Response * list Event :=
  run (import_mnemonic_handler req).

Record CreateRequest : Type := mkCreateRequest {
  words : Z;
  create_accountIndex : nat;
  create_addressIndex : nat
}.

(** [router.post('/wallet/create', ...)]; the mnemonic is drawn from the
    random generator. *)
Definition create_handler `{Bip39.Api} `{Lib} (rng : Bip39.Rng)
  (req : CreateRequest) : Act Event Response :=
  (reject_if (negb ((words req =? 12) || (words req =? 24)))
     400 "words must be 12 or 24" ;;;
   let strength := if words req =? 24 then 256 else 128 in
   let m := Bip39.generateMnemonic rng strength in
   d <- lift (deriveFromMnemonic m (create_accountIndex req)
                (create_addressIndex req)) ;;
   ret (wallet_payload m (fst d) (snd d)))%act.

Definition create `{Bip39.Api} `{Lib} (rng : Bip39.Rng) (req : CreateRequest)
  : Response * list Event :=
  run (create_handler rng req).

End Btc.

(* ================================================================== *)
(** * BTC router on the Tatum API *)
(* ================================================================== *)

Module BtcTatum.

Record SendRequest : Type := mkSendRequest {
  from : string;
  to : string;
  amount : Q;
  privateKey : string
}.

(** The body posted to [/bitcoin/transaction]: the provider builds and
    signs the transaction from the address and the private key. *)
Record TatumPayload : Type := mkTatumPayload {
  fromAddress : list (string * string);
  toAddress : list (string * Q)
}.

(** The outcome of the POST: a failure, or a reply whose body may or may
    not carry a [txId]. *)
Record Provider : Type := mkProvider {
  transaction_reply : TatumPayload -> Result (option string)
}.

(** [txId: r.data.txId]: a field whose value is [undefined] is left out of
    the JSON answer. *)
Definition txId_field (txId : option string) : list (string * Field) :=
  match txId with
  | Some id => [("txId", FStr id)]
  | None => []
  end.

Inductive Event : Type :=
| PostTransaction (payload : TatumPayload).

(** [router.post("/:from/send", ...)] *)
Definition send_handler (P : Provider) (req : SendRequest)
  : Act Event Response :=
  (reject_if (negb (truthy_string (from req))
              || negb (truthy_string (to req))
              || negb (truthy_number (amount req))
              || negb (truthy_string (privateKey req)))
     400 "from, to, amount, privateKey required" ;;;
   let payload :=
     mkTatumPayload [(from req, privateKey req)] [(to req, amount req)] in
   txId <- await (PostTransaction payload) (transaction_reply P payload) ;;
   ret (json ([("chain", FStr "BTC"); ("from", FStr (from req));
               ("to", FStr (to req)); ("amount", FNum (amount req))]
              ++ txId_field txId)))%act.

Definition send (P : Provider) (req : SendRequest) : Response * list Event :=
  run (send_handler P req).

End BtcTatum.

(* ================================================================== *)
(** * EVM router (ethers) *)
(* ================================================================== *)

Module Evm.

Record Wallet : Type := mkWallet { address : string; privateKey : string }.

Class Lib : Type := {
  isAddress : string -> bool;
  Wallet_new : string -> Result Wallet;
  Wallet_fromPhrase : string -> Result Wallet;
  formatEther : Z -> string
}.

Record ChainConfig : Type := mkChain { name : string; chainId : Z }.

Definition CHAINS : list (string * ChainConfig) :=
  [("sonic", mkChain "sonic" 146); ("ethereum", mkChain "ethereum" 1);
   ("base", mkChain "base" 8453); ("polygon", mkChain "polygon" 137)].

Fixpoint lookup_chain (chain : string) (l : list (string * ChainConfig))
  : option ChainConfig :=
  match l with
  | [] => None
  | (k, cfg) :: r => if String.eqb k chain then Some cfg else lookup_chain chain r
  end.

Definition getProvider (chain : string) : Result ChainConfig :=
  match lookup_chain chain CHAINS with
  | Some cfg => Ok cfg
  | None => Err ("Unsupported chain: " ++ chain)%string
  end.

Definition loadWalletFromPrivateKey `{Lib} (pk chain : string) : Result Wallet :=
  match getProvider chain with
  | Ok _ => Wallet_new pk
  | Err msg => Err msg
  end.

Record FeeData : Type := mkFeeData {
  gasPrice : option Z;
  maxFeePerGas : option Z;
  maxPriorityFeePerGas : option Z
}.

(** The [amount] field of a send request: absent, the sentinel ['max'], or
    a number. *)
Inductive Amount : Type :=
| AmountAbsent
| AmountMax
| AmountNumber (q : Q).

Record SendRequest : Type := mkSendRequest {
  from : string;
  to : string;
  amount : Amount;
  req_privateKey : string;
  chain : string;
  (** a JSON number when the caller supplies it *)
  gasLimit : option Q
}.

Record Tx : Type := mkTx {
  tx_to : string;
  tx_value : Z;
  tx_gasLimit : Z;
  tx_maxFeePerGas : option Z;
  tx_maxPriorityFeePerGas : option Z
}.

Record Provider : Type := mkProvider {
  balance_reply : string -> Result Z;
  feeData_reply : Result FeeData;
  estimateGas_reply : string -> string -> Result Z;
  sendTransaction_reply : Wallet -> Tx -> Result string
}.

Inductive Event : Type :=
| GetBalance (address : string)
| GetFeeData
| EstimateGas (from to : string)
| SendTransaction (w : Wallet) (tx : Tx).

Definition is_signing (e : Event) : bool :=
  match e with
  | SendTransaction _ _ => true
  | _ => false
  end.

(** [gasLimit ?? (await provider.estimateGas(txForEstimate))]: a gas limit
    taken from the request body is a JSON number, not a BigInt. *)
Inductive Gas : Type :=
| GasBigInt (g : Z)
| GasNumber (q : Q).

(** [estimatedGas * gasPrice]: BigInt multiplication; any other operand
    raises a TypeError. *)
Definition gas_times (estimatedGas : Gas) (gasPrice : option Z) : Result Z :=
  match estimatedGas, gasPrice with
  | GasBigInt g, Some p => Ok (g * p)
  | _, _ => Err "Cannot mix BigInt and other types, use explicit conversions"
  end.

Definition gas_units (estimatedGas : Gas) : Result Z :=
  match estimatedGas with
  | GasBigInt g => Ok g
  | GasNumber _ => Err "invalid BigNumberish value"
  end.

(** [parseEther(Number(amount).toFixed(18))]: eighteen decimals, the
    nearest one, halves upwards; [toFixed] switches to exponent notation
    from 1e21 on, which [parseEther] rejects. *)
Definition parseFixed18 (q : Q) : Result Z :=
  if Qle_bool (inject_Z (10 ^ 21)) (Qabs q) then Err "invalid FixedNumber string value"
  else Ok (Math_round (q * inject_Z (10 ^ 18))).

Definition nullish_or (a b : option Z) : option Z :=
  match a with
  | Some _ => a
  | None => b
  end.

Definition wants_max (a : Amount) : bool :=
  match a with
  | AmountAbsent => true
  | AmountMax => true
  | AmountNumber q => negb (truthy_number q)
  end.

Definition amount_number (a : Amount) : Q :=
  match a with
  | AmountNumber q => q
  | _ => 0%Q
  end.

(** [router.post('/wallet/:from/send', ...)] *)
Definition send_handler `{Lib} (P : Provider) (req : SendRequest)
  : Act Event Response :=
  (reject_if (negb (isAddress (from req)) || negb (isAddress (to req)))
     400 "invalid address" ;;;
   reject_if (negb (truthy_string (req_privateKey req)))
     400 "privateKey required" ;;;
   wallet <- lift (loadWalletFromPrivateKey (req_privateKey req) (chain req)) ;;
   reject_if (negb (String.eqb (toLowerCase (address wallet))
                               (toLowerCase (from req))))
     400 "privateKey mismatch" ;;;
   balanceWei <- await (GetBalance (from req)) (balance_reply P (from req)) ;;
   reject_if (balanceWei <=? 0) 400 "insufficient balance" ;;;
   feeData <- await GetFeeData (feeData_reply P) ;;
   estimatedGas <- match gasLimit req with
                   | Some g => ret (GasNumber g)
                   | None =>
                       g <- await (EstimateGas (from req) (to req))
                              (estimateGas_reply P (from req) (to req)) ;;
                       ret (GasBigInt g)
                   end ;;
   let gasPrice := nullish_or (maxFeePerGas feeData) (gasPrice feeData) in
   gasCost <- lift (gas_times estimatedGas gasPrice) ;;
   valueWei <- (if wants_max (amount req) then
                  reject_if (balanceWei <=? gasCost)
                    400 "balance too low for gas" ;;;
                  ret (balanceWei - gasCost)
                else
                  v <- lift (parseFixed18 (amount_number (amount req))) ;;
                  reject_if (v + gasCost >? balanceWei)
                    400 "amount + gas exceeds balance" ;;;
                  ret v) ;;
   units <- lift (gas_units estimatedGas) ;;
   let tx := mkTx (to req) valueWei units (maxFeePerGas feeData)
               (maxPriorityFeePerGas feeData) in
   txHash <- await (SendTransaction wallet tx)
               (sendTransaction_reply P wallet tx) ;;
   ret (json [("chain", FStr (chain req)); ("from", FStr (from req));
              ("to", FStr (to req));
              ("sentAmount", FStr (formatEther valueWei));
              ("gasUsed", FInt units);
              ("gasCost", FStr (formatEther gasCost));
              ("txHash", FStr txHash)]))%act.

Definition send `{Lib} (P : Provider) (req : SendRequest)
  : Response * list Event :=
  run (send_handler P req).

Record MnemonicRequest : Type := mkMnemonicRequest {
  mnemonic : string;
  mnemonic_chain : string
}.

(** [router.post('/wallet/import/mnemonic', ...)] *)
Definition import_mnemonic_handler `{Lib} (req : MnemonicRequest)
  : Act Event Response :=
  (reject_if (negb (truthy_string (mnemonic req))) 400 "mnemonic required" ;;;
   _ <- lift (getProvider (mnemonic_chain req)) ;;
   wallet <- lift (Wallet_fromPhrase (mnemonic req)) ;;
   ret (json [("address", FStr (address wallet));
              ("privateKey", FStr (privateKey wallet));
              ("chain", FStr (mnemonic_chain req))]))%act.

Definition import_mnemonic `{Lib} (req : MnemonicRequest)
  : Response * list Event :=
  run (import_mnemonic_handler req).

End Evm.

(* ================================================================== *)
(** * Solana router (solana_server.mjs) *)
(* ================================================================== *)

Module Solana.

Definition LAMPORTS_PER_SOL : Z := 1000000000.

Record Keypair : Type := mkKeypair { publicKey : bytes; secretKey : bytes }.

(** What [JSON.parse] yields, as far as the router looks at it. *)
Inductive Json : Type :=
| JArray (l : list Z)
| JOther.

(** @solana/web3.js, bs58, ed25519-hd-key and the built-ins used on key
    material. *)
Class Lib : Type := {
  Keypair_fromSecretKey : bytes -> Result Keypair;
  Keypair_fromSeed : bytes -> Result Keypair;
  bs58_decode : string -> Result bytes;
  bs58_encode : bytes -> string;
  Buffer_from_base64 : string -> bytes;
  JSON_parse : string -> Result Json;
  PublicKey_new : string -> Result bytes;
  hd_derivePath : string -> string -> bytes;
  toHex : bytes -> string
}.

Definition to_uint8 (z : Z) : Byte.byte :=
  match Byte.of_N (Z.to_N (z mod 256)) with
  | Some b => b
  | None => Byte.x00
  end.

(** [Uint8Array.from(a.map(Number))] *)
Definition Uint8Array_from (a : list Z) : bytes := map to_uint8 a.

(** The [privateKey] field of a request body: an array of numbers or a
    string. *)
Inductive KeyInput : Type :=
| KeyArray (a : list Z)
| KeyString (s : string).

Definition truthy_input (input : KeyInput) : bool :=
  match input with
  | KeyArray _ => true
  | KeyString s => truthy_string s
  end.

(* ---------------------------------------------------------------- *)
(** ** Helpers *)

Definition mnemonic_path (account change : nat) : string :=
  ("m/44'/501'/" ++ decimal account ++ "'/" ++ decimal change ++ "'")%string.

Definition keypairFromMnemonic `{Bip39.Api} `{Lib}
  (mnemonic : string) (account change : nat) : Result Keypair :=
  if negb (Bip39.validateMnemonic mnemonic) then Err "Invalid mnemonic"
  else
    let seed := Bip39.mnemonicToSeedSync mnemonic in
    let path := mnemonic_path account change in
    let derived := hd_derivePath path (toHex seed) in
    Keypair_fromSeed derived.

(** The body of a [try { ... } catch {}] statement that may [return]: it
    returns a key pair, runs to its end ([Ok None]) or throws. *)
Definition returning (r : Result Keypair) : Result (option Keypair) :=
  match r with
  | Ok kp => Ok (Some kp)
  | Err msg => Err msg
  end.

(** [try { block } catch {}] followed by the rest of the function: an
    exception of the block is swallowed. *)
Definition try_catch (block : Result (option Keypair)) (rest : Result Keypair)
  : Result Keypair :=
  match block with
  | Ok (Some kp) => Ok kp
  | Ok None => rest
  | Err _ => rest
  end.

Definition json_block `{Lib} (input : string) : Result (option Keypair) :=
  match JSON_parse input with
  | Ok (JArray parsed) => returning (Keypair_fromSecretKey (Uint8Array_from parsed))
  | Ok JOther => Ok None
  | Err msg => Err msg
  end.

Definition bs58_block `{Lib} (input : string) : Result (option Keypair) :=
  match bs58_decode input with
  | Ok decoded =>
      if Nat.eqb (List.length decoded) 32 then returning (Keypair_fromSeed decoded)
      else if Nat.eqb (List.length decoded) 64
           then returning (Keypair_fromSecretKey decoded)
           else Ok None
  | Err msg => Err msg
  end.

Definition base64_block `{Lib} (input : string) : Result (option Keypair) :=
  let buf := Buffer_from_base64 input in
  if Nat.eqb (List.length buf) 32 then returning (Keypair_fromSeed buf)
  else if Nat.eqb (List.length buf) 64
       then returning (Keypair_fromSecretKey buf)
       else Ok None.

Definition keypairFromPrivateKeyInput `{Lib} (input : KeyInput) : Result Keypair :=
  if negb (truthy_input input) then Err "privateKey required"
  else
    match input with
    | KeyArray a => Keypair_fromSecretKey (Uint8Array_from a)
    | KeyString s =>
        try_catch (json_block s)
          (try_catch (bs58_block s)
             (try_catch (base64_block s)
                (Err "Unsupported privateKey format")))
    end.

Definition exportKeypair `{Lib} (kp : Keypair) : list (string * Field) :=
  [("publicKey", FStr (bs58_encode (publicKey kp)));
   ("privateKey", FStr (bs58_encode (secretKey kp)));
   ("secretKeyArray", FBytes (secretKey kp))].

(* ---------------------------------------------------------------- *)
(** ** The key codec as the specification words it *)

Definition succeeded (r : Result Keypair) : option Keypair :=
  match r with
  | Ok kp => Some kp
  | Err _ => None
  end.

(** (a) an ordered sequence of byte values *)
Definition decode_byte_array `{Lib} (input : KeyInput) : option Keypair :=
  match input with
  | KeyArray a => succeeded (Keypair_fromSecretKey (Uint8Array_from a))
  | KeyString _ => None
  end.

(** (b) a JSON-encoded array of byte values *)
Definition decode_json_array `{Lib} (input : KeyInput) : option Keypair :=
  match input with
  | KeyString s =>
      match JSON_parse s with
      | Ok (JArray l) => succeeded (Keypair_fromSecretKey (Uint8Array_from l))
      | _ => None
      end
  | KeyArray _ => None
  end.

(** A 32-byte seed or a 64-byte expanded key. *)
Definition key_of_bytes `{Lib} (b : bytes) : option Keypair :=
  if Nat.eqb (List.length b) 32 then succeeded (Keypair_fromSeed b)
  else if Nat.eqb (List.length b) 64 then succeeded (Keypair_fromSecretKey b)
       else None.

(** (c) base58 *)
Definition decode_base58 `{Lib} (input : KeyInput) : option Keypair :=
  match input with
  | KeyString s =>
      match bs58_decode s with
      | Ok b => key_of_bytes b
      | Err _ => None
      end
  | KeyArray _ => None
  end.

(** (d) base64 *)
Definition decode_base64 `{Lib} (input : KeyInput) : option Keypair :=
  match input with
  | KeyString s => key_of_bytes (Buffer_from_base64 s)
  | KeyArray _ => None
  end.

Definition decoders `{Lib} : list (KeyInput -> option Keypair) :=
  [decode_byte_array; decode_json_array; decode_base58; decode_base64].

Fixpoint first_success (ds : list (KeyInput -> option Keypair))
  (input : KeyInput) : option Keypair :=
  match ds with
  | [] => None
  | d :: r =>
      match d input with
      | Some kp => Some kp
      | None => first_success r input
      end
  end.

Definition UnsupportedKeyFormat : string := "Unsupported privateKey format".

Definition PrivateKeyCodec `{Lib} (input : KeyInput) : Result Keypair :=
  match first_success decoders input with
  | Some kp => Ok kp
  | None => Err UnsupportedKeyFormat
  end.

(* ---------------------------------------------------------------- *)
(** ** Routes *)

Record Transfer : Type := mkTransfer {
  fromPubkey : bytes;
  toPubkey : bytes;
  lamports : Z
}.

Record Provider : Type := mkProvider {
  sendAndConfirm_reply : Transfer -> Keypair -> Result string
}.

Inductive Event : Type :=
| SendAndConfirmTransaction (tx : Transfer) (signer : Keypair).

Record SendRequest : Type := mkSendRequest {
  from : string;
  privateKey : KeyInput;
  to : string;
  amount : Q
}.

(** [router.post('/:from/send', ...)] *)
Definition send_handler `{Float} `{Lib} (P : Provider) (req : SendRequest)
  : Act Event Response :=
  (reject_if (negb (truthy_input (privateKey req))
              || negb (truthy_string (to req))
              || negb (truthy_number (amount req)))
     400 "privateKey, to, amount required" ;;;
   sender <- lift (keypairFromPrivateKeyInput (privateKey req)) ;;
   reject_if (negb (String.eqb (bs58_encode (publicKey sender)) (from req)))
     400 "privateKey mismatch" ;;;
   let lamports := Math_floor (fmul (amount req) (inject_Z LAMPORTS_PER_SOL)) in
   toPub <- lift (PublicKey_new (to req)) ;;
   let tx := mkTransfer (publicKey sender) toPub lamports in
   sig <- await (SendAndConfirmTransaction tx sender)
            (sendAndConfirm_reply P tx sender) ;;
   ret (json [("from", FStr (from req)); ("to", FStr (to req));
              ("amount", FNum (amount req)); ("lamports", FInt lamports);
              ("txSignature", FStr sig)]))%act.

Definition send `{Float} `{Lib} (P : Provider) (req : SendRequest)
  : Response * list Event :=
  run (send_handler P req).

Record MnemonicRequest : Type := mkMnemonicRequest {
  mnemonic : string;
  account : nat;
  change : nat
}.

(** [router.post('/wallet/import/mnemonic', ...)] *)
Definition import_mnemonic_handler `{Bip39.Api} `{Lib} (req : MnemonicRequest)
  : Act Event Response :=
  (reject_if (negb (truthy_string (mnemonic req))) 400 "mnemonic required" ;;;
   kp <- lift (keypairFromMnemonic (mnemonic req) (account req) (change req)) ;;
   ret (json (exportKeypair kp)))%act.

Definition import_mnemonic `{Bip39.Api} `{Lib} (req : MnemonicRequest)
  : Response * list Event :=
  run (import_mnemonic_handler req).

Record CreateRequest : Type := mkCreateRequest {
  words : Z;
  create_account : nat;
  create_change : nat
}.

(** [router.post('/wallet/create', ...)] *)
Definition create_handler `{Bip39.Api} `{Lib} (rng : Bip39.Rng)
  (req : CreateRequest) : Act Event Response :=
  (reject_if (negb ((words req =? 12) || (words req =? 24)))
     400 "words must be 12 or 24" ;;;
   let entropy := if words req =? 12 then 128 else 256 in
   let m := Bip39.generateMnemonic rng entropy in
   kp <- lift (keypairFromMnemonic m (create_account req) (create_change req)) ;;
   ret (json (("mnemonic", FStr m) :: exportKeypair kp)))%act.

Definition create `{Bip39.Api} `{Lib} (rng : Bip39.Rng) (req : CreateRequest)
  : Response * list Event :=
  run (create_handler rng req).

End Solana.

(* ================================================================== *)
(** * Cardano router (cardano-server.mjs) *)
(* ================================================================== *)

Module Cardano.

Record Asset : Type := mkAsset { unit_ : string; quantity : Z }.

(** An unspent output as Blockfrost lists it. *)
Record Utxo : Type := mkUtxo {
  tx_hash : string;
  tx_index : Z;
  amount : list Asset
}.

Record Bip32PrivateKey : Type := mkXPrv { xprv : bytes }.

(** cardano-serialization-lib and the process environment. *)
Class Lib : Type := {
  (** [process.env.CARDANO_NETWORK], empty when unset *)
  CARDANO_NETWORK : string;
  Buffer_from_hex : string -> bytes;
  from_bip39_entropy : bytes -> bytes -> Bip32PrivateKey;
  derive : Bip32PrivateKey -> Z -> Bip32PrivateKey;
  (** [k.to_raw_key().to_public().hash()] *)
  raw_public_hash : Bip32PrivateKey -> bytes;
  (** [k.to_public().to_raw_key().hash()] *)
  public_raw_hash : Bip32PrivateKey -> bytes;
  BaseAddress_to_bech32 : Z -> bytes -> bytes -> string;
  Address_from_bech32 : string -> Result unit;
  TransactionHash_from_hex : string -> Result unit;
  BigNum_from_str : Z -> Result unit
}.

Definition NETWORK `{Lib} : string :=
  toLowerCase (if truthy_string CARDANO_NETWORK then CARDANO_NETWORK
               else "mainnet").

Definition hardened (i : Z) : Z := Z.lor i 2147483648.

Record Keys : Type := mkKeys {
  address : string;
  paymentKey : Bip32PrivateKey
}.

(** The account key [m/1852'/1815'/0']. *)
Definition accountKey `{Bip39.Api} `{Lib} (mnemonic : string) : Bip32PrivateKey :=
  let entropy := Bip39.mnemonicToEntropy mnemonic in
  let rootKey := from_bip39_entropy (Buffer_from_hex entropy) [] in
  derive (derive (derive rootKey (hardened 1852)) (hardened 1815)) (hardened 0).

Definition deriveKeysFromMnemonic `{Bip39.Api} `{Lib} (mnemonic : string)
  : Result Keys :=
  if negb (Bip39.validateMnemonic mnemonic) then Err "Invalid mnemonic"
  else
    let account := accountKey mnemonic in
    let paymentKey := derive (derive account 0) 0 in
    let stakeKey := derive (derive account 2) 0 in
    let paymentCred := raw_public_hash paymentKey in
    let stakeCred := raw_public_hash stakeKey in
    let networkId := if String.eqb NETWORK "testnet" then 0 else 1 in
    Ok (mkKeys (BaseAddress_to_bech32 networkId paymentCred stakeCred)
          paymentKey).

Record TxInput : Type := mkTxInput {
  in_hash : string;
  in_index : Z;
  in_value : Z
}.

(** The state of a [TransactionBuilder]. *)
Record Builder : Type := mkBuilder {
  b_outputs : list (string * Z);
  b_inputs : list TxInput
}.

Definition Builder_new : Builder := mkBuilder [] [].

Definition andThen {A B : Type} (r : Result A) (k : A -> Result B) : Result B :=
  match r with
  | Ok a => k a
  | Err msg => Err msg
  end.

(** [txBuilder.add_output(TransactionOutput.new(Address.from_bech32(to),
    Value.new(BigNum.from_str(v.toString()))))] *)
Definition add_output `{Lib} (b : Builder) (to : string) (v : Z) : Result Builder :=
  andThen (Address_from_bech32 to) (fun _ =>
  andThen (BigNum_from_str v) (fun _ =>
  Ok (mkBuilder (b_outputs b ++ [(to, v)]) (b_inputs b)))).

(** [txBuilder.add_input(Address.from_bech32(from), TransactionInput.new(
    TransactionHash.from_bytes(..), u.tx_index), Value.new(..))] *)
Definition add_input `{Lib} (b : Builder) (from : string) (u : Utxo) (v : Z)
  : Result Builder :=
  andThen (Address_from_bech32 from) (fun _ =>
  andThen (TransactionHash_from_hex (tx_hash u)) (fun _ =>
  andThen (BigNum_from_str v) (fun _ =>
  Ok (mkBuilder (b_outputs b)
        (b_inputs b ++ [mkTxInput (tx_hash u) (tx_index u) v]))))).

(** [u.amount.find(a => a.unit === "lovelace")] *)
Definition find_lovelace (u : Utxo) : option Asset :=
  find (fun a => String.eqb (unit_ a) "lovelace") (amount u).

(** The input loop of the send route: the outputs are visited in the
    order of the provider's reply. *)
Fixpoint addInputs `{Lib} (from : string) (utxos : list Utxo) (target : Z)
  (b : Builder) (totalInput : Z) : Result (Builder * Z) :=
  match utxos with
  | [] => Ok (b, totalInput)
  | u :: rest =>
      match find_lovelace u with
      | None => addInputs from rest target b totalInput
      | Some lovelace =>
          let value := quantity lovelace in
          let totalInput' := totalInput + value in
          match add_input b from u value with
          | Err msg => Err msg
          | Ok b' =>
              if totalInput' >=? target then Ok (b', totalInput')
              else addInputs from rest target b' totalInput'
          end
      end
  end.

Record Provider : Type := mkProvider {
  utxos_reply : string -> Result (list Utxo);
  (** [add_change_if_needed], [build] and [hash_transaction] *)
  build_reply : Builder -> string -> Result bytes;
  (** the serialised signed transaction *)
  signed_bytes : Bip32PrivateKey -> bytes -> bytes;
  submit_reply : bytes -> Result string
}.

Inductive Event : Type :=
| DeriveKeys (mnemonic : string)
| GetUtxos (address : string)
| MakeWitness (key : Bip32PrivateKey) (b : Builder)
| SubmitTx (tx : bytes).

Record SendRequest : Type := mkSendRequest {
  mnemonic : string;
  to : string;
  req_amount : Q
}.

Definition amountLovelace `{Float} (req : SendRequest) : Z :=
  Math_floor (fmul (req_amount req) (inject_Z 1000000)).

(** [router.post("/send", ...)] *)
Definition send_handler `{Float} `{Bip39.Api} `{Lib} (P : Provider)
  (req : SendRequest)
  : Act Event Response :=
  (reject_if (negb (truthy_string (mnemonic req))
              || negb (truthy_string (to req))
              || negb (truthy_number (req_amount req)))
     400 "mnemonic, to, amount required" ;;;
   reject_if (negb (startsWith (to req) "addr"))
     400 "Invalid Cardano address" ;;;
   let amountLovelace := amountLovelace req in
   reject_if (amountLovelace <? 1000000) 400 "Minimum 1 ADA required" ;;;
   emit (DeriveKeys (mnemonic req)) ;;;
   keys <- lift (deriveKeysFromMnemonic (mnemonic req)) ;;
   let from := address keys in
   utxos <- await (GetUtxos from) (utxos_reply P from) ;;
   reject_if (Nat.eqb (List.length utxos) 0) 400 "No UTXO available" ;;;
   b1 <- lift (add_output Builder_new (to req) amountLovelace) ;;
   r <- lift (addInputs from utxos (amountLovelace + 3000000) b1 0) ;;
   txBody <- lift (build_reply P (fst r) from) ;;
   emit (MakeWitness (paymentKey keys) (fst r)) ;;;
   let signedTx := signed_bytes P (paymentKey keys) txBody in
   submit <- await (SubmitTx signedTx) (submit_reply P signedTx) ;;
   ret (json [("from", FStr from); ("to", FStr (to req));
              ("amount", FNum (req_amount req));
              ("txHash", FStr submit)]))%act.

Definition send `{Float} `{Bip39.Api} `{Lib} (P : Provider) (req : SendRequest)
  : Response * list Event :=
  run (send_handler P req).

(** [router.post("/wallet/import", ...)] *)
Definition import_handler `{Bip39.Api} `{Lib} (m : string)
  : Act Event Response :=
  (reject_if (negb (truthy_string m)) 400 "Mnemonic required" ;;;
   keys <- lift (deriveKeysFromMnemonic m) ;;
   ret (json [("network", FStr NETWORK); ("mnemonic", FStr m);
              ("address", FStr (address keys))]))%act.

Definition import `{Bip39.Api} `{Lib} (m : string) : Response * list Event :=
  run (import_handler m).

(** [router.post("/wallet/create", ...)] *)
Definition create_handler `{Bip39.Api} `{Lib} (rng : Bip39.Rng) (words : Z)
  : Act Event Response :=
  (let strength := if words =? 24 then 256 else 128 in
   let m := Bip39.generateMnemonic rng strength in
   keys <- lift (deriveKeysFromMnemonic m) ;;
   ret (json [("network", FStr NETWORK); ("mnemonic", FStr m);
              ("address", FStr (address keys))]))%act.

Definition create `{Bip39.Api} `{Lib} (rng : Bip39.Rng) (words : Z)
  : Response * list Event :=
  run (create_handler rng words).

(* ---------------------------------------------------------------- *)
(** ** The second router of the file *)

Module B.

Definition deriveKeysFromMnemonic `{Bip39.Api} `{Lib} (mnemonic : string)
  : Result Keys :=
  if negb (Bip39.validateMnemonic mnemonic) then Err "Invalid mnemonic"
  else
    let account := accountKey mnemonic in
    let paymentKey := derive (derive account 0) 0 in
    let stakeKey := derive (derive account 2) 0 in
    let networkId := if String.eqb NETWORK "mainnet" then 1 else 0 in
    let paymentCred := public_raw_hash paymentKey in
    let stakeCred := public_raw_hash stakeKey in
    Ok (mkKeys (BaseAddress_to_bech32 networkId paymentCred stakeCred)
          paymentKey).

(** The input loop: an output without a lovelace entry is added with the
    value zero. *)
Fixpoint addInputs `{Lib} (from : string) (utxos : list Utxo) (target : Z)
  (b : Builder) (totalInput : Z) : Result (Builder * Z) :=
  match utxos with
  | [] => Ok (b, totalInput)
  | u :: rest =>
      let value := match find_lovelace u with
                   | Some lov => quantity lov
                   | None => 0
                   end in
      let totalInput' := totalInput + value in
      match add_input b from u value with
      | Err msg => Err msg
      | Ok b' =>
          if totalInput' >=? target then Ok (b', totalInput')
          else addInputs from rest target b' totalInput'
      end
  end.

(** [router.post("/send", ...)] *)
Definition send_handler `{Float} `{Bip39.Api} `{Lib} (P : Provider)
  (req : SendRequest)
  : Act Event Response :=
  (reject_if (negb (truthy_string (mnemonic req))
              || negb (truthy_string (to req))
              || negb (truthy_number (req_amount req)))
     400 "mnemonic, to, amount required" ;;;
   let amountLovelace := amountLovelace req in
   emit (DeriveKeys (mnemonic req)) ;;;
   keys <- lift (deriveKeysFromMnemonic (mnemonic req)) ;;
   let from := address keys in
   utxos <- await (GetUtxos from) (utxos_reply P from) ;;
   reject_if (Nat.eqb (List.length utxos) 0) 400 "No UTXO available" ;;;
   b1 <- lift (add_output Builder_new (to req) amountLovelace) ;;
   r <- lift (addInputs from utxos (amountLovelace + 2000000) b1 0) ;;
   txBody <- lift (build_reply P (fst r) from) ;;
   emit (MakeWitness (paymentKey keys) (fst r)) ;;;
   let signedTx := signed_bytes P (paymentKey keys) txBody in
   submit <- await (SubmitTx signedTx) (submit_reply P signedTx) ;;
   ret (json [("from", FStr from); ("to", FStr (to req));
              ("amount", FNum (req_amount req));
              ("txHash", FStr submit)]))%act.

Definition send `{Float} `{Bip39.Api} `{Lib} (P : Provider) (req : SendRequest)
  : Response * list Event :=
  run (send_handler P req).

Definition import_handler `{Bip39.Api} `{Lib} (m : string)
  : Act Event Response :=
  (reject_if (negb (truthy_string m)) 400 "Mnemonic required" ;;;
   keys <- lift (deriveKeysFromMnemonic m) ;;
   ret (json [("network", FStr NETWORK); ("mnemonic", FStr m);
              ("address", FStr (address keys))]))%act.

Definition import `{Bip39.Api} `{Lib} (m : string) : Response * list Event :=
  run (import_handler m).

End B.

End Cardano.

(* ================================================================== *)
(** * Wallet import and balance routes *)
(* ================================================================== *)

Module BtcWallet.
Import Btc.

(** [router.post('/wallet/import', ...)] of btc-server.mjs *)
Definition import_handler `{Lib} (wif : string) : Act Event Response :=
  (reject_if (negb (truthy_string wif)) 400 "privateKeyWIF required" ;;;
   keyPair <- lift (ECPair_fromWIF wif) ;;
   let address := p2wpkh_address (publicKey keyPair) in
   ret (json [("network", FStr "mainnet"); ("address", FStr address);
              ("privateKeyWIF", FStr wif)]))%act.

Definition import `{Lib} (wif : string) : Response * list Event :=
  run (import_handler wif).

End BtcWallet.

Module EvmWallet.
Import Evm.

(** [router.post('/wallet/import', ...)] of the EVM router *)
Definition import_handler `{Lib} (pk chain : string) : Act Event Response :=
  (reject_if (negb (truthy_string pk)) 400 "privateKey required" ;;;
   wallet <- lift (loadWalletFromPrivateKey pk chain) ;;
   ret (json [("address", FStr (address wallet)); ("chain", FStr chain)]))%act.

Definition import `{Lib} (pk chain : string) : Response * list Event :=
  run (import_handler pk chain).

(** [router.get('/wallet/:address/balance', ...)] *)
Definition balance_handler `{Lib} (P : Provider) (addr chain : string)
  : Act Event Response :=
  (reject_if (negb (isAddress addr)) 400 "invalid address" ;;;
   _ <- lift (getProvider chain) ;;
   bal <- await (GetBalance addr) (balance_reply P addr) ;;
   ret (json [("chain", FStr chain); ("address", FStr addr);
              ("balance", FStr (formatEther bal))]))%act.

Definition balance `{Lib} (P : Provider) (addr chain : string)
  : Response * list Event :=
  run (balance_handler P addr chain).

(** The calls of an ERC20 contract and their replies. *)
Inductive TokenEvent : Type :=
| BalanceOf (token owner : string)
| Decimals (token : string).

Record TokenProvider : Type := mkTokenProvider {
  balanceOf_reply : string -> string -> Result Z;
  decimals_reply : string -> Result Z
}.

(** [formatUnits(raw, dec)] of ethers, which rejects a number of decimals
    it cannot represent. *)
Class Units : Type := {
  formatUnits : Z -> Z -> Result string
}.

(** [await token.decimals().catch(() => 18)] *)
Definition decimals_or_18 (T : TokenProvider) (token : string)
  : Act TokenEvent Z :=
  (emit (Decimals token) ;;;
   match decimals_reply T token with
   | Ok d => ret d
   | Err _ => ret 18
   end)%act.

(** [router.get('/token/:chain/:tokenAddress/balance/:owner', ...)] *)
Definition token_balance_handler `{Lib} `{Units} (T : TokenProvider)
  (chain tokenAddress owner : string) : Act TokenEvent Response :=
  (reject_if (negb (isAddress tokenAddress) || negb (isAddress owner))
     400 "invalid address" ;;;
   _ <- lift (getProvider chain) ;;
   raw <- await (BalanceOf tokenAddress owner)
            (balanceOf_reply T tokenAddress owner) ;;
   dec <- decimals_or_18 T tokenAddress ;;
   balance <- lift (formatUnits raw dec) ;;
   ret (json [("chain", FStr chain); ("tokenAddress", FStr tokenAddress);
              ("owner", FStr owner); ("balance", FStr balance)]))%act.

Definition token_balance `{Lib} `{Units} (T : TokenProvider)
  (chain tokenAddress owner : string) : Response * list TokenEvent :=
  run (token_balance_handler T chain tokenAddress owner).

End EvmWallet.

Module SolanaWallet.
Import Solana.

(** [Array.from(bytes)]: the byte values as numbers. *)
Definition Array_from (b : bytes) : list Z :=
  map (fun x => Z.of_N (Byte.to_N x)) b.

(** [router.post('/wallet/import', ...)] of solana_server.mjs *)
Definition import_handler `{Lib} (privateKey : KeyInput)
  : Act Event Response :=
  (reject_if (negb (truthy_input privateKey)) 400 "privateKey required" ;;;
   kp <- lift (keypairFromPrivateKeyInput privateKey) ;;
   ret (json (exportKeypair kp)))%act.

Definition import `{Lib} (privateKey : KeyInput) : Response * list Event :=
  run (import_handler privateKey).

End SolanaWallet.


(* ================================================================== *)
(** * Vocabulary of the statements *)
(* ================================================================== *)

Module BtcSpec.
Import Btc.

Definition ascending : list Utxo -> Prop :=
  StronglySorted (fun a b => value a <= value b).

Definition input_total (p : Psbt) : Z :=
  fold_right (fun i acc => witness_value i + acc) 0 (inputs p).

Definition output_total (p : Psbt) : Z :=
  fold_right (fun o acc => snd o + acc) 0 (outputs p).

(** The rate [fetchFeeRate] resolves to. *)
Definition fetchedRate (P : Provider) : Q :=
  match fee_estimates_reply P with
  | Ok data =>
      inject_Z (Z.max (Math_round (or_else (data "1") (inject_Z 10))) 1)
  | Err _ => inject_Z 10
  end.

(** [feeRate || await fetchFeeRate()] *)
Definition effectiveRate (P : Provider) (req : SendRequest) : Q :=
  match feeRate req with
  | Some r => if truthy_number r then r else fetchedRate P
  | None => fetchedRate P
  end.

(** The request carries its three required fields. *)
Definition well_formed (req : SendRequest) : Prop :=
  truthy_string (privateKeyWIF req) = true /\
  truthy_string (to req) = true /\
  truthy_number (amount req) = true.

(** The selection and the fee of a send over the listed outputs. *)
Definition selection `{Float} (req : SendRequest) (utxos : list Utxo)
  : Selection :=
  selectUtxosGreedy utxos (btcToSats (amount req) + 1000).

Definition sendFee `{Float} (P : Provider) (req : SendRequest)
  (utxos : list Utxo) : Z :=
  txFee (Z.of_nat (List.length (chosen (selection req utxos)))) 2
    (effectiveRate P req).

End BtcSpec.

Module EvmSpec.
Import Evm.

(** The 400 answers of the send route that report missing funds. *)
Definition is_funds_error (r : Response) : Prop :=
  r = error_response 400 "insufficient balance" \/
  r = error_response 400 "balance too low for gas".

(** The request passes the checks that precede the signer check. *)
Definition well_formed `{Lib} (req : SendRequest) : Prop :=
  isAddress (from req) = true /\
  isAddress (to req) = true /\
  truthy_string (req_privateKey req) = true.

End EvmSpec.

Module SolanaSpec.
Import Solana.

Definition well_formed (req : SendRequest) : Prop :=
  truthy_input (privateKey req) = true /\
  truthy_string (to req) = true /\
  truthy_number (amount req) = true.

End SolanaSpec.

Module CardanoSpec.
Import Cardano.

(** The outputs the first router can spend, in the order of the provider's
    reply: those that carry a lovelace entry. *)
Definition candidates (utxos : list Utxo) : list TxInput :=
  flat_map (fun u =>
              match find_lovelace u with
              | Some a => [mkTxInput (tx_hash u) (tx_index u) (quantity a)]
              | None => []
              end) utxos.

(** The outputs the second router spends: every one, an output without a
    lovelace entry counting for zero. *)
Definition candidatesB (utxos : list Utxo) : list TxInput :=
  map (fun u =>
         mkTxInput (tx_hash u) (tx_index u)
           (match find_lovelace u with
            | Some a => quantity a
            | None => 0
            end)) utxos.

Definition total (l : list TxInput) : Z :=
  fold_right (fun i acc => in_value i + acc) 0 l.

(** First fit in the given order: the inputs up to and including the first
    one with which the running sum reaches the target. *)
Fixpoint firstFit (l : list TxInput) (target : Z) (acc : Z) : list TxInput :=
  match l with
  | [] => []
  | i :: r =>
      if acc + in_value i >=? target then [i]
      else i :: firstFit r target (acc + in_value i)
  end.

(** The library accepts the sender address and every listed output. *)
Definition accepted `{Lib} (from : string) (l : list TxInput) : Prop :=
  Address_from_bech32 from = Ok tt /\
  forall i, In i l ->
    TransactionHash_from_hex (in_hash i) = Ok tt /\
    BigNum_from_str (in_value i) = Ok tt.

(** The request passes the field checks of the first router. *)
Definition well_formed (req : SendRequest) : Prop :=
  truthy_string (mnemonic req) = true /\
  truthy_string (to req) = true /\
  truthy_number (req_amount req) = true /\
  startsWith (to req) "addr" = true.

End CardanoSpec.

Module AmountSpec.

(** [units] is the amount [a] converted to base units of [10^decimals] by
    flooring the product the program computes: an integer not above the
    product and less than one unit below it. *)
Definition floored `{Float} (a : Q) (decimals : Z) (units : Z) : Prop :=
  let product := fmul a (inject_Z (10 ^ decimals)) in
  units = Qfloor product /\
  (inject_Z units <= product)%Q /\
  (product - 1 < inject_Z units)%Q.

End AmountSpec.

Module SelectionSpec.
Import Btc.

(** The reference of an unspent output: transaction id and output index. *)
Definition outpoint (u : Utxo) : string * Z := (txid u, vout u).

Definition input_outpoint (i : PsbtInput) : string * Z := (hash i, index i).

Definition non_negative (utxos : list Utxo) : Prop :=
  Forall (fun u => 0 <= value u) utxos.

End SelectionSpec.

Module BtcTraceSpec.
Import Btc.

Definition is_broadcast (e : Event) : bool :=
  match e with
  | PostTx _ => true
  | _ => false
  end.

(** The caller supplied a usable fee rate. *)
Definition rate_supplied (req : SendRequest) : bool :=
  match feeRate req with
  | Some r => truthy_number r
  | None => false
  end.

(** One of the three required fields of a send request is missing. *)
Definition incomplete (req : SendRequest) : Prop :=
  truthy_string (privateKeyWIF req) = false \/
  truthy_string (to req) = false \/
  truthy_number (amount req) = false.

(** The two outputs of the transaction a send builds. *)
Definition sendOutputs `{Float} (P : Provider) (req : SendRequest)
  (utxos : list Utxo) : list (string * Z) :=
  [(to req, btcToSats (amount req));
   (from req, sum (BtcSpec.selection req utxos) - btcToSats (amount req)
              - BtcSpec.sendFee P req utxos)].

Definition sendPsbt `{Float} `{Lib} (P : Provider) (req : SendRequest)
  (key : ECPair) (utxos : list Utxo) : Psbt :=
  mkPsbt (map (witnessInput key) (chosen (BtcSpec.selection req utxos)))
    (sendOutputs P req utxos).

End BtcTraceSpec.

Module PathSpec.

Definition is_digit (c : ascii) : bool :=
  (Nat.leb 48 (nat_of_ascii c) && Nat.leb (nat_of_ascii c) 57)%bool.

Fixpoint all_digits (s : string) : bool :=
  match s with
  | EmptyString => true
  | String c r => (is_digit c && all_digits r)%bool
  end.

(** The number a string of decimal digits denotes, read from the left
    after [acc]. *)
Fixpoint decimal_value (s : string) (acc : nat) : nat :=
  match s with
  | EmptyString => acc
  | String c r => decimal_value r (10 * acc + (nat_of_ascii c - 48))
  end.

End PathSpec.

Module EvmTraceSpec.
Import Evm.

(** The chains of the table [CHAINS]. *)
Definition supported (chain : string) : Prop :=
  In chain ["sonic"; "ethereum"; "base"; "polygon"].

(** The property names that every object inherits: [CHAINS[chain]] finds
    a value for them although the table does not list them. *)
Definition inherited (chain : string) : Prop :=
  In chain ["constructor"; "__proto__"; "hasOwnProperty"; "isPrototypeOf";
            "propertyIsEnumerable"; "toLocaleString"; "toString"; "valueOf";
            "__defineGetter__"; "__defineSetter__"; "__lookupGetter__";
            "__lookupSetter__"].

(** A chain name for which [CHAINS[chain]] is undefined. *)
Definition unlisted (chain : string) : Prop :=
  ~ supported chain /\ ~ inherited chain.

(** The gas price a send pays: [maxFeePerGas ?? gasPrice]. *)
Definition quotedPrice (fd : FeeData) : option Z :=
  nullish_or (maxFeePerGas fd) (gasPrice fd).

End EvmTraceSpec.

(* ================================================================== *)
(** * Concrete libraries and providers for the examples *)
(* ================================================================== *)

Module Fixtures.

(** Exact multiplication: what the machine computes on the integers of the
    examples. *)
Definition exact_float : Float :=
  {| fmul := Qmult;
     fmul_int := fun a b _ => Qeq_refl (inject_Z (a * b)) |}.

Definition text_bytes (s : string) : bytes := list_byte_of_string s.
Definition bytes_text (b : bytes) : string := string_of_list_byte b.

(** A key is its own name; its address is the name behind a prefix. *)
Definition btc_lib : Btc.Lib :=
  {| Btc.ECPair_fromWIF := fun wif =>
       if truthy_string wif then Ok (Btc.mkECPair (text_bytes wif) (text_bytes wif))
       else Err "Invalid WIF";
     Btc.p2wpkh_address := fun pub => ("bc1q" ++ bytes_text pub)%string;
     Btc.p2wpkh_output := fun pub => pub;
     Btc.bip32_fromSeed := fun seed => Btc.mkNode seed seed [];
     Btc.derivePath := fun node path =>
       Btc.mkNode (Btc.node_privateKey node ++ text_bytes path)
                  (Btc.node_publicKey node ++ text_bytes path) [];
     Btc.toWIF := fun node => bytes_text (Btc.node_privateKey node);
     Btc.checkOutput := fun address v =>
       if v <? 0 then Err "Invalid output value" else Ok tt |}.

Definition btc_provider (utxos : list Btc.Utxo) : Btc.Provider :=
  {| Btc.utxo_reply := fun _ => Ok utxos;
     Btc.fee_estimates_reply := Err "unreachable";
     Btc.sign_reply := fun _ _ => Ok "signed-hex";
     Btc.tx_reply := fun _ => Ok "txid-1" |}.

(** One BTC from alice to bob at 10 sat/vB. *)
Definition btc_request (from : string) : Btc.SendRequest :=
  Btc.mkSendRequest from "alice" "bc1qbob" (inject_Z 1) (Some (inject_Z 10)).

Definition alice : Btc.ECPair :=
  Btc.mkECPair (text_bytes "alice") (text_bytes "alice").

(** The random generator is a counter; every non-empty phrase is valid. *)
Definition bip39_api : Bip39.Api :=
  {| Bip39.Rng := nat;
     Bip39.validateMnemonic := truthy_string;
     Bip39.mnemonicToSeedSync := text_bytes;
     Bip39.mnemonicToEntropy := fun m => m;
     Bip39.generateMnemonic := fun rng _ => ("word" ++ decimal rng)%string |}.

(** A 32-byte text is a seed and is its own public key; a 64-byte text is
    a secret key whose second half is the public key. *)
Definition solana_lib : Solana.Lib :=
  {| Solana.Keypair_fromSecretKey := fun b =>
       if Nat.eqb (List.length b) 64 then Ok (Solana.mkKeypair (skipn 32 b) b)
       else Err "bad secret key size";
     Solana.Keypair_fromSeed := fun b =>
       if Nat.eqb (List.length b) 32 then Ok (Solana.mkKeypair b (b ++ b))
       else Err "bad seed size";
     Solana.bs58_decode := fun s =>
       if String.prefix "[" s then Err "Non-base58 character"
       else Ok (text_bytes s);
     Solana.bs58_encode := bytes_text;
     Solana.Buffer_from_base64 := text_bytes;
     Solana.JSON_parse := fun s =>
       if String.prefix "[" s then Ok (Solana.JArray [])
       else Err "Unexpected token";
     Solana.PublicKey_new := fun s =>
       if truthy_string s then Ok (text_bytes s) else Err "Invalid public key input";
     Solana.hd_derivePath := fun path seed => text_bytes (path ++ seed)%string;
     Solana.toHex := bytes_text |}.

Definition solana_provider : Solana.Provider :=
  {| Solana.sendAndConfirm_reply := fun _ _ => Ok "signature-1" |}.

Definition solana_key : string := "0123456789abcdef0123456789abcdef".

Definition evm_lib : Evm.Lib :=
  {| Evm.isAddress := fun s => String.prefix "0x" s;
     Evm.Wallet_new := fun pk =>
       if truthy_string pk then Ok (Evm.mkWallet ("0x" ++ pk)%string pk)
       else Err "invalid private key";
     Evm.Wallet_fromPhrase := fun m =>
       if truthy_string m then Ok (Evm.mkWallet ("0x" ++ m)%string m)
       else Err "invalid mnemonic";
     Evm.formatEther := fun wei => decimal (Z.to_nat wei) |}.

Definition evm_provider (balance gas price : Z) : Evm.Provider :=
  {| Evm.balance_reply := fun _ => Ok balance;
     Evm.feeData_reply := Ok (Evm.mkFeeData (Some price) None None);
     Evm.estimateGas_reply := fun _ _ => Ok gas;
     Evm.sendTransaction_reply := fun _ _ => Ok "0xhash" |}.

Definition evm_request (from : string) (a : Evm.Amount) : Evm.SendRequest :=
  Evm.mkSendRequest from "0xB0B" a "A11CE" "ethereum" None.

Definition cardano_lib : Cardano.Lib :=
  {| Cardano.CARDANO_NETWORK := "";
     Cardano.Buffer_from_hex := text_bytes;
     Cardano.from_bip39_entropy := fun e _ => Cardano.mkXPrv e;
     Cardano.derive := fun k i =>
       Cardano.mkXPrv (Cardano.xprv k ++ text_bytes (decimal (Z.to_nat (i mod 10))));
     Cardano.raw_public_hash := Cardano.xprv;
     Cardano.public_raw_hash := Cardano.xprv;
     Cardano.BaseAddress_to_bech32 := fun _ p _ => ("addr1" ++ bytes_text p)%string;
     Cardano.Address_from_bech32 := fun s =>
       if String.prefix "addr" s then Ok tt else Err "Invalid bech32";
     Cardano.TransactionHash_from_hex := fun _ => Ok tt;
     Cardano.BigNum_from_str := fun z =>
       if z <? 0 then Err "Invalid number" else Ok tt |}.

Definition cardano_provider (utxos : list Cardano.Utxo) : Cardano.Provider :=
  {| Cardano.utxos_reply := fun _ => Ok utxos;
     Cardano.build_reply := fun _ _ => Ok [];
     Cardano.signed_bytes := fun _ body => body;
     Cardano.submit_reply := fun _ => Ok "txhash-1" |}.

Definition ada (h : string) (i : Z) (lovelace : Z) : Cardano.Utxo :=
  Cardano.mkUtxo h i [Cardano.mkAsset "lovelace" lovelace].

End Fixtures.


Module WalletFixtures.

(** Token units are formatted as the raw amount and the number of
    decimals. *)
Definition units : EvmWallet.Units :=
  {| EvmWallet.formatUnits := fun raw dec =>
       if dec <? 0 then Err "invalid decimals"
       else Ok (decimal (Z.to_nat raw) ++ "e-" ++ decimal (Z.to_nat dec))%string |}.

(** A token whose [decimals] call reverts. *)
Definition plain_token (balance : Z) : EvmWallet.TokenProvider :=
  {| EvmWallet.balanceOf_reply := fun _ _ => Ok balance;
     EvmWallet.decimals_reply := fun _ => Err "execution reverted" |}.

End WalletFixtures.


Module SolanaFixtures.

(** A 64-byte secret key and the pair the toy library builds from it. *)
Definition secret : string :=
  "0123456789abcdef0123456789abcdefABCDEFGHIJKLMNOPQRSTUVWXYZabcdef".

Definition pair : Solana.Keypair :=
  Solana.mkKeypair (skipn 32 (Fixtures.text_bytes secret))
                   (Fixtures.text_bytes secret).

Definition request (from : string) (amount : Q) : Solana.SendRequest :=
  Solana.mkSendRequest from (Solana.KeyString secret) "bob" amount.

End SolanaFixtures.


(* ================================================================== *)
(** * Properties *)
(* ================================================================== *)

(** ** The handler monad *)

Section ActLemmas.
Context {E : Type}.

Lemma bind_ret {A B : Type} (a : A) (k : A -> Act E B) (tr : list E) :
  bind (ret a) k tr = k a tr.
Proof. reflexivity. Qed.

Lemma bind_assoc {A B C : Type} (m : Act E A) (k : A -> Act E B)
  (h : B -> Act E C) (tr : list E) :
  bind (bind m k) h tr = bind m (fun a => bind (k a) h) tr.
Proof.
  unfold bind. destruct (m tr) as [[a | r | msg] tr']; try reflexivity.
Qed.

Lemma bind_reject_if {B : Type} (c : bool) (code : Z) (msg : string)
  (k : unit -> Act E B) (tr : list E) :
  bind (reject_if c code msg) k tr =
  if c then (Respond B (error_response code msg), tr) else k tt tr.
Proof. destruct c; reflexivity. Qed.

Lemma bind_lift {A B : Type} (r : Result A) (k : A -> Act E B) (tr : list E) :
  bind (lift r) k tr =
  match r with
  | Ok a => k a tr
  | Err msg => (Raise B msg, tr)
  end.
Proof. destruct r; reflexivity. Qed.

Lemma bind_emit {B : Type} (e : E) (k : unit -> Act E B) (tr : list E) :
  bind (emit e) k tr = k tt (tr ++ [e]).
Proof. reflexivity. Qed.

Lemma bind_await {A B : Type} (e : E) (r : Result A) (k : A -> Act E B)
  (tr : list E) :
  bind (await e r) k tr =
  match r with
  | Ok a => k a (tr ++ [e])
  | Err msg => (Raise B msg, tr ++ [e])
  end.
Proof. destruct r; reflexivity. Qed.

End ActLemmas.

(** ** Rounding *)

Lemma Math_floor_le (x : Q) : (inject_Z (Math_floor x) <= x)%Q.
Proof. apply Qfloor_le. Qed.

Lemma Math_floor_gt (x : Q) : (x - 1 < inject_Z (Math_floor x))%Q.
Proof.
  unfold Math_floor. pose proof (Qlt_floor x) as H.
  rewrite inject_Z_plus in H.
  assert (E : (inject_Z 1 == 1)%Q) by reflexivity.
  rewrite E in H. lra.
Qed.

Lemma Math_ceil_lt (x : Q) : (inject_Z (Math_ceil x) < x + 1)%Q.
Proof.
  unfold Math_ceil. pose proof (Qceiling_lt x) as H.
  unfold Z.sub in H. rewrite inject_Z_plus in H.
  assert (E : (inject_Z (- (1)) == - (1))%Q) by reflexivity.
  rewrite E in H. lra.
Qed.

(** ** Coin selection *)

Module BtcFacts.
Import Btc BtcSpec.

Lemma insertByValue_perm (u : Utxo) (l : list Utxo) :
  Permutation (insertByValue u l) (u :: l).
Proof.
  induction l as [| x r IH]; simpl.
  - apply Permutation_refl.
  - destruct (value u <=? value x).
    + apply Permutation_refl.
    + eapply perm_trans; [apply perm_skip, IH | apply perm_swap].
Qed.

Lemma sortByValue_perm (l : list Utxo) : Permutation (sortByValue l) l.
Proof.
  induction l as [| u r IH]; simpl.
  - constructor.
  - eapply perm_trans; [apply insertByValue_perm | apply perm_skip, IH].
Qed.

Lemma insertByValue_ascending (u : Utxo) (l : list Utxo) :
  ascending l -> ascending (insertByValue u l).
Proof.
  unfold ascending. induction l as [| x r IH]; simpl; intros Hs.
  - repeat constructor.
  - inversion Hs as [| ? ? Hr Hx]; subst.
    destruct (Z.leb_spec (value u) (value x)) as [Hle | Hgt].
    + constructor; [assumption |].
      constructor; [assumption |].
      eapply Forall_impl; [| exact Hx]. simpl. intros; lia.
    + constructor; [apply IH; assumption |].
      eapply Permutation_Forall.
      * apply Permutation_sym, insertByValue_perm.
      * constructor; [lia | assumption].
Qed.

Lemma sortByValue_ascending (l : list Utxo) : ascending (sortByValue l).
Proof.
  induction l as [| u r IH]; simpl.
  - constructor.
  - apply insertByValue_ascending, IH.
Qed.

Lemma sum_values_app (a b : list Utxo) :
  sum_values (a ++ b) = sum_values a + sum_values b.
Proof. induction a as [| u r IH]; simpl; [reflexivity | rewrite IH; lia]. Qed.

Lemma sum_values_perm (a b : list Utxo) :
  Permutation a b -> sum_values a = sum_values b.
Proof. induction 1; simpl; lia. Qed.

Lemma sum_values_nonneg (l : list Utxo) :
  Forall (fun u => 0 <= value u) l -> 0 <= sum_values l.
Proof. induction 1; simpl; lia. Qed.

(** The loop returns the shortest non-empty prefix of the visited list whose
    running sum reaches the target, and the whole list when there is none. *)
Lemma greedyLoop_prefix (s : list Utxo) (t : Z) :
  forall (c : list Utxo) (acc : Z),
  exists p rest,
    s = p ++ rest /\
    greedyLoop s t c acc = mkSelection (c ++ p) (acc + sum_values p) /\
    (forall q q', p = q ++ q' -> q <> [] -> q' <> [] -> acc + sum_values q < t) /\
    (rest = [] \/ (p <> [] /\ t <= acc + sum_values p)).
Proof.
  induction s as [| u r IH]; intros c acc; simpl.
  - exists [], []. repeat split.
    + now rewrite app_nil_r, Z.add_0_r.
    + intros q q' Hq Hne. destruct q; [congruence | discriminate].
    + now left.
  - destruct (Z.geb_spec (acc + value u) t) as [Hge | Hlt].
    + exists [u], r. repeat split.
      * simpl. f_equal. lia.
      * intros q q' Hq Hne Hne'.
        destruct q as [| x q]; [congruence |].
        destruct q; destruct q'; try congruence; discriminate.
      * right. split; [discriminate | simpl; lia].
    + destruct (IH (c ++ [u]) (acc + value u)) as (p & rest & Hs & Hr & Hmin & Hend).
      exists (u :: p), rest. repeat split.
      * simpl. now rewrite Hs.
      * rewrite Hr. rewrite <- app_assoc. simpl. f_equal. lia.
      * intros q q' Hq Hne Hne'.
        destruct q as [| x q]; [congruence |].
        simpl in Hq. injection Hq as Hx Hp. subst x.
        destruct q as [| y q].
        -- simpl. lia.
        -- specialize (Hmin (y :: q) q' Hp ltac:(discriminate) Hne').
           simpl in *. lia.
      * destruct Hend as [Hnil | [Hp Hsum]].
        -- now left.
        -- right. split; [discriminate | simpl; lia].
Qed.

Lemma selectUtxosGreedy_sum (utxos : list Utxo) (target : Z) :
  sum (selectUtxosGreedy utxos target) =
  sum_values (chosen (selectUtxosGreedy utxos target)).
Proof.
  unfold selectUtxosGreedy.
  destruct (greedyLoop_prefix (sortByValue utxos) target [] 0)
    as (p & rest & _ & Hr & _).
  rewrite Hr. reflexivity.
Qed.

Lemma sum_values_prefix_le (q q' : list Utxo) :
  Forall (fun u => 0 <= value u) (q ++ q') ->
  sum_values q <= sum_values (q ++ q').
Proof.
  intros H. rewrite sum_values_app.
  apply Forall_app in H as [_ H']. apply sum_values_nonneg in H'. lia.
Qed.

End BtcFacts.

Import Btc BtcSpec BtcFacts.

(** ** Stepping through a handler *)

Ltac act_head m k tr :=
  lazymatch m with
  | reject_if ?c ?code ?msg =>
      rewrite (bind_reject_if c code msg k tr); destruct c eqn:?
  | lift ?r => rewrite (bind_lift r k tr); destruct r eqn:?
  | await ?e ?r => rewrite (bind_await e r k tr); destruct r eqn:?
  | emit ?e => rewrite (bind_emit e k tr)
  | ret ?a => rewrite (bind_ret a k tr)
  | bind ?m' ?k' => rewrite (bind_assoc m' k' k tr)
  | (if ?c then _ else _) => destruct c eqn:?
  | (match ?x with Some _ => _ | None => _ end) => destruct x eqn:?
  | (match ?x with Ok _ => _ | Err _ => _ end) => destruct x eqn:?
  end.

Ltac act_step :=
  cbv beta zeta;
  lazymatch goal with
  | |- context [bind ?m ?k ?tr] => act_head m k tr
  end.

Ltac act_run :=
  repeat act_step; try unfold ret; cbv beta iota zeta; cbn [app fst snd].

(** An event that does not occur in an explicit trace. *)
Ltac absent :=
  let H := fresh in
  intros H; cbn [In] in H;
  repeat match type of H with
         | _ \/ _ => destruct H as [H | H]
         end;
  solve [discriminate H | contradiction H].

Lemma orb3_false (a b c : bool) :
  negb a || negb b || negb c = false -> a = true /\ b = true /\ c = true.
Proof. destruct a, b, c; simpl; intros; try discriminate; auto. Qed.

Lemma length_zero_false {A : Type} (l : list A) :
  Nat.eqb (List.length l) 0 = false -> l <> [].
Proof. destruct l; simpl; [discriminate | intros _; discriminate]. Qed.

(** Use the facts known about the request to discard a branch of the
    handler that they exclude. *)
Ltac excluded :=
  repeat match goal with
         | H : _ /\ _ |- _ => destruct H
         | H : well_formed _ |- _ => unfold well_formed in H
         end;
  repeat match goal with
         | H : ?b = true, H' : context [?b] |- _ => rewrite H in H'
         | H : ?b = false, H' : context [?b] |- _ => rewrite H in H'
         end;
  solve [ congruence
        | match goal with
          | H : _ = _ |- _ => cbn in H; discriminate H
          end
        | match goal with
          | H : ?x <> ?y, H' : negb (String.eqb ?x ?y) = false |- _ =>
              apply negb_false_iff, String.eqb_eq in H'; contradiction
          | H : ?x = ?y, H' : negb (String.eqb ?x ?y) = true |- _ =>
              apply negb_true_iff, String.eqb_neq in H'; contradiction
          end ].

(** ** The BTC send route *)

Section BtcSend.
Context `{F : Float} `{L : Btc.Lib}.

Lemma addOutput_Ok (p p' : Psbt) (a : string) (v : Z) :
  addOutput p a v = Ok p' ->
  p' = mkPsbt (inputs p) (outputs p ++ [(a, v)]).
Proof.
  unfold addOutput. destruct (checkOutput a v); congruence.
Qed.

Lemma fold_addInput (k : ECPair) (l : list Utxo) :
  forall p,
    fold_left (fun p u => addInput p (witnessInput k u)) l p =
    mkPsbt (inputs p ++ map (witnessInput k) l) (outputs p).
Proof.
  induction l as [| u r IH]; intros p; simpl.
  - rewrite app_nil_r. now destruct p.
  - rewrite IH. simpl. now rewrite <- app_assoc.
Qed.

(** Whatever is signed is the fully funded draft of the request. *)
Lemma send_signed_inv (P : Provider) (req : SendRequest)
  (key : ECPair) (psbt : Psbt) :
  In (SignInputs key psbt) (snd (send P req)) ->
  exists utxos,
    well_formed req /\
    ECPair_fromWIF (privateKeyWIF req) = Ok key /\
    p2wpkh_address (publicKey key) = from req /\
    utxo_reply P (from req) = Ok utxos /\
    utxos <> [] /\
    btcToSats (amount req) + sendFee P req utxos <= sum (selection req utxos) /\
    psbt = mkPsbt (map (witnessInput key) (chosen (selection req utxos)))
             [(to req, btcToSats (amount req));
              (from req, sum (selection req utxos) - btcToSats (amount req)
                         - sendFee P req utxos)].
Proof.
  unfold send, run, send_handler, fetchUtxos, fetchFeeRate, broadcastTx.
  act_run.
  all: try absent.
  all: intros Hin; cbn [In] in Hin.
  all: repeat match type of Hin with
              | _ \/ _ => destruct Hin as [Hin | Hin]
              end; try discriminate Hin; try contradiction Hin.
  all: injection Hin as Hk Hp; subst.
  all: repeat match goal with
       | H : negb (String.eqb _ _) = false |- _ =>
           apply negb_false_iff, String.eqb_eq in H
       | H : negb _ || negb _ || negb _ = false |- _ => apply orb3_false in H
       | H : Nat.eqb (List.length _) 0 = false |- _ => apply length_zero_false in H
       | H : (_ <? _) = false |- _ => apply Z.ltb_ge in H
       | H : addOutput _ _ _ = Ok _ |- _ => apply addOutput_Ok in H
       end.
  all: match goal with
       | H : p2wpkh_address _ = from _ |- _ => rewrite H in *
       end.
  all: eexists; split; [unfold well_formed; assumption |].
  all: split; [first [assumption | reflexivity] |].
  all: split; [first [assumption | reflexivity] |].
  all: split; [eassumption |]; split; [assumption |].
  all: unfold sendFee, selection, effectiveRate, fetchedRate.
  all: repeat match goal with
       | H : feeRate _ = _ |- _ => rewrite H
       | H : truthy_number _ = _ |- _ => rewrite H
       | H : fee_estimates_reply _ = _ |- _ => rewrite H
       end.
  all: split; [assumption |].
  all: subst; rewrite fold_addInput; reflexivity.
Qed.

(** A key that does not own the declared sender address stops the send
    before any effect. *)
Lemma send_mismatch (P : Provider) (req : SendRequest) (kp : ECPair) :
  well_formed req ->
  ECPair_fromWIF (privateKeyWIF req) = Ok kp ->
  p2wpkh_address (publicKey kp) <> from req ->
  send P req = (error_response 400 "privateKey mismatch", []).
Proof.
  intros Hwf Hkey Hneq.
  unfold send, run, send_handler.
  act_step; [excluded |].
  act_step; [| excluded].
  assert (a = kp) by congruence; subst a.
  act_step; [reflexivity | excluded].
Qed.

(** Every effect of a send is preceded by a successful signer check. *)
Lemma send_effects_signer (P : Provider) (req : SendRequest) :
  snd (send P req) <> [] ->
  exists kp, ECPair_fromWIF (privateKeyWIF req) = Ok kp /\
             p2wpkh_address (publicKey kp) = from req.
Proof.
  unfold send, run, send_handler, fetchUtxos, fetchFeeRate, broadcastTx.
  act_run.
  all: try (intros Hne; exfalso; apply Hne; reflexivity).
  all: intros _; eexists; split; [reflexivity |].
  all: match goal with
       | H : negb (String.eqb _ _) = false |- _ =>
           apply negb_false_iff, String.eqb_eq in H; exact H
       end.
Qed.

(** A selection that does not cover amount and fee ends in the funds
    error, with nothing signed and nothing broadcast. *)
Lemma send_underfunded (P : Provider) (req : SendRequest) (key : ECPair)
  (utxos : list Utxo) :
  well_formed req ->
  ECPair_fromWIF (privateKeyWIF req) = Ok key ->
  p2wpkh_address (publicKey key) = from req ->
  utxo_reply P (from req) = Ok utxos ->
  utxos <> [] ->
  sum (selection req utxos) < btcToSats (amount req) + sendFee P req utxos ->
  fst (send P req) = error_response 400 "insufficient funds" /\
  (forall e, In e (snd (send P req)) ->
             e = GetUtxos (from req) \/ e = GetFeeEstimates).
Proof.
  intros Hwf Hkey Haddr Hutxo Hne Hlow.
  unfold sendFee, selection, effectiveRate, fetchedRate in Hlow.
  apply Z.ltb_lt in Hlow.
  unfold send, run, send_handler, fetchUtxos, fetchFeeRate, broadcastTx.
  act_step; [excluded |].
  act_step; [| excluded].
  assert (a = key) by congruence; subst a.
  act_step; [excluded |].
  rewrite Haddr.
  act_step; [| excluded].
  assert (a = utxos) by congruence; subst a.
  act_step; [destruct utxos; [contradiction | discriminate] |].
  destruct (feeRate req) as [q |] eqn:Hrate.
  - destruct (truthy_number q) eqn:Hq.
    + act_step. act_step; [| excluded].
      cbn [fst snd app]. split; [reflexivity |].
      intros e [He | []]. now left.
    + act_step. act_step.
      destruct (fee_estimates_reply P) eqn:Hfee.
      * act_step. act_step; [| excluded].
        cbn [fst snd app]. split; [reflexivity |].
        intros e [He | [He | []]]; auto.
      * act_step. act_step; [| excluded].
        cbn [fst snd app]. split; [reflexivity |].
        intros e [He | [He | []]]; auto.
  - act_step. act_step.
    destruct (fee_estimates_reply P) eqn:Hfee.
    + act_step. act_step; [| excluded].
      cbn [fst snd app]. split; [reflexivity |].
      intros e [He | [He | []]]; auto.
    + act_step. act_step; [| excluded].
      cbn [fst snd app]. split; [reflexivity |].
      intros e [He | [He | []]]; auto.
Qed.

End BtcSend.


(** C2.  For every sequence of UTXOs and every integer target,
    [selectUtxosGreedy] visits the UTXOs sorted ascending by value (a
    permutation of its argument), chooses the shortest non-empty prefix of
    that order whose running sum reaches the target, and stops there; the
    returned sum is the sum of the chosen set.  When the values are
    non-negative and their total is below the target, the whole set is
    returned with its insufficient sum.  The function is total: it returns
    a selection on every input and never fails.  For values
    [1000; 2000; 5000] and target [3500] all three are chosen, with sum
    [8000]. *)
Theorem selectUtxosGreedy_spec (utxos : list Utxo) (target : Z) :
  let r := selectUtxosGreedy utxos target in
  let sorted := sortByValue utxos in
  Permutation sorted utxos /\
  ascending sorted /\
  (exists rest, sorted = chosen r ++ rest /\
     (rest = [] \/ (chosen r <> [] /\ target <= sum r))) /\
  sum r = sum_values (chosen r) /\
  (forall q q', chosen r = q ++ q' -> q <> [] -> q' <> [] ->
     sum_values q < target) /\
  (Forall (fun u => 0 <= value u) utxos -> sum_values utxos < target ->
     chosen r = sorted /\ sum r = sum_values utxos /\ sum r < target) /\
  (forall t1 i1 t2 i2 t3 i3,
     let us := [mkUtxo t1 i1 1000; mkUtxo t2 i2 2000; mkUtxo t3 i3 5000] in
     selectUtxosGreedy us 3500 = mkSelection us 8000).
Proof.
  intros r sorted.
  pose proof (sortByValue_perm utxos) as Hperm.
  destruct (greedyLoop_prefix sorted target [] 0) as (p & rest & Hs & Hr & Hmin & Hend).
  assert (Hc : chosen r = p) by (unfold r, selectUtxosGreedy; fold sorted; now rewrite Hr).
  assert (Hsum : sum r = sum_values p)
    by (unfold r, selectUtxosGreedy; fold sorted; now rewrite Hr).
  split; [exact Hperm |].
  split; [apply sortByValue_ascending |].
  split.
  { exists rest. rewrite Hc, Hsum. split; [exact Hs |].
    destruct Hend as [Hnil | [Hp Ht]]; [now left | right; split; [exact Hp | lia]]. }
  split; [congruence |].
  split.
  { intros q q' Hq Hne Hne'. rewrite Hc in Hq.
    specialize (Hmin q q' Hq Hne Hne'). lia. }
  split.
  { intros Hpos Hlow.
    assert (Hpos' : Forall (fun u => 0 <= value u) (p ++ rest)).
    { rewrite <- Hs. eapply Permutation_Forall; [apply Permutation_sym, Hperm | exact Hpos]. }
    assert (Htot : sum_values (p ++ rest) = sum_values utxos).
    { rewrite <- Hs. apply sum_values_perm, Hperm. }
    destruct Hend as [Hnil | [Hp Ht]].
    - subst rest. rewrite app_nil_r in Hs, Htot.
      rewrite Hc, Hsum, Hs. repeat split; lia.
    - pose proof (sum_values_prefix_le p rest Hpos'). lia. }
  intros. reflexivity.
Qed.

(** The insufficiency case of C2 on the values [100; 200] with target
    [1000]. *)
Lemma selectUtxosGreedy_spec_witness :
  let us := [mkUtxo "a" 0 100; mkUtxo "b" 1 200] in
  chosen (selectUtxosGreedy us 1000) = sortByValue us /\
  sum (selectUtxosGreedy us 1000) = sum_values us /\
  sum (selectUtxosGreedy us 1000) < 1000.
Proof.
  intros us.
  apply (selectUtxosGreedy_spec us 1000).
  - repeat constructor; simpl; lia.
  - simpl. lia.
Defined.

(** At an integer rate the fee is the exact product. *)
Lemma txFee_integer_rate `{F : Float} (n m r : Z) :
  Z.abs (estimateTxVsize n m * r) <= 2 ^ 53 ->
  txFee n m (inject_Z r) = estimateTxVsize n m * r.
Proof.
  intros Hfit. unfold txFee, Math_ceil.
  rewrite (Qceiling_comp _ _ (fmul_int _ _ Hfit)). apply Qceiling_Z.
Qed.

(** C3, as stated, fails on its concrete instance: the virtual size of a
    transaction with two inputs and two outputs is 208, not 218, and its
    fee at rate 10 is 2080, not 2180. *)
Lemma vsize_2_2_is_not_218 :
  estimateTxVsize 2 2 = 208 /\ estimateTxVsize 2 2 <> 218 /\
  forall F : Float,
    txFee 2 2 (inject_Z 10) = 2080 /\ txFee 2 2 (inject_Z 10) <> 2180.
Proof.
  split; [reflexivity |].
  split; [discriminate |].
  intros F. rewrite txFee_integer_rate by (vm_compute; discriminate).
  split; [reflexivity | discriminate].
Qed.

(** C3 (amended).  The fee of a UTXO-chain transaction with [n] inputs and
    [m] outputs at rate [r] is the ceiling of the product
    [(68 n + 31 m + 10) * r]: the least integer not below the product.  The
    virtual size of a transaction with two inputs and two outputs is 208
    and its fee at rate 10 is 2080. *)
Theorem txFee_formula `{F : Float} (n m : Z) (r : Q) :
  let product := fmul (inject_Z (68 * n + 31 * m + 10)) r in
  estimateTxVsize n m = 68 * n + 31 * m + 10 /\
  txFee n m r = Qceiling product /\
  (product <= inject_Z (txFee n m r))%Q /\
  (inject_Z (txFee n m r) < product + 1)%Q /\
  estimateTxVsize 2 2 = 208 /\
  txFee 2 2 (inject_Z 10) = 2080.
Proof.
  intros product.
  assert (Hv : estimateTxVsize n m = 68 * n + 31 * m + 10).
  { unfold estimateTxVsize, VBYTE_PER_INPUT, VBYTE_PER_OUTPUT, TX_OVERHEAD_VBYTES. lia. }
  split; [exact Hv |].
  split; [unfold txFee; rewrite Hv; reflexivity |].
  split; [unfold txFee; rewrite Hv; apply Qle_ceiling |].
  split; [unfold txFee; rewrite Hv; apply Math_ceil_lt |].
  split; [reflexivity |].
  rewrite txFee_integer_rate by (vm_compute; discriminate). reflexivity.
Qed.

(** ** C4: funds and change of the BTC send *)

Lemma input_total_map `{L : Btc.Lib} (key : ECPair) (l : list Utxo)
  (outs : list (string * Z)) :
  input_total (mkPsbt (map (witnessInput key) l) outs) = sum_values l.
Proof.
  unfold input_total. simpl. induction l as [| u r IH]; simpl; [reflexivity |].
  now rewrite IH.
Qed.

(** C4, as stated, fails when the selected inputs cover amount and fee
    exactly: the send succeeds and signs a transaction whose change output
    is attached with the value zero.  One input of 100001400 sat pays
    1 BTC at a fee of 140 vB x 10 sat/vB. *)
Lemma zero_change_output_is_attached :
  let P := Fixtures.btc_provider [mkUtxo "tx0" 0 100001400] in
  let req := Fixtures.btc_request "bc1qalice" in
  let r := @send Fixtures.exact_float Fixtures.btc_lib P req in
  fst r <> error_response 400 "insufficient funds" /\
  snd r =
    [GetUtxos "bc1qalice";
     SignInputs Fixtures.alice
       (mkPsbt
          [mkPsbtInput "tx0" 0 (Fixtures.text_bytes "alice") 100001400]
          [("bc1qbob", 100000000); ("bc1qalice", 0)]);
     PostTx "signed-hex"].
Proof. split; [discriminate | reflexivity]. Qed.

(** C4 (amended).  Whatever the BTC send signs spends exactly the selected
    inputs, pays the requested amount to the destination and returns
    [sum(inputs) - amount - fee] to the sender in a change output that is
    always attached and whose value is never negative (it may be zero), so
    that [sum(inputs) = sum(outputs) + fee], in particular
    [sum(inputs) >= sum(outputs) + fee].  When the selected inputs do not
    cover amount plus fee (the change would be negative) the send ends in
    the funds error "insufficient funds" and nothing is signed or
    broadcast. *)
Theorem send_funds_invariant `{F : Float} `{L : Btc.Lib} (P : Provider) (req : SendRequest) :
  (forall key psbt,
     In (SignInputs key psbt) (snd (send P req)) ->
     exists utxos,
       utxo_reply P (from req) = Ok utxos /\
       let amountSats := btcToSats (amount req) in
       let sel := selection req utxos in
       let fee := sendFee P req utxos in
       inputs psbt = map (witnessInput key) (chosen sel) /\
       outputs psbt = [(to req, amountSats);
                       (from req, sum sel - amountSats - fee)] /\
       0 <= sum sel - amountSats - fee /\
       input_total psbt = output_total psbt + fee /\
       input_total psbt >= output_total psbt + fee) /\
  (forall key utxos,
     well_formed req ->
     ECPair_fromWIF (privateKeyWIF req) = Ok key ->
     p2wpkh_address (publicKey key) = from req ->
     utxo_reply P (from req) = Ok utxos ->
     utxos <> [] ->
     sum (selection req utxos) - btcToSats (amount req) - sendFee P req utxos < 0 ->
     fst (send P req) = error_response 400 "insufficient funds" /\
     forall e, In e (snd (send P req)) ->
               is_signing e = false /\ (forall hex, e <> PostTx hex)).
Proof.
  split.
  - intros key psbt Hin.
    destruct (send_signed_inv P req key psbt Hin)
      as (utxos & _ & _ & _ & Hutxo & _ & Hfunds & Hpsbt).
    exists utxos. split; [exact Hutxo |].
    cbv zeta. subst psbt.
    rewrite input_total_map.
    pose proof (selectUtxosGreedy_sum utxos (btcToSats (amount req) + 1000)) as Hsum.
    fold (selection req utxos) in Hsum.
    unfold output_total. cbn [outputs inputs fold_right snd].
    repeat split; try lia.
  - intros key utxos Hwf Hkey Haddr Hutxo Hne Hneg.
    destruct (send_underfunded P req key utxos Hwf Hkey Haddr Hutxo Hne) as [Hresp Htr];
      [lia |].
    split; [exact Hresp |].
    intros e He. destruct (Htr e He) as [-> | ->]; split; try reflexivity;
      intros hex; discriminate.
Qed.

(** An instance of C4: one input of 100002400 sat pays 1 BTC and returns a
    change of 1000 sat. *)
Lemma send_funds_invariant_witness :
  let F := Fixtures.exact_float in
  let P := Fixtures.btc_provider [mkUtxo "tx0" 0 100002400] in
  let req := Fixtures.btc_request "bc1qalice" in
  let psbt := mkPsbt
                [mkPsbtInput "tx0" 0 (Fixtures.text_bytes "alice") 100002400]
                [("bc1qbob", 100000000); ("bc1qalice", 1000)] in
  In (SignInputs Fixtures.alice psbt) (snd (@send Fixtures.exact_float Fixtures.btc_lib P req)) /\
  exists utxos,
    utxo_reply P (from req) = Ok utxos /\
    outputs psbt = [(to req, btcToSats (amount req));
                    (from req, sum (selection req utxos) - btcToSats (amount req)
                               - sendFee P req utxos)] /\
    input_total psbt >= output_total psbt + sendFee P req utxos.
Proof.
  intros F P req psbt.
  assert (Hin : In (SignInputs Fixtures.alice psbt)
                  (snd (@send Fixtures.exact_float Fixtures.btc_lib P req))).
  { right. left. reflexivity. }
  split; [exact Hin |].
  destruct (proj1 (@send_funds_invariant Fixtures.exact_float Fixtures.btc_lib P req)
              Fixtures.alice psbt Hin)
    as (utxos & Hutxo & _ & Hout & _ & _ & Hge).
  exists utxos. repeat split; assumption.
Defined.

(** ** The Solana send route and the key codec *)

Section SolanaSend.
Context `{F : Float} `{L : Solana.Lib}.

Lemma solana_send_mismatch (P : Solana.Provider) (req : Solana.SendRequest)
  (kp : Solana.Keypair) :
  SolanaSpec.well_formed req ->
  Solana.keypairFromPrivateKeyInput (Solana.privateKey req) = Ok kp ->
  Solana.bs58_encode (Solana.publicKey kp) <> Solana.from req ->
  Solana.send P req = (error_response 400 "privateKey mismatch", []).
Proof.
  intros Hwf Hkey Hneq. unfold SolanaSpec.well_formed in Hwf.
  unfold Solana.send, run, Solana.send_handler.
  act_step; [excluded |].
  act_step; [| excluded].
  assert (a = kp) by congruence; subst a.
  act_step; [reflexivity | excluded].
Qed.

Lemma solana_send_effects_signer (P : Solana.Provider) (req : Solana.SendRequest) :
  snd (Solana.send P req) <> [] ->
  exists kp, Solana.keypairFromPrivateKeyInput (Solana.privateKey req) = Ok kp /\
             Solana.bs58_encode (Solana.publicKey kp) = Solana.from req.
Proof.
  unfold Solana.send, run, Solana.send_handler.
  act_run.
  all: try (intros Hne; exfalso; apply Hne; reflexivity).
  all: intros _; eexists; split; [reflexivity |].
  all: match goal with
       | H : negb (String.eqb _ _) = false |- _ =>
           apply negb_false_iff, String.eqb_eq in H; exact H
       end.
Qed.

(** What is signed and submitted carries the floored amount. *)
Lemma solana_send_signed_inv (P : Solana.Provider) (req : Solana.SendRequest)
  (tx : Solana.Transfer) (signer : Solana.Keypair) :
  In (Solana.SendAndConfirmTransaction tx signer) (snd (Solana.send P req)) ->
  Solana.keypairFromPrivateKeyInput (Solana.privateKey req) = Ok signer /\
  Solana.bs58_encode (Solana.publicKey signer) = Solana.from req /\
  Solana.fromPubkey tx = Solana.publicKey signer /\
  Solana.lamports tx =
    Math_floor (fmul (Solana.amount req) (inject_Z Solana.LAMPORTS_PER_SOL)).
Proof.
  unfold Solana.send, run, Solana.send_handler.
  act_run.
  all: try absent.
  all: intros Hin; cbn [In] in Hin.
  all: repeat match type of Hin with
              | _ \/ _ => destruct Hin as [Hin | Hin]
              end; try discriminate Hin; try contradiction Hin.
  all: injection Hin as Htx Hs; subst.
  all: match goal with
       | H : negb (String.eqb _ _) = false |- _ =>
           apply negb_false_iff, String.eqb_eq in H
       end.
  all: repeat split; first [assumption | reflexivity].
Qed.

Lemma try_catch_succeeded (r rest : Result Solana.Keypair) :
  Solana.try_catch (Solana.returning r) rest =
  match Solana.succeeded r with
  | Some kp => Ok kp
  | None => rest
  end.
Proof. destruct r; reflexivity. Qed.

(** Each [try] block of the codec yields exactly what the decoder of the
    same rank accepts. *)
Lemma try_json_block (s : string) (rest : Result Solana.Keypair) :
  Solana.try_catch (Solana.json_block s) rest =
  match Solana.decode_json_array (Solana.KeyString s) with
  | Some kp => Ok kp
  | None => rest
  end.
Proof.
  unfold Solana.json_block, Solana.decode_json_array.
  destruct (Solana.JSON_parse s) as [[l |] | msg]; try reflexivity.
  apply try_catch_succeeded.
Qed.

Lemma try_bytes (b : bytes) (rest : Result Solana.Keypair) :
  Solana.try_catch
    (if Nat.eqb (List.length b) 32 then Solana.returning (Solana.Keypair_fromSeed b)
     else if Nat.eqb (List.length b) 64
          then Solana.returning (Solana.Keypair_fromSecretKey b)
          else Ok None) rest =
  match Solana.key_of_bytes b with
  | Some kp => Ok kp
  | None => rest
  end.
Proof.
  unfold Solana.key_of_bytes.
  destruct (Nat.eqb (List.length b) 32); [apply try_catch_succeeded |].
  destruct (Nat.eqb (List.length b) 64); [apply try_catch_succeeded | reflexivity].
Qed.

Lemma try_bs58_block (s : string) (rest : Result Solana.Keypair) :
  Solana.try_catch (Solana.bs58_block s) rest =
  match Solana.decode_base58 (Solana.KeyString s) with
  | Some kp => Ok kp
  | None => rest
  end.
Proof.
  unfold Solana.bs58_block, Solana.decode_base58.
  destruct (Solana.bs58_decode s) as [b | msg]; [apply try_bytes | reflexivity].
Qed.

Lemma try_base64_block (s : string) (rest : Result Solana.Keypair) :
  Solana.try_catch (Solana.base64_block s) rest =
  match Solana.decode_base64 (Solana.KeyString s) with
  | Some kp => Ok kp
  | None => rest
  end.
Proof. unfold Solana.base64_block, Solana.decode_base64. apply try_bytes. Qed.

Lemma keypairFromPrivateKeyInput_string (s : string) :
  truthy_string s = true ->
  Solana.keypairFromPrivateKeyInput (Solana.KeyString s) =
  match Solana.decode_json_array (Solana.KeyString s) with
  | Some kp => Ok kp
  | None =>
      match Solana.decode_base58 (Solana.KeyString s) with
      | Some kp => Ok kp
      | None =>
          match Solana.decode_base64 (Solana.KeyString s) with
          | Some kp => Ok kp
          | None => Err Solana.UnsupportedKeyFormat
          end
      end
  end.
Proof.
  intros Hs. unfold Solana.keypairFromPrivateKeyInput.
  cbn [Solana.truthy_input]. rewrite Hs. cbn [negb].
  rewrite try_json_block, try_bs58_block, try_base64_block. reflexivity.
Qed.

End SolanaSend.

(** C7, as stated, fails in two places.  A key given as an array of
    byte values that the key library refuses ends in the library's error:
    the decoders (b) to (d) are not tried and the error is not
    "Unsupported privateKey format".  An empty key string ends in
    "privateKey required". *)
Lemma keypair_errors_are_not_all_unsupported :
  let L := Fixtures.solana_lib in
  Solana.keypairFromPrivateKeyInput (Solana.KeyArray [1; 2; 3]) =
    Err "bad secret key size" /\
  Solana.PrivateKeyCodec (Solana.KeyArray [1; 2; 3]) =
    Err "Unsupported privateKey format" /\
  Solana.keypairFromPrivateKeyInput (Solana.KeyString "") =
    Err "privateKey required" /\
  Solana.PrivateKeyCodec (Solana.KeyString "") =
    Err "Unsupported privateKey format".
Proof. intros L. repeat split. Qed.

(** C7 (amended).  For every non-empty private-key string the codec tries
    the decoders in the fixed order (b) JSON-encoded array of byte values,
    (c) base58 with a 32-byte seed or a 64-byte expanded key, (d) base64
    with the same two lengths: its result is the key pair of the first
    decoder that succeeds, and when none succeeds it fails with
    "Unsupported privateKey format".  A key that is an array of byte
    values is decoded by (a) alone: the result is what the key library
    makes of the bytes, its key pair or its own error.  A missing or empty
    key fails with "privateKey required". *)
Theorem keypairFromPrivateKeyInput_priority `{L : Solana.Lib} :
  (forall s,
     truthy_string s = true ->
     let input := Solana.KeyString s in
     Solana.keypairFromPrivateKeyInput input = Solana.PrivateKeyCodec input /\
     (forall kp, Solana.decode_json_array input = Some kp ->
        Solana.keypairFromPrivateKeyInput input = Ok kp) /\
     (forall kp, Solana.decode_json_array input = None ->
        Solana.decode_base58 input = Some kp ->
        Solana.keypairFromPrivateKeyInput input = Ok kp) /\
     (forall kp, Solana.decode_json_array input = None ->
        Solana.decode_base58 input = None ->
        Solana.decode_base64 input = Some kp ->
        Solana.keypairFromPrivateKeyInput input = Ok kp) /\
     (Solana.decode_json_array input = None ->
      Solana.decode_base58 input = None ->
      Solana.decode_base64 input = None ->
      Solana.keypairFromPrivateKeyInput input =
      Err "Unsupported privateKey format")) /\
  (forall a,
     Solana.keypairFromPrivateKeyInput (Solana.KeyArray a) =
     Solana.Keypair_fromSecretKey (Solana.Uint8Array_from a)) /\
  (forall a kp,
     Solana.keypairFromPrivateKeyInput (Solana.KeyArray a) = Ok kp <->
     Solana.decode_byte_array (Solana.KeyArray a) = Some kp) /\
  (forall a msg,
     Solana.Keypair_fromSecretKey (Solana.Uint8Array_from a) = Err msg ->
     Solana.keypairFromPrivateKeyInput (Solana.KeyArray a) = Err msg) /\
  (forall s,
     truthy_string s = false ->
     Solana.keypairFromPrivateKeyInput (Solana.KeyString s) =
     Err "privateKey required").
Proof.
  split; [| split; [| split; [| split]]].
  - intros s Hs input. unfold input.
    rewrite (keypairFromPrivateKeyInput_string s Hs).
    split.
    { unfold Solana.PrivateKeyCodec, Solana.decoders.
      cbn [Solana.first_success Solana.decode_byte_array].
      destruct (Solana.decode_json_array (Solana.KeyString s)); [reflexivity |].
      destruct (Solana.decode_base58 (Solana.KeyString s)); [reflexivity |].
      destruct (Solana.decode_base64 (Solana.KeyString s)); reflexivity. }
    split; [intros kp ->; reflexivity |].
    split; [intros kp -> ->; reflexivity |].
    split; [intros kp -> -> ->; reflexivity |].
    intros -> -> ->; reflexivity.
  - intros a. reflexivity.
  - intros a kp.
    unfold Solana.keypairFromPrivateKeyInput.
    cbn [Solana.truthy_input negb Solana.decode_byte_array].
    destruct (Solana.Keypair_fromSecretKey (Solana.Uint8Array_from a));
      cbn [Solana.succeeded]; split; congruence.
  - intros a msg H. unfold Solana.keypairFromPrivateKeyInput.
    cbn [Solana.truthy_input negb]. exact H.
  - intros s Hs. unfold Solana.keypairFromPrivateKeyInput.
    cbn [Solana.truthy_input]. rewrite Hs. reflexivity.
Qed.

(** An instance of C7: a 32-character text is not JSON, decodes as a
    base58 seed and yields the key pair of that seed; three bytes in an
    array end in the error of the key library. *)
Lemma keypairFromPrivateKeyInput_priority_witness :
  truthy_string Fixtures.solana_key = true /\
  @Solana.keypairFromPrivateKeyInput Fixtures.solana_lib
     (Solana.KeyString Fixtures.solana_key) =
  @Solana.PrivateKeyCodec Fixtures.solana_lib
     (Solana.KeyString Fixtures.solana_key) /\
  @Solana.keypairFromPrivateKeyInput Fixtures.solana_lib
     (Solana.KeyString Fixtures.solana_key) =
  Ok (Solana.mkKeypair (Fixtures.text_bytes Fixtures.solana_key)
        (Fixtures.text_bytes Fixtures.solana_key
           ++ Fixtures.text_bytes Fixtures.solana_key)) /\
  @Solana.keypairFromPrivateKeyInput Fixtures.solana_lib
     (Solana.KeyArray [1; 2; 3]) = Err "bad secret key size" /\
  @Solana.keypairFromPrivateKeyInput Fixtures.solana_lib
     (Solana.KeyString "") = Err "privateKey required".
Proof.
  split; [reflexivity |].
  destruct (@keypairFromPrivateKeyInput_priority Fixtures.solana_lib)
    as (Hstring & _ & _ & Harray & Hempty).
  destruct (Hstring Fixtures.solana_key eq_refl) as (Hcodec & _ & Hb58 & _).
  split; [exact Hcodec |].
  split; [apply Hb58; reflexivity |].
  split; [apply Harray; reflexivity | apply Hempty; reflexivity].
Defined.

(** ** The EVM send route *)

Section EvmSend.
Context `{L : Evm.Lib}.

Lemma orb2_false (a b : bool) :
  negb a || negb b = false -> a = true /\ b = true.
Proof. destruct a, b; simpl; intros; try discriminate; auto. Qed.

Lemma evm_send_mismatch (P : Evm.Provider) (req : Evm.SendRequest)
  (w : Evm.Wallet) :
  EvmSpec.well_formed req ->
  Evm.loadWalletFromPrivateKey (Evm.req_privateKey req) (Evm.chain req) = Ok w ->
  toLowerCase (Evm.address w) <> toLowerCase (Evm.from req) ->
  Evm.send P req = (error_response 400 "privateKey mismatch", []).
Proof.
  intros Hwf Hkey Hneq. unfold EvmSpec.well_formed in Hwf.
  unfold Evm.send, run, Evm.send_handler.
  act_step; [excluded |].
  act_step; [excluded |].
  act_step; [| excluded].
  assert (a = w) by congruence; subst a.
  act_step; [reflexivity | excluded].
Qed.

Lemma evm_send_effects_signer (P : Evm.Provider) (req : Evm.SendRequest) :
  snd (Evm.send P req) <> [] ->
  exists w,
    Evm.loadWalletFromPrivateKey (Evm.req_privateKey req) (Evm.chain req) = Ok w /\
    toLowerCase (Evm.address w) = toLowerCase (Evm.from req).
Proof.
  unfold Evm.send, run, Evm.send_handler.
  act_run.
  all: try (intros Hne; exfalso; apply Hne; reflexivity).
  all: intros _; eexists; split; [reflexivity |].
  all: match goal with
       | H : negb (String.eqb _ _) = false |- _ =>
           apply negb_false_iff, String.eqb_eq in H; exact H
       end.
Qed.

(** The run of a send with the maximum amount once the signer check has
    passed and the provider has answered. *)
Lemma evm_send_max (P : Evm.Provider) (req : Evm.SendRequest) (w : Evm.Wallet)
  (B g p : Z) (fd : Evm.FeeData) :
  Evm.wants_max (Evm.amount req) = true ->
  EvmSpec.well_formed req ->
  Evm.loadWalletFromPrivateKey (Evm.req_privateKey req) (Evm.chain req) = Ok w ->
  toLowerCase (Evm.address w) = toLowerCase (Evm.from req) ->
  Evm.balance_reply P (Evm.from req) = Ok B ->
  Evm.feeData_reply P = Ok fd ->
  Evm.gasLimit req = None ->
  Evm.estimateGas_reply P (Evm.from req) (Evm.to req) = Ok g ->
  Evm.nullish_or (Evm.maxFeePerGas fd) (Evm.gasPrice fd) = Some p ->
  Evm.send P req =
  if B <=? 0 then
    (error_response 400 "insufficient balance", [Evm.GetBalance (Evm.from req)])
  else if B <=? g * p then
    (error_response 400 "balance too low for gas",
     [Evm.GetBalance (Evm.from req); Evm.GetFeeData;
      Evm.EstimateGas (Evm.from req) (Evm.to req)])
  else
    let tx := Evm.mkTx (Evm.to req) (B - g * p) g (Evm.maxFeePerGas fd)
                (Evm.maxPriorityFeePerGas fd) in
    (match Evm.sendTransaction_reply P w tx with
     | Ok txHash =>
         json [("chain", FStr (Evm.chain req)); ("from", FStr (Evm.from req));
               ("to", FStr (Evm.to req));
               ("sentAmount", FStr (Evm.formatEther (B - g * p)));
               ("gasUsed", FInt g);
               ("gasCost", FStr (Evm.formatEther (g * p)));
               ("txHash", FStr txHash)]
     | Err msg => error_response 500 msg
     end,
     [Evm.GetBalance (Evm.from req); Evm.GetFeeData;
      Evm.EstimateGas (Evm.from req) (Evm.to req);
      Evm.SendTransaction w tx]).
Proof.
  intros Hmax Hwf Hkey Haddr Hbal Hfee Hlimit Hgas Hprice.
  unfold EvmSpec.well_formed in Hwf.
  unfold Evm.send, run, Evm.send_handler.
  act_step; [excluded |].
  act_step; [excluded |].
  act_step; [| excluded].
  assert (a = w) by congruence; subst a.
  act_step; [excluded |].
  act_step; [| excluded].
  assert (a = B) by congruence; subst a.
  act_step; [reflexivity |].
  act_step; [| excluded].
  assert (a = fd) by congruence; subst a.
  rewrite Hlimit. act_step. act_step; [| excluded].
  assert (a = g) by congruence; subst a.
  act_step. rewrite Hprice. cbn [Evm.gas_times].
  act_step; [| discriminate].
  match goal with H : Ok _ = Ok _ |- _ => injection H as <- end.
  rewrite Hmax. act_step.
  act_step; [reflexivity |].
  act_step. cbn [Evm.gas_units]. act_step; [| discriminate].
  match goal with H : Ok _ = Ok _ |- _ => injection H as <- end.
  cbv zeta.
  act_step; reflexivity.
Qed.

End EvmSend.

(** C5.  On the account chain, a send with the "maximum" amount sentinel
    (or without an amount) whose signer check has passed, with fetched
    balance [B] and computed gas cost [G = estimatedGas * gasPrice]:
    when [B > G] the transaction handed to the signer carries exactly
    [B - G] and the answer reports that amount; when [B <= G] the send
    ends in a 400 funds error and nothing is signed. *)
Theorem max_amount_resolution `{L : Evm.Lib} (P : Evm.Provider)
  (req : Evm.SendRequest) (w : Evm.Wallet) (B g p : Z) (fd : Evm.FeeData) :
  Evm.wants_max (Evm.amount req) = true ->
  EvmSpec.well_formed req ->
  Evm.loadWalletFromPrivateKey (Evm.req_privateKey req) (Evm.chain req) = Ok w ->
  toLowerCase (Evm.address w) = toLowerCase (Evm.from req) ->
  Evm.balance_reply P (Evm.from req) = Ok B ->
  Evm.feeData_reply P = Ok fd ->
  Evm.gasLimit req = None ->
  Evm.estimateGas_reply P (Evm.from req) (Evm.to req) = Ok g ->
  Evm.nullish_or (Evm.maxFeePerGas fd) (Evm.gasPrice fd) = Some p ->
  0 <= g * p ->
  let G := g * p in
  (G < B ->
   exists tx,
     Evm.tx_value tx = B - G /\
     Evm.tx_to tx = Evm.to req /\
     snd (Evm.send P req) =
       [Evm.GetBalance (Evm.from req); Evm.GetFeeData;
        Evm.EstimateGas (Evm.from req) (Evm.to req);
        Evm.SendTransaction w tx] /\
     (forall txHash,
        Evm.sendTransaction_reply P w tx = Ok txHash ->
        exists fields,
          fst (Evm.send P req) = json fields /\
          In ("sentAmount", FStr (Evm.formatEther (B - G))) fields)) /\
  (B <= G ->
   EvmSpec.is_funds_error (fst (Evm.send P req)) /\
   Forall (fun e => Evm.is_signing e = false) (snd (Evm.send P req))).
Proof.
  intros Hmax Hwf Hkey Haddr Hbal Hfee Hlimit Hgas Hprice Hpos G.
  rewrite (evm_send_max P req w B g p fd Hmax Hwf Hkey Haddr Hbal Hfee Hlimit
             Hgas Hprice).
  fold G. split.
  - intros Hlt.
    destruct (Z.leb_spec B 0) as [H0 | H0]; [lia |].
    destruct (Z.leb_spec B G) as [HG | HG]; [lia |].
    cbv zeta.
    exists (Evm.mkTx (Evm.to req) (B - G) g (Evm.maxFeePerGas fd)
              (Evm.maxPriorityFeePerGas fd)).
    split; [reflexivity |]. split; [reflexivity |].
    split; [reflexivity |].
    intros txHash Hsent. cbn [fst]. rewrite Hsent.
    eexists. split; [reflexivity |].
    cbn [In]. do 3 right. left. reflexivity.
  - intros Hle.
    destruct (Z.leb_spec B 0) as [H0 | H0].
    + split; [left; reflexivity |]. repeat constructor.
    + destruct (Z.leb_spec B G) as [HG | HG]; [| lia].
      split; [right; reflexivity |]. repeat constructor.
Qed.

(** An instance of C5: balance 1000, gas 21 at price 10; the declared
    sender is the lower-case form of the wallet's address. *)
Lemma max_amount_resolution_witness :
  let P := Fixtures.evm_provider 1000 21 10 in
  let req := Fixtures.evm_request "0xa11ce" Evm.AmountMax in
  let w := Evm.mkWallet "0xA11CE" "A11CE" in
  exists tx,
    Evm.tx_value tx = 790 /\
    Evm.tx_to tx = "0xB0B" /\
    snd (@Evm.send Fixtures.evm_lib P req) =
      [Evm.GetBalance "0xa11ce"; Evm.GetFeeData;
       Evm.EstimateGas "0xa11ce" "0xB0B"; Evm.SendTransaction w tx].
Proof.
  intros P req w.
  assert (Hwf : @EvmSpec.well_formed Fixtures.evm_lib req) by (repeat split).
  assert (Hpos : 0 <= 21 * 10) by lia.
  destruct (@max_amount_resolution Fixtures.evm_lib P req w 1000 21 10
              (Evm.mkFeeData (Some 10) None None)
              eq_refl Hwf eq_refl eq_refl eq_refl eq_refl eq_refl eq_refl
              eq_refl Hpos)
    as [Hsend _].
  destruct Hsend as (tx & Hv & Ht & Htr & _); [lia |].
  exists tx. repeat split; assumption.
Defined.

(** ** C1: the signer check *)

(** C1, as stated for every send, fails on the Tatum-backed BTC send: the
    key [mallory] does not own the declared sender address, and the route
    still posts address and key to the provider. *)
Lemma tatum_send_posts_unchecked_key :
  let req := BtcTatum.mkSendRequest "bc1qalice" "bc1qbob" (inject_Z 1) "mallory" in
  let P := BtcTatum.mkProvider (fun _ => Ok (Some "txid-1")) in
  (exists kp, @ECPair_fromWIF Fixtures.btc_lib "mallory" = Ok kp /\
              @p2wpkh_address Fixtures.btc_lib (publicKey kp) <> "bc1qalice") /\
  snd (BtcTatum.send P req) =
    [BtcTatum.PostTransaction
       (BtcTatum.mkTatumPayload [("bc1qalice", "mallory")]
          [("bc1qbob", inject_Z 1)])] /\
  status (fst (BtcTatum.send P req)) = 200.
Proof.
  intros req P. split.
  - eexists. split; [reflexivity | discriminate].
  - split; reflexivity.
Qed.

(** C1 (amended).  The sends that sign locally for a caller-declared
    sender -- the Blockstream BTC send, the Solana send and the EVM send --
    derive the address of the supplied private key and compare it with the
    declared sender (the EVM send ignoring letter case): on a mismatch the
    send answers 400 "privateKey mismatch" with no provider call, no
    signing and no other effect, and every effect of a send is preceded
    by a successful check. *)
Theorem signer_check_precedes_effects :
  (forall (F : Float) (L : Btc.Lib) (P : Btc.Provider) (req : Btc.SendRequest),
     (forall kp,
        BtcSpec.well_formed req ->
        ECPair_fromWIF (privateKeyWIF req) = Ok kp ->
        p2wpkh_address (publicKey kp) <> from req ->
        send P req = (error_response 400 "privateKey mismatch", [])) /\
     (snd (send P req) <> [] ->
      exists kp, ECPair_fromWIF (privateKeyWIF req) = Ok kp /\
                 p2wpkh_address (publicKey kp) = from req)) /\
  (forall (F : Float) (L : Solana.Lib) (P : Solana.Provider)
          (req : Solana.SendRequest),
     (forall kp,
        SolanaSpec.well_formed req ->
        Solana.keypairFromPrivateKeyInput (Solana.privateKey req) = Ok kp ->
        Solana.bs58_encode (Solana.publicKey kp) <> Solana.from req ->
        Solana.send P req = (error_response 400 "privateKey mismatch", [])) /\
     (snd (Solana.send P req) <> [] ->
      exists kp,
        Solana.keypairFromPrivateKeyInput (Solana.privateKey req) = Ok kp /\
        Solana.bs58_encode (Solana.publicKey kp) = Solana.from req)) /\
  (forall (L : Evm.Lib) (P : Evm.Provider) (req : Evm.SendRequest),
     (forall w,
        EvmSpec.well_formed req ->
        Evm.loadWalletFromPrivateKey (Evm.req_privateKey req) (Evm.chain req)
          = Ok w ->
        toLowerCase (Evm.address w) <> toLowerCase (Evm.from req) ->
        Evm.send P req = (error_response 400 "privateKey mismatch", [])) /\
     (snd (Evm.send P req) <> [] ->
      exists w,
        Evm.loadWalletFromPrivateKey (Evm.req_privateKey req) (Evm.chain req)
          = Ok w /\
        toLowerCase (Evm.address w) = toLowerCase (Evm.from req))).
Proof.
  split; [| split].
  - intros F L P req. split.
    + intros kp. apply send_mismatch.
    + apply send_effects_signer.
  - intros F L P req. split.
    + intros kp. apply solana_send_mismatch.
    + apply solana_send_effects_signer.
  - intros L P req. split.
    + intros w. apply evm_send_mismatch.
    + apply evm_send_effects_signer.
Qed.

(** An instance of C1: alice's key cannot send from carol's address. *)
Lemma signer_check_precedes_effects_witness :
  @send Fixtures.exact_float Fixtures.btc_lib
    (Fixtures.btc_provider [mkUtxo "tx0" 0 100002400])
    (Fixtures.btc_request "bc1qcarol") =
  (error_response 400 "privateKey mismatch", []).
Proof.
  destruct signer_check_precedes_effects as (Hbtc & _ & _).
  destruct (Hbtc Fixtures.exact_float Fixtures.btc_lib
              (Fixtures.btc_provider [mkUtxo "tx0" 0 100002400])
              (Fixtures.btc_request "bc1qcarol")) as [Hmis _].
  apply (Hmis Fixtures.alice).
  - repeat split.
  - reflexivity.
  - discriminate.
Defined.

(** ** The Cardano send routes *)

Section CardanoSend.
Context `{F : Float} `{A : Bip39.Api} `{L : Cardano.Lib}.
Import Cardano CardanoSpec.

Lemma total_app (a b : list TxInput) : total (a ++ b) = total a + total b.
Proof. induction a as [| i r IH]; simpl; [reflexivity | rewrite IH; lia]. Qed.

(** [firstFit] is the shortest non-empty prefix that reaches the target,
    and the whole list when no prefix does. *)
Lemma firstFit_prefix (l : list TxInput) (t : Z) :
  forall acc,
  exists rest,
    l = firstFit l t acc ++ rest /\
    (forall q q', firstFit l t acc = q ++ q' -> q <> [] -> q' <> [] ->
       acc + total q < t) /\
    (rest = [] \/ (firstFit l t acc <> [] /\ t <= acc + total (firstFit l t acc))).
Proof.
  induction l as [| i r IH]; intros acc; simpl.
  - exists []. repeat split.
    + intros q q' Hq Hne. destruct q; [congruence | discriminate].
    + now left.
  - destruct (Z.geb_spec (acc + in_value i) t) as [Hge | Hlt].
    + exists r. repeat split.
      * intros q q' Hq Hne Hne'.
        destruct q as [| x q]; [congruence |].
        destruct q; destruct q'; try congruence; discriminate.
      * right. split; [discriminate | simpl; lia].
    + destruct (IH (acc + in_value i)) as (rest & Hl & Hmin & Hend).
      exists rest. repeat split.
      * simpl. now rewrite <- Hl.
      * intros q q' Hq Hne Hne'.
        destruct q as [| x q]; [congruence |].
        simpl in Hq. injection Hq as Hx Hp. subst x.
        destruct q as [| y q].
        -- simpl. lia.
        -- specialize (Hmin (y :: q) q' Hp ltac:(discriminate) Hne').
           simpl in *. lia.
      * destruct Hend as [Hnil | [Hp Hsum]].
        -- now left.
        -- right. split; [discriminate | simpl; lia].
Qed.

Lemma add_input_Ok (b b' : Builder) (from : string) (u : Utxo) (v : Z) :
  add_input b from u v = Ok b' ->
  b' = mkBuilder (b_outputs b)
         (b_inputs b ++ [mkTxInput (tx_hash u) (tx_index u) v]).
Proof.
  unfold add_input, andThen.
  destruct (Address_from_bech32 from); [| discriminate].
  destruct (TransactionHash_from_hex (tx_hash u)); [| discriminate].
  destruct (BigNum_from_str v); [| discriminate].
  congruence.
Qed.

Lemma add_input_accepted (b : Builder) (from : string) (u : Utxo) (v : Z) :
  Address_from_bech32 from = Ok tt ->
  TransactionHash_from_hex (tx_hash u) = Ok tt ->
  BigNum_from_str v = Ok tt ->
  add_input b from u v =
  Ok (mkBuilder (b_outputs b)
        (b_inputs b ++ [mkTxInput (tx_hash u) (tx_index u) v])).
Proof.
  intros Ha Hh Hv. unfold add_input, andThen. now rewrite Ha, Hh, Hv.
Qed.

Lemma add_output_Ok (b b' : Builder) (to : string) (v : Z) :
  add_output b to v = Ok b' ->
  b' = mkBuilder (b_outputs b ++ [(to, v)]) (b_inputs b).
Proof.
  unfold add_output, andThen.
  destruct (Address_from_bech32 to); [| discriminate].
  destruct (BigNum_from_str v); [| discriminate].
  congruence.
Qed.

(** The loop of the first router adds the first fit of the candidates. *)
Lemma addInputs_Ok (from : string) (utxos : list Utxo) (target : Z) :
  forall b totalInput b' totalInput',
    addInputs from utxos target b totalInput = Ok (b', totalInput') ->
    b_outputs b' = b_outputs b /\
    b_inputs b' = b_inputs b ++ firstFit (candidates utxos) target totalInput /\
    totalInput' = totalInput + total (firstFit (candidates utxos) target totalInput).
Proof.
  induction utxos as [| u r IH]; intros b t b' t' H; simpl in H.
  - injection H as <- <-. simpl. rewrite app_nil_r. repeat split; lia.
  - unfold candidates. simpl. fold (candidates r).
    destruct (find_lovelace u) as [a |] eqn:Hf.
    + destruct (add_input b from u (quantity a)) as [b1 | msg] eqn:Hadd;
        [| discriminate].
      apply add_input_Ok in Hadd. subst b1. simpl.
      destruct (t + quantity a >=? target).
      * injection H as <- <-. simpl. repeat split; lia.
      * apply IH in H. simpl in H. destruct H as (Ho & Hi & Ht).
        repeat split; [exact Ho | | simpl; lia].
        rewrite Hi, <- app_assoc. reflexivity.
    + simpl. apply IH in H. exact H.
Qed.

Lemma addInputs_accepted (from : string) (utxos : list Utxo) (target : Z) :
  forall b totalInput,
    accepted from (candidates utxos) ->
    addInputs from utxos target b totalInput =
    Ok (mkBuilder (b_outputs b)
          (b_inputs b ++ firstFit (candidates utxos) target totalInput),
        totalInput + total (firstFit (candidates utxos) target totalInput)).
Proof.
  induction utxos as [| u r IH]; intros b t [Ha Hall]; simpl.
  - rewrite app_nil_r, Z.add_0_r. now destruct b.
  - unfold candidates in *. simpl in *. fold (candidates r) in *.
    destruct (find_lovelace u) as [a |] eqn:Hf; simpl in *.
    + destruct (Hall _ (or_introl eq_refl)) as [Hh Hv]. simpl in Hh, Hv.
      rewrite (add_input_accepted b from u (quantity a) Ha Hh Hv).
      destruct (t + quantity a >=? target).
      * simpl. rewrite Z.add_0_r. reflexivity.
      * rewrite IH by (split; [exact Ha | intros i Hi; apply Hall; now right]).
        simpl. rewrite <- app_assoc. simpl. f_equal. f_equal. lia.
    + apply IH. split; [exact Ha | exact Hall].
Qed.

(** The loop of the second router adds the first fit of all the outputs. *)
Lemma addInputsB_Ok (from : string) (utxos : list Utxo) (target : Z) :
  forall b totalInput b' totalInput',
    B.addInputs from utxos target b totalInput = Ok (b', totalInput') ->
    b_outputs b' = b_outputs b /\
    b_inputs b' = b_inputs b ++ firstFit (candidatesB utxos) target totalInput /\
    totalInput' = totalInput + total (firstFit (candidatesB utxos) target totalInput).
Proof.
  induction utxos as [| u r IH]; intros b t b' t' H; simpl in H.
  - injection H as <- <-. simpl. rewrite app_nil_r. repeat split; lia.
  - simpl.
    set (v := match find_lovelace u with Some lov => quantity lov | None => 0 end) in *.
    destruct (add_input b from u v) as [b1 | msg] eqn:Hadd; [| discriminate].
    apply add_input_Ok in Hadd. subst b1.
    destruct (t + v >=? target).
    + injection H as <- <-. simpl. repeat split; lia.
    + apply IH in H. simpl in H. destruct H as (Ho & Hi & Ht).
      repeat split; [exact Ho | | simpl; lia].
      rewrite Hi, <- app_assoc. reflexivity.
Qed.

End CardanoSend.

Section CardanoRoutes.
Context `{F : Float} `{A : Bip39.Api} `{L : Cardano.Lib}.
Import Cardano CardanoSpec.

Ltac witness_event :=
  let Hin := fresh "Hin" in
  intros Hin; cbn [In] in Hin;
  repeat match type of Hin with
         | _ \/ _ => destruct Hin as [Hin | Hin]
         end; try discriminate Hin; try contradiction Hin;
  injection Hin as ? ?; subst.

(** What the first router signs. *)
Lemma cardano_send_signed_inv (P : Provider) (req : SendRequest)
  (key : Bip32PrivateKey) (b : Builder) :
  In (MakeWitness key b) (snd (send P req)) ->
  exists keys utxos,
    deriveKeysFromMnemonic (mnemonic req) = Ok keys /\
    key = paymentKey keys /\
    utxos_reply P (address keys) = Ok utxos /\
    1000000 <= amountLovelace req /\
    b_outputs b = [(to req, amountLovelace req)] /\
    b_inputs b = firstFit (candidates utxos) (amountLovelace req + 3000000) 0.
Proof.
  unfold send, run, send_handler.
  act_run.
  all: try absent.
  all: witness_event.
  all: repeat match goal with
       | H : (_ <? _) = false |- _ => apply Z.ltb_ge in H
       | H : add_output _ _ _ = Ok _ |- _ => apply add_output_Ok in H; subst
       | H : addInputs _ _ _ _ _ = Ok ?r |- _ =>
           destruct r; apply addInputs_Ok in H; destruct H as (? & ? & ?)
       end.
  all: do 2 eexists; split; [reflexivity |]; split; [reflexivity |].
  all: split; [eassumption |]; split; [assumption |].
  all: unfold Builder_new in *; cbn [fst b_outputs b_inputs app] in *.
  all: split; assumption.
Qed.

(** What the second router signs. *)
Lemma cardano_sendB_signed_inv (P : Provider) (req : SendRequest)
  (key : Bip32PrivateKey) (b : Builder) :
  In (MakeWitness key b) (snd (B.send P req)) ->
  exists keys utxos,
    B.deriveKeysFromMnemonic (mnemonic req) = Ok keys /\
    key = paymentKey keys /\
    utxos_reply P (address keys) = Ok utxos /\
    b_outputs b = [(to req, amountLovelace req)] /\
    b_inputs b = firstFit (candidatesB utxos) (amountLovelace req + 2000000) 0.
Proof.
  unfold B.send, run, B.send_handler.
  act_run.
  all: try absent.
  all: witness_event.
  all: repeat match goal with
       | H : add_output _ _ _ = Ok _ |- _ => apply add_output_Ok in H; subst
       | H : B.addInputs _ _ _ _ _ = Ok ?r |- _ =>
           destruct r; apply addInputsB_Ok in H; destruct H as (? & ? & ?)
       end.
  all: do 2 eexists; split; [reflexivity |]; split; [reflexivity |].
  all: split; [eassumption |].
  all: unfold Builder_new in *; cbn [fst b_outputs b_inputs app] in *.
  all: split; assumption.
Qed.

(** Below one ADA the first router answers before any effect. *)
Lemma cardano_send_below_minimum (P : Provider) (req : SendRequest) :
  amountLovelace req < 1000000 ->
  snd (send P req) = [] /\
  (exists msg, fst (send P req) = error_response 400 msg) /\
  (well_formed req ->
   fst (send P req) = error_response 400 "Minimum 1 ADA required").
Proof.
  intros Hlow. apply Z.ltb_lt in Hlow.
  unfold send, run, send_handler.
  act_step.
  { split; [reflexivity |]. split; [eexists; reflexivity |].
    intros (H1 & H2 & H3 & _). exfalso.
    rewrite H1, H2, H3 in *. discriminate. }
  act_step.
  { split; [reflexivity |]. split; [eexists; reflexivity |].
    intros (_ & _ & _ & H4). exfalso. rewrite H4 in *. discriminate. }
  act_step; [| congruence].
  split; [reflexivity |]. split; [eexists; reflexivity |]. reflexivity.
Qed.

End CardanoRoutes.

(** ** C6: coin selection of the Cardano send *)

(** C6, as stated, fails: the Cardano send does not sort.  With the
    provider listing an output of 5 ADA before one of 1 ADA and a request
    of 1 ADA (target 4 ADA), the send spends the 5 ADA output alone, the
    first in the provider's order, whereas the ascending policy of
    [selectUtxosGreedy] on the same values starts with the 1 ADA output
    and takes both. *)
Lemma cardano_selection_keeps_provider_order :
  let utxos := [Fixtures.ada "h1" 0 5000000; Fixtures.ada "h2" 0 1000000] in
  let req := Cardano.mkSendRequest "seed phrase" "addr1bob" (inject_Z 1) in
  let P := Fixtures.cardano_provider utxos in
  (exists key b,
     In (Cardano.MakeWitness key b)
        (snd (@Cardano.send Fixtures.exact_float Fixtures.bip39_api Fixtures.cardano_lib P req)) /\
     Cardano.b_inputs b = [Cardano.mkTxInput "h1" 0 5000000]) /\
  chosen (selectUtxosGreedy [mkUtxo "h1" 0 5000000; mkUtxo "h2" 0 1000000]
            (1000000 + 3000000)) =
    [mkUtxo "h2" 0 1000000; mkUtxo "h1" 0 5000000].
Proof.
  intros utxos req P. split; [| reflexivity].
  do 2 eexists. split.
  - cbn. right. right. left. reflexivity.
  - reflexivity.
Qed.

(** C6 (amended).  The Cardano send visits the available UTXOs in the
    order of the provider's reply, without sorting, and accumulates them
    into the input set until the running sum reaches the target -- the
    requested amount plus a fixed buffer of 3 ADA in the first router and
    2 ADA in the second -- then stops: the inputs of the signed
    transaction are the shortest non-empty prefix of the candidates whose
    sum reaches the target, and all of them when none does.  The first
    router skips outputs without a lovelace entry; the second counts them
    as zero. *)
Theorem cardano_selection_first_fit `{F : Float} `{A : Bip39.Api}
  `{L : Cardano.Lib}
  (P : Cardano.Provider) (req : Cardano.SendRequest)
  (key : Cardano.Bip32PrivateKey) (b : Cardano.Builder) :
  let sel := Cardano.b_inputs b in
  (In (Cardano.MakeWitness key b) (snd (Cardano.send P req)) ->
   exists keys utxos rest,
     Cardano.deriveKeysFromMnemonic (Cardano.mnemonic req) = Ok keys /\
     Cardano.utxos_reply P (Cardano.address keys) = Ok utxos /\
     let target := Cardano.amountLovelace req + 3000000 in
     sel = CardanoSpec.firstFit (CardanoSpec.candidates utxos) target 0 /\
     CardanoSpec.candidates utxos = sel ++ rest /\
     (forall q q', sel = q ++ q' -> q <> [] -> q' <> [] ->
        CardanoSpec.total q < target) /\
     (rest = [] \/ (sel <> [] /\ target <= CardanoSpec.total sel))) /\
  (In (Cardano.MakeWitness key b) (snd (Cardano.B.send P req)) ->
   exists keys utxos rest,
     Cardano.B.deriveKeysFromMnemonic (Cardano.mnemonic req) = Ok keys /\
     Cardano.utxos_reply P (Cardano.address keys) = Ok utxos /\
     let target := Cardano.amountLovelace req + 2000000 in
     sel = CardanoSpec.firstFit (CardanoSpec.candidatesB utxos) target 0 /\
     CardanoSpec.candidatesB utxos = sel ++ rest /\
     (forall q q', sel = q ++ q' -> q <> [] -> q' <> [] ->
        CardanoSpec.total q < target) /\
     (rest = [] \/ (sel <> [] /\ target <= CardanoSpec.total sel))).
Proof.
  intros sel. split; intros Hin.
  - destruct (cardano_send_signed_inv P req key b Hin)
      as (keys & utxos & Hk & _ & Hu & _ & _ & Hsel).
    destruct (firstFit_prefix (CardanoSpec.candidates utxos)
                (Cardano.amountLovelace req + 3000000) 0)
      as (rest & Hl & Hmin & Hend).
    exists keys, utxos, rest. cbv zeta. fold sel in Hsel. rewrite <- Hsel in *.
    repeat split; assumption.
  - destruct (cardano_sendB_signed_inv P req key b Hin)
      as (keys & utxos & Hk & _ & Hu & _ & Hsel).
    destruct (firstFit_prefix (CardanoSpec.candidatesB utxos)
                (Cardano.amountLovelace req + 2000000) 0)
      as (rest & Hl & Hmin & Hend).
    exists keys, utxos, rest. cbv zeta. fold sel in Hsel. rewrite <- Hsel in *.
    repeat split; assumption.
Qed.

(** An instance of C6 on the provider order 5 ADA, 1 ADA. *)
Lemma cardano_selection_first_fit_witness :
  let F := Fixtures.exact_float in
  let utxos := [Fixtures.ada "h1" 0 5000000; Fixtures.ada "h2" 0 1000000] in
  let req := Cardano.mkSendRequest "seed phrase" "addr1bob" (inject_Z 1) in
  let P := Fixtures.cardano_provider utxos in
  exists key b,
    In (Cardano.MakeWitness key b)
       (snd (@Cardano.send Fixtures.exact_float Fixtures.bip39_api Fixtures.cardano_lib P req)) /\
    exists us,
      Cardano.b_inputs b =
      CardanoSpec.firstFit (CardanoSpec.candidates us)
        (Cardano.amountLovelace req + 3000000) 0.
Proof.
  intros F utxos req P.
  do 2 eexists.
  match goal with |- ?G /\ _ => assert (Hin : G) end.
  { cbn. right. right. left. reflexivity. }
  split; [exact Hin |].
  destruct (proj1 (@cardano_selection_first_fit Fixtures.exact_float Fixtures.bip39_api
                     Fixtures.cardano_lib P req _ _) Hin)
    as (keys & us & rest & _ & _ & Hsel & _).
  exists us. exact Hsel.
Defined.

(** ** C9: the minimum amount of the Cardano send *)

(** C9.  The send route of cardano-server.mjs answers every request whose
    base-unit amount [floor(amount * 1_000_000)] is below 1_000_000
    lovelace with a 400 error, and does so with an empty trace: before the
    keys are derived from the mnemonic and before any provider call.  For
    a request that passes the field checks the error is
    "Minimum 1 ADA required". *)
Theorem cardano_minimum_amount `{F : Float} `{A : Bip39.Api}
  `{L : Cardano.Lib}
  (P : Cardano.Provider) (req : Cardano.SendRequest) :
  Math_floor (fmul (Cardano.req_amount req) (inject_Z 1000000)) < 1000000 ->
  snd (Cardano.send P req) = [] /\
  (forall e, In e (snd (Cardano.send P req)) ->
     e <> Cardano.DeriveKeys (Cardano.mnemonic req) /\
     forall address, e <> Cardano.GetUtxos address) /\
  (exists msg, fst (Cardano.send P req) = error_response 400 msg) /\
  (CardanoSpec.well_formed req ->
   fst (Cardano.send P req) = error_response 400 "Minimum 1 ADA required").
Proof.
  intros Hlow.
  destruct (cardano_send_below_minimum P req Hlow) as (Htr & Herr & Hmin).
  split; [exact Htr |].
  split; [rewrite Htr; intros e [] |].
  split; assumption.
Qed.

(** An instance of C9: half an ADA. *)
Lemma cardano_minimum_amount_witness :
  let F := Fixtures.exact_float in
  let req := Cardano.mkSendRequest "seed phrase" "addr1bob" (1 # 2) in
  let P := Fixtures.cardano_provider [Fixtures.ada "h1" 0 5000000] in
  @Cardano.send Fixtures.exact_float Fixtures.bip39_api Fixtures.cardano_lib P req =
  (error_response 400 "Minimum 1 ADA required", []).
Proof.
  intros F req P.
  assert (Hlow : Math_floor (fmul (Cardano.req_amount req) (inject_Z 1000000)) < 1000000)
    by (vm_compute; reflexivity).
  destruct (@cardano_minimum_amount Fixtures.exact_float Fixtures.bip39_api Fixtures.cardano_lib
              P req Hlow) as (Htr & _ & _ & Hmin).
  rewrite (surjective_pairing (Cardano.send P req)), Htr, Hmin;
    [reflexivity | repeat split].
Defined.

(** The second router of the file has no such check: for the same request
    it derives the keys and queries the provider. *)
Remark cardano_second_router_has_no_minimum :
  let req := Cardano.mkSendRequest "seed phrase" "addr1bob" (1 # 2) in
  let P := Fixtures.cardano_provider [Fixtures.ada "h1" 0 5000000] in
  exists address rest,
    snd (@Cardano.B.send Fixtures.exact_float Fixtures.bip39_api Fixtures.cardano_lib P req) =
    Cardano.DeriveKeys "seed phrase" :: Cardano.GetUtxos address :: rest.
Proof. intros req P. do 2 eexists. reflexivity. Qed.

(** ** Conversion to base units *)

Lemma floored_intro `{F : Float} (a : Q) (d k : Z) :
  k = 10 ^ d -> AmountSpec.floored a d (Math_floor (fmul a (inject_Z k))).
Proof.
  intros ->. unfold AmountSpec.floored.
  split; [reflexivity |]. split; [apply Math_floor_le | apply Math_floor_gt].
Qed.

(** ** The mnemonic import routes *)

Section Derivation.
Context `{A : Bip39.Api}.

Lemma btc_import_run `{L : Btc.Lib} (req : MnemonicRequest) :
  truthy_string (mnemonic req) = true ->
  import_mnemonic req =
  (match deriveFromMnemonic (mnemonic req) (accountIndex req) (addressIndex req) with
   | Ok d => wallet_payload (mnemonic req) (fst d) (snd d)
   | Err msg => error_response 500 msg
   end, []).
Proof.
  intros Hm. unfold import_mnemonic, run, import_mnemonic_handler.
  rewrite bind_reject_if, Hm. cbn [negb]. rewrite bind_lift.
  destruct (deriveFromMnemonic _ _ _); reflexivity.
Qed.

Lemma cardano_import_run `{L : Cardano.Lib} (m : string) :
  truthy_string m = true ->
  Cardano.import m =
  (match Cardano.deriveKeysFromMnemonic m with
   | Ok keys => json [("network", FStr Cardano.NETWORK); ("mnemonic", FStr m);
                      ("address", FStr (Cardano.address keys))]
   | Err msg => error_response 500 msg
   end, []).
Proof.
  intros Hm. unfold Cardano.import, run, Cardano.import_handler.
  rewrite bind_reject_if, Hm. cbn [negb]. rewrite bind_lift.
  destruct (Cardano.deriveKeysFromMnemonic _); reflexivity.
Qed.

End Derivation.

(* ================================================================== *)
(** * Further properties of the routers *)
(* ================================================================== *)

(** ** The coin selector of the BTC routers *)

Section Selection.
Import SelectionSpec.

(** The selector cuts the ascending order in two. *)
Lemma selectUtxosGreedy_split (utxos : list Utxo) (target : Z) :
  exists rest,
    sortByValue utxos = chosen (selectUtxosGreedy utxos target) ++ rest /\
    (rest = [] \/
     (chosen (selectUtxosGreedy utxos target) <> [] /\
      target <= sum (selectUtxosGreedy utxos target))).
Proof.
  unfold selectUtxosGreedy.
  destruct (greedyLoop_prefix (sortByValue utxos) target [] 0)
    as (p & rest & Hs & Hr & _ & Hend).
  rewrite Hr. cbn [chosen sum app]. exists rest. split; [exact Hs |].
  destruct Hend as [Hnil | [Hp Ht]]; [now left | right; split; [exact Hp | lia]].
Qed.

Lemma selectUtxosGreedy_perm (utxos : list Utxo) (target : Z) :
  exists rest,
    Permutation (chosen (selectUtxosGreedy utxos target) ++ rest) utxos /\
    ascending (chosen (selectUtxosGreedy utxos target) ++ rest).
Proof.
  destruct (selectUtxosGreedy_split utxos target) as (rest & Hs & _).
  exists rest. rewrite <- Hs. split.
  - apply sortByValue_perm.
  - apply sortByValue_ascending.
Qed.

Lemma ascending_app_le (a b : list Utxo) :
  ascending (a ++ b) ->
  forall u v, In u a -> In v b -> value u <= value v.
Proof.
  unfold ascending. induction a as [| x r IH]; intros Hs u v Hu Hv.
  - destruct Hu.
  - simpl in Hs. inversion Hs as [| ? ? Hr Hx]; subst.
    destruct Hu as [-> | Hu].
    + rewrite Forall_forall in Hx. apply Hx. apply in_or_app. now right.
    + apply IH; assumption.
Qed.

Lemma greedyLoop_extends (s : list Utxo) (t : Z) (c : list Utxo) (acc : Z) :
  exists e, chosen (greedyLoop s t c acc) = c ++ e.
Proof.
  destruct (greedyLoop_prefix s t c acc) as (p & rest & _ & Hr & _).
  exists p. now rewrite Hr.
Qed.

Lemma greedyLoop_mono (s : list Utxo) (t1 t2 : Z) :
  t1 <= t2 ->
  forall c acc,
  exists extra,
    chosen (greedyLoop s t2 c acc) = chosen (greedyLoop s t1 c acc) ++ extra.
Proof.
  intros Hle. induction s as [| u r IH]; intros c acc; simpl.
  - exists []. now rewrite app_nil_r.
  - destruct (Z.geb_spec (acc + value u) t2) as [H2 | H2].
    + destruct (Z.geb_spec (acc + value u) t1) as [H1 | H1]; [| lia].
      exists []. now rewrite app_nil_r.
    + destruct (Z.geb_spec (acc + value u) t1) as [H1 | H1].
      * cbn [chosen]. apply greedyLoop_extends.
      * apply IH.
Qed.

End Selection.

(** X1.  The selector neither invents nor repeats an output: what it
    chooses, together with what it leaves out, is a rearrangement of its
    argument, so outputs with distinct references stay distinct; and the
    transaction the BTC send signs spends each listed output at most
    once. *)
Theorem selection_spends_each_utxo_once (utxos : list Utxo) (target : Z) :
  let r := selectUtxosGreedy utxos target in
  (exists rest, Permutation (chosen r ++ rest) utxos) /\
  incl (chosen r) utxos /\
  (List.length (chosen r) <= List.length utxos)%nat /\
  (NoDup (map SelectionSpec.outpoint utxos) ->
   NoDup (map SelectionSpec.outpoint (chosen r))) /\
  (forall (F : Float) (L : Btc.Lib) (P : Provider) (req : SendRequest) key psbt,
     utxo_reply P (from req) = Ok utxos ->
     NoDup (map SelectionSpec.outpoint utxos) ->
     In (SignInputs key psbt) (snd (send P req)) ->
     NoDup (map SelectionSpec.input_outpoint (inputs psbt))).
Proof.
  intros r.
  assert (Hnodup : forall t,
            NoDup (map SelectionSpec.outpoint utxos) ->
            NoDup (map SelectionSpec.outpoint (chosen (selectUtxosGreedy utxos t)))).
  { intros t Hnd.
    destruct (selectUtxosGreedy_perm utxos t) as (rest & Hperm & _).
    apply (Permutation_map SelectionSpec.outpoint), Permutation_sym in Hperm.
    apply (Permutation_NoDup Hperm) in Hnd.
    rewrite map_app in Hnd. now apply NoDup_app_remove_r in Hnd. }
  destruct (selectUtxosGreedy_perm utxos target) as (rest & Hperm & _).
  fold r in Hperm.
  split; [exists rest; exact Hperm |].
  split.
  { intros u Hu. apply (Permutation_in _ Hperm). apply in_or_app. now left. }
  split.
  { apply Permutation_length in Hperm. rewrite length_app in Hperm. lia. }
  split; [apply Hnodup |].
  intros F L P req key psbt Hutxo Hnd Hin.
  destruct (send_signed_inv P req key psbt Hin)
    as (utxos' & _ & _ & _ & Hutxo' & _ & _ & ->).
  assert (utxos' = utxos) by congruence; subst utxos'.
  cbn [inputs]. rewrite map_map.
  change (fun x => SelectionSpec.input_outpoint (witnessInput key x))
    with SelectionSpec.outpoint.
  apply Hnodup, Hnd.
Qed.

(** An instance of X1: two distinct outputs, both needed. *)
Lemma selection_spends_each_utxo_once_witness :
  let utxos := [mkUtxo "tx0" 0 60000000; mkUtxo "tx0" 1 50000000] in
  NoDup (map SelectionSpec.outpoint
           (chosen (selectUtxosGreedy utxos 100001000))).
Proof.
  intros utxos.
  apply (selection_spends_each_utxo_once utxos 100001000).
  repeat constructor; simpl; intuition discriminate.
Defined.

(** X2.  The selector spends the cheapest outputs: no chosen output is
    worth more than an output it leaves out. *)
Theorem selection_prefers_small_values (utxos : list Utxo) (target : Z) :
  exists rest,
    Permutation (chosen (selectUtxosGreedy utxos target) ++ rest) utxos /\
    forall u v,
      In u (chosen (selectUtxosGreedy utxos target)) -> In v rest ->
      value u <= value v.
Proof.
  destruct (selectUtxosGreedy_perm utxos target) as (rest & Hperm & Hasc).
  exists rest. split; [exact Hperm |].
  apply ascending_app_le, Hasc.
Qed.

(** An instance of X2: with a target of 4 the outputs worth 1 and 3 are
    chosen and the one worth 5 is left. *)
Lemma selection_prefers_small_values_witness :
  let utxos := [mkUtxo "tx0" 0 5; mkUtxo "tx0" 1 1; mkUtxo "tx1" 0 3] in
  exists rest,
    Permutation (chosen (selectUtxosGreedy utxos 4) ++ rest) utxos /\
    forall u v,
      In u (chosen (selectUtxosGreedy utxos 4)) -> In v rest ->
      value u <= value v.
Proof.
  intros utxos. exact (selection_prefers_small_values utxos 4).
Defined.

(** X3.  On outputs of non-negative value the selector reaches the target
    exactly when the total of all outputs does, and from a non-empty list
    it always chooses at least one output. *)
Theorem selection_finds_sufficient_funds (utxos : list Utxo) (target : Z) :
  SelectionSpec.non_negative utxos ->
  let r := selectUtxosGreedy utxos target in
  (target <= sum r <-> target <= sum_values utxos) /\
  (utxos <> [] -> chosen r <> []).
Proof.
  intros Hpos r.
  destruct (selectUtxosGreedy_split utxos target) as (rest & Hs & Hend).
  fold r in Hs, Hend.
  pose proof (sortByValue_perm utxos) as Hperm.
  pose proof (selectUtxosGreedy_sum utxos target) as Hsum. fold r in Hsum.
  assert (Htot : sum_values (chosen r ++ rest) = sum_values utxos).
  { rewrite <- Hs. apply sum_values_perm, Hperm. }
  assert (Hpos' : Forall (fun u => 0 <= value u) (chosen r ++ rest)).
  { rewrite <- Hs.
    eapply Permutation_Forall; [apply Permutation_sym, Hperm | exact Hpos]. }
  pose proof (sum_values_prefix_le _ _ Hpos') as Hle.
  split.
  - split; [lia |].
    intros Ht. destruct Hend as [-> | [_ Hr]]; [| exact Hr].
    rewrite app_nil_r in Htot. lia.
  - intros Hne Hnil. rewrite Hnil in Hs. cbn [app] in Hs.
    destruct Hend as [-> | [Hc _]]; [| now apply Hc].
    apply Hne. apply Permutation_nil. rewrite <- Hs. exact Hperm.
Qed.

(** An instance of X3. *)
Lemma selection_finds_sufficient_funds_witness :
  let utxos := [mkUtxo "a" 0 700; mkUtxo "b" 0 200; mkUtxo "c" 1 400] in
  1000 <= sum (selectUtxosGreedy utxos 1000) <-> 1000 <= sum_values utxos.
Proof.
  intros utxos.
  apply (selection_finds_sufficient_funds utxos 1000).
  repeat constructor; simpl; lia.
Defined.

(** X4.  Raising the target never drops an output from the selection: the
    set chosen for the smaller target is the beginning of the set chosen
    for the larger one. *)
Theorem selection_grows_with_target (utxos : list Utxo) (t1 t2 : Z) :
  t1 <= t2 ->
  exists extra,
    chosen (selectUtxosGreedy utxos t2) =
    chosen (selectUtxosGreedy utxos t1) ++ extra.
Proof.
  intros Hle. unfold selectUtxosGreedy. now apply greedyLoop_mono.
Qed.

(** An instance of X4. *)
Lemma selection_grows_with_target_witness :
  let utxos := [mkUtxo "a" 0 700; mkUtxo "b" 0 200; mkUtxo "c" 1 400] in
  exists extra,
    chosen (selectUtxosGreedy utxos 900) =
    chosen (selectUtxosGreedy utxos 300) ++ extra.
Proof.
  intros utxos. apply (selection_grows_with_target utxos 300 900). lia.
Defined.

(** ** The fee rate and the send route of btc-server.mjs *)

(** X5.  [fetchFeeRate] never fails and never returns a rate below one: it
    makes one request and answers with an integer of at least 1.  Of the
    reply it reads the entry ["1"], the estimate for the next block, and
    no other: the rate is 10 when the request fails or that entry is
    missing or zero, and otherwise the entry rounded to the nearest
    integer, but at least 1. *)
Theorem fetchFeeRate_is_at_least_one (P : Provider) (tr : list Event) :
  exists z,
    1 <= z /\
    fetchFeeRate P tr = (Continue Q (inject_Z z), tr ++ [GetFeeEstimates]) /\
    fetchedRate P = inject_Z z /\
    ((exists msg, fee_estimates_reply P = Err msg) -> z = 10) /\
    (forall data, fee_estimates_reply P = Ok data ->
       (data "1" = None -> z = 10) /\
       (forall d, data "1" = Some d -> truthy_number d = false -> z = 10) /\
       (forall d, data "1" = Some d -> truthy_number d = true ->
          z = Z.max (Math_round d) 1)).
Proof.
  unfold fetchFeeRate, fetchedRate. rewrite bind_emit.
  destruct (fee_estimates_reply P) as [data | msg] eqn:Hr.
  - exists (Z.max (Math_round (or_else (data "1") (inject_Z 10))) 1).
    split; [lia |]. split; [reflexivity |]. split; [reflexivity |].
    split; [intros [m Hm]; discriminate |].
    intros data' Hd. injection Hd as <-.
    split; [intros ->; reflexivity |].
    split; intros d -> Ht; cbn [or_else]; rewrite Ht; reflexivity.
  - exists 10. split; [lia |]. split; [reflexivity |]. split; [reflexivity |].
    split; [reflexivity |]. intros data Hd. discriminate Hd.
Qed.

(** An instance of X5: a reply that quotes 2.4 for the next block and 50
    for the third resolves to 2. *)
Lemma fetchFeeRate_is_at_least_one_witness :
  let data := fun target : string =>
                if String.eqb target "1" then Some (24 # 10)
                else if String.eqb target "3" then Some (inject_Z 50)
                else None in
  let P := mkProvider (fun _ => Ok []) (Ok data) (fun _ _ => Err "unused")
             (fun _ => Err "unused") in
  fetchedRate P = inject_Z 2.
Proof.
  intros data P.
  destruct (fetchFeeRate_is_at_least_one P [])
    as (z & _ & _ & Hrate & _ & Hdata).
  destruct (Hdata data eq_refl) as (_ & _ & Hsome).
  rewrite Hrate, (Hsome (24 # 10) eq_refl eq_refl). reflexivity.
Defined.

Section BtcSendMore.
Context `{F : Float} `{L : Btc.Lib}.
Import BtcTraceSpec.

Lemma incomplete_check (req : SendRequest) :
  incomplete req ->
  negb (truthy_string (privateKeyWIF req)) || negb (truthy_string (to req))
  || negb (truthy_number (amount req)) = true.
Proof.
  intros [H | [H | H]]; rewrite H; cbn [negb orb];
    repeat rewrite orb_true_r; reflexivity.
Qed.

Lemma well_formed_check (req : SendRequest) :
  well_formed req ->
  negb (truthy_string (privateKeyWIF req)) || negb (truthy_string (to req))
  || negb (truthy_number (amount req)) = false.
Proof. intros (H1 & H2 & H3). now rewrite H1, H2, H3. Qed.

(** The run of a send up to the reply that lists the unspent outputs. *)
Lemma send_after_utxos (P : Provider) (req : SendRequest) (key : ECPair)
  (utxos : list Utxo) :
  well_formed req ->
  ECPair_fromWIF (privateKeyWIF req) = Ok key ->
  p2wpkh_address (publicKey key) = from req ->
  utxo_reply P (from req) = Ok utxos ->
  utxos <> [] ->
  btcToSats (amount req) + sendFee P req utxos <= sum (selection req utxos) ->
  send P req =
  (match addOutput (mkPsbt (map (witnessInput key) (chosen (selection req utxos))) [])
           (to req) (btcToSats (amount req)) with
   | Err msg => error_response 500 msg
   | Ok p1 =>
       match addOutput p1 (from req)
               (sum (selection req utxos) - btcToSats (amount req)
                - sendFee P req utxos) with
       | Err msg => error_response 500 msg
       | Ok p2 =>
           match sign_reply P key p2 with
           | Err msg => error_response 500 msg
           | Ok hex =>
               match tx_reply P hex with
               | Err msg => error_response 500 msg
               | Ok id =>
                   json [("network", FStr "mainnet"); ("from", FStr (from req));
                         ("to", FStr (to req)); ("amount_btc", FNum (amount req));
                         ("amount_sats", FInt (btcToSats (amount req)));
                         ("fee_sats", FInt (sendFee P req utxos));
                         ("txid", FStr id)]
               end
           end
       end
   end,
   [GetUtxos (from req)]
   ++ (if rate_supplied req then [] else [GetFeeEstimates])
   ++ match addOutput (mkPsbt (map (witnessInput key) (chosen (selection req utxos))) [])
              (to req) (btcToSats (amount req)) with
      | Err _ => []
      | Ok p1 =>
          match addOutput p1 (from req)
                  (sum (selection req utxos) - btcToSats (amount req)
                   - sendFee P req utxos) with
          | Err _ => []
          | Ok p2 =>
              SignInputs key p2 ::
              match sign_reply P key p2 with
              | Err _ => []
              | Ok hex => [PostTx hex]
              end
          end
      end).
Proof.
  intros Hwf Hkey Haddr Hutxo Hne Hfunds.
  unfold sendFee, selection, effectiveRate, fetchedRate, rate_supplied in *.
  apply Z.ltb_ge in Hfunds.
  unfold send, run, send_handler, fetchUtxos, fetchFeeRate, broadcastTx.
  rewrite bind_reject_if, (well_formed_check req Hwf).
  rewrite bind_lift, Hkey. cbv zeta. rewrite Haddr.
  rewrite bind_reject_if, String.eqb_refl. cbn [negb].
  rewrite bind_await, Hutxo.
  rewrite bind_reject_if.
  destruct utxos as [| u0 us]; [contradiction |]. cbn [List.length Nat.eqb].
  set (utxos := u0 :: us) in *.
  rewrite fold_addInput. cbn [inputs outputs Psbt_new app].
  destruct (feeRate req) as [q |] eqn:Hrate;
    [destruct (truthy_number q) eqn:Hq |].
  all: repeat first [ rewrite bind_ret | rewrite bind_assoc | rewrite bind_emit ].
  all: try (destruct (fee_estimates_reply P) as [d | msg] eqn:Hfee;
            rewrite bind_ret).
  all: rewrite bind_reject_if, Hfunds.
  all: repeat (first [ rewrite bind_lift | rewrite bind_await ];
               match goal with
               | |- context [match ?x with Ok _ => _ | Err _ => _ end] =>
                   destruct x eqn:?; try reflexivity
               end).
Qed.

End BtcSendMore.

(** X6.  The BTC send answers what it cannot process before it spends an
    effect on it: a request that lacks a field gets 400 and an undecodable
    key gets 500, both with no provider call; a sender without unspent
    outputs gets 400 "no utxos available" after the one listing request,
    and a failed listing request gets 500 after it. *)
Theorem btc_send_early_exits `{F : Float} `{L : Btc.Lib}
  (P : Provider) (req : SendRequest) :
  (BtcTraceSpec.incomplete req ->
   send P req =
   (error_response 400 "privateKeyWIF, to, amount required", [])) /\
  (well_formed req ->
   forall msg, ECPair_fromWIF (privateKeyWIF req) = Err msg ->
   send P req = (error_response 500 msg, [])) /\
  (well_formed req ->
   forall key,
     ECPair_fromWIF (privateKeyWIF req) = Ok key ->
     p2wpkh_address (publicKey key) = from req ->
     (utxo_reply P (from req) = Ok [] ->
      send P req =
      (error_response 400 "no utxos available", [GetUtxos (from req)])) /\
     (forall msg, utxo_reply P (from req) = Err msg ->
      send P req = (error_response 500 msg, [GetUtxos (from req)]))).
Proof.
  split; [| split].
  - intros Hinc. unfold send, run, send_handler.
    rewrite bind_reject_if, (incomplete_check req Hinc). reflexivity.
  - intros Hwf msg Hkey. unfold send, run, send_handler.
    rewrite bind_reject_if, (well_formed_check req Hwf), bind_lift, Hkey.
    reflexivity.
  - intros Hwf key Hkey Haddr.
    split.
    + intros Hutxo. unfold send, run, send_handler, fetchUtxos.
      rewrite bind_reject_if, (well_formed_check req Hwf), bind_lift, Hkey.
      cbv zeta. rewrite Haddr, bind_reject_if, String.eqb_refl. cbn [negb].
      rewrite bind_await, Hutxo, bind_reject_if. reflexivity.
    + intros msg Hutxo. unfold send, run, send_handler, fetchUtxos.
      rewrite bind_reject_if, (well_formed_check req Hwf), bind_lift, Hkey.
      cbv zeta. rewrite Haddr, bind_reject_if, String.eqb_refl. cbn [negb].
      rewrite bind_await, Hutxo. reflexivity.
Qed.

(** An instance of X6: a sender whose address holds nothing. *)
Lemma btc_send_early_exits_witness :
  @send Fixtures.exact_float Fixtures.btc_lib (Fixtures.btc_provider [])
    (Fixtures.btc_request "bc1qalice") =
  (error_response 400 "no utxos available", [GetUtxos "bc1qalice"]).
Proof.
  destruct (@btc_send_early_exits Fixtures.exact_float Fixtures.btc_lib
              (Fixtures.btc_provider []) (Fixtures.btc_request "bc1qalice"))
    as (_ & _ & Hempty).
  assert (Hwf : well_formed (Fixtures.btc_request "bc1qalice"))
    by (repeat split).
  destruct (Hempty Hwf Fixtures.alice eq_refl eq_refl) as [H _].
  exact (H eq_refl).
Defined.

(** X7.  A BTC send signs at most once and broadcasts at most once; what
    it broadcasts is the serialisation the signer returned for the
    transaction it signed; and it asks the explorer for a fee rate only
    when the caller supplied none (or zero). *)
Theorem btc_send_broadcasts_once `{F : Float} `{L : Btc.Lib}
  (P : Provider) (req : SendRequest) :
  let tr := snd (send P req) in
  (List.length (filter is_signing tr) <= 1)%nat /\
  (List.length (filter BtcTraceSpec.is_broadcast tr) <= 1)%nat /\
  (forall hex, In (PostTx hex) tr ->
     exists key psbt,
       In (SignInputs key psbt) tr /\ sign_reply P key psbt = Ok hex) /\
  (In GetFeeEstimates tr -> BtcTraceSpec.rate_supplied req = false).
Proof.
  unfold send, run, send_handler, fetchUtxos, fetchFeeRate, broadcastTx,
    BtcTraceSpec.rate_supplied.
  act_run.
  all: cbn [filter is_signing BtcTraceSpec.is_broadcast List.length].
  all: split; [lia |]; split; [lia |]; split.
  all: try absent.
  all: try (intros _; reflexivity).
  all: try (intros hex Hin; cbn [In] in Hin;
            repeat match type of Hin with
                   | _ \/ _ => destruct Hin as [Hin | Hin]
                   end; try discriminate Hin; try contradiction Hin;
            injection Hin as <-;
            do 2 eexists; split; [| eassumption]; cbn [In]; intuition).
  all: try (intros hex Hin; exfalso; revert Hin; absent).
  all: try (intros _; assumption).
Qed.

(** An instance of X7: the serialisation that is broadcast was returned by
    the signer. *)
Lemma btc_send_broadcasts_once_witness :
  let F := Fixtures.exact_float in
  let P := Fixtures.btc_provider [mkUtxo "tx0" 0 100002400] in
  let req := Fixtures.btc_request "bc1qalice" in
  exists key psbt,
    In (SignInputs key psbt) (snd (@send F Fixtures.btc_lib P req)) /\
    sign_reply P key psbt = Ok "signed-hex".
Proof.
  intros F P req.
  destruct (@btc_send_broadcasts_once F Fixtures.btc_lib P req)
    as (_ & _ & Hhex & _).
  apply (Hhex "signed-hex").
  do 2 right. left. reflexivity.
Defined.

(** X8.  When the key owns the sender address, the selected outputs cover
    amount and fee, the library accepts both outputs, the signer returns a
    serialisation and the explorer accepts it, the BTC send answers 200 with
    the floored amount, the fee and the transaction id the explorer
    returned, having listed, (asked for the fee rate,) signed and
    broadcast in that order.  Conversely a 200 answer is only given for a
    transaction the explorer accepted. *)
Theorem btc_send_succeeds `{F : Float} `{L : Btc.Lib}
  (P : Provider) (req : SendRequest) :
  (forall key utxos hex id,
     well_formed req ->
     ECPair_fromWIF (privateKeyWIF req) = Ok key ->
     p2wpkh_address (publicKey key) = from req ->
     utxo_reply P (from req) = Ok utxos ->
     utxos <> [] ->
     btcToSats (amount req) + sendFee P req utxos <= sum (selection req utxos) ->
     (forall a v, In (a, v) (BtcTraceSpec.sendOutputs P req utxos) ->
        checkOutput a v = Ok tt) ->
     sign_reply P key (BtcTraceSpec.sendPsbt P req key utxos) = Ok hex ->
     tx_reply P hex = Ok id ->
     send P req =
     (json [("network", FStr "mainnet"); ("from", FStr (from req));
            ("to", FStr (to req)); ("amount_btc", FNum (amount req));
            ("amount_sats", FInt (btcToSats (amount req)));
            ("fee_sats", FInt (sendFee P req utxos)); ("txid", FStr id)],
      [GetUtxos (from req)]
      ++ (if BtcTraceSpec.rate_supplied req then [] else [GetFeeEstimates])
      ++ [SignInputs key (BtcTraceSpec.sendPsbt P req key utxos); PostTx hex])) /\
  (status (fst (send P req)) = 200 ->
   exists hex id,
     In (PostTx hex) (snd (send P req)) /\ tx_reply P hex = Ok id /\
     exists fields,
       fst (send P req) = json fields /\ In ("txid", FStr id) fields).
Proof.
  split.
  - intros key utxos hex id Hwf Hkey Haddr Hutxo Hne Hfunds Hout Hsign Htx.
    rewrite (send_after_utxos P req key utxos Hwf Hkey Haddr Hutxo Hne Hfunds).
    unfold BtcTraceSpec.sendPsbt, BtcTraceSpec.sendOutputs in *.
    unfold addOutput. cbn [inputs outputs app].
    rewrite (Hout _ _ (or_introl eq_refl)).
    cbn [inputs outputs app].
    rewrite (Hout _ _ (or_intror (or_introl eq_refl))).
    rewrite Hsign, Htx. reflexivity.
  - unfold send, run, send_handler, fetchUtxos, fetchFeeRate, broadcastTx.
    act_run.
    all: cbn [status error_response]; try discriminate.
    all: intros _; do 2 eexists; split; [cbn [In]; intuition |].
    all: split; [eassumption |].
    all: eexists; split; [reflexivity |]; cbn [In]; intuition.
Qed.

(** An instance of X8: the send of the fixture. *)
Lemma btc_send_succeeds_witness :
  let F := Fixtures.exact_float in
  let P := Fixtures.btc_provider [mkUtxo "tx0" 0 100002400] in
  let req := Fixtures.btc_request "bc1qalice" in
  exists fields,
    fst (@send F Fixtures.btc_lib P req) = json fields /\
    In ("txid", FStr "txid-1") fields /\
    In ("fee_sats", FInt 1400) fields.
Proof.
  intros F P req.
  destruct (@btc_send_succeeds F Fixtures.btc_lib P req) as [Hok _].
  assert (Hwf : well_formed req) by (repeat split).
  assert (Hne : [mkUtxo "tx0" 0 100002400] <> []) by discriminate.
  assert (Hfunds : @btcToSats F (amount req)
                   + @sendFee F P req [mkUtxo "tx0" 0 100002400]
                   <= sum (@selection F req [mkUtxo "tx0" 0 100002400]))
    by (vm_compute; discriminate).
  rewrite (Hok Fixtures.alice [mkUtxo "tx0" 0 100002400] "signed-hex" "txid-1"
             Hwf eq_refl eq_refl eq_refl Hne Hfunds).
  - eexists. split; [reflexivity |]. split; cbn [In]; intuition.
  - intros a v [H | [H | []]]; injection H as <- <-; reflexivity.
  - reflexivity.
  - reflexivity.
Defined.

Section BtcFee.
Context `{F : Float}.

Lemma truthy_number_inject_Z (z : Z) :
  truthy_number (inject_Z z) = negb (z =? 0).
Proof.
  unfold truthy_number.
  destruct (Z.eqb_spec z 0) as [-> | Hne]; [reflexivity |]. cbn [negb].
  destruct (Qeq_bool (inject_Z z) 0) eqn:E; [| reflexivity].
  apply Qeq_bool_iff in E. unfold Qeq in E. cbn in E. lia.
Qed.

Lemma fetchFeeRate_bounds (P : Provider) :
  exists z, 1 <= z /\ fetchedRate P = inject_Z z.
Proof.
  unfold fetchedRate. destruct (fee_estimates_reply P) as [d | msg].
  - eexists. split; [| reflexivity]. lia.
  - exists 10. split; [lia | reflexivity].
Qed.

Lemma estimateTxVsize_ge (n : Z) : 0 <= n -> 72 <= estimateTxVsize n 2.
Proof.
  unfold estimateTxVsize, VBYTE_PER_INPUT, VBYTE_PER_OUTPUT, TX_OVERHEAD_VBYTES.
  lia.
Qed.

Lemma selection_chosen_nonempty (req : SendRequest) (utxos : list Utxo) :
  utxos <> [] -> (1 <= List.length (chosen (selection req utxos)))%nat.
Proof.
  intros Hne. unfold selection.
  destruct (selectUtxosGreedy_split utxos (btcToSats (amount req) + 1000))
    as (rest & Hs & Hend).
  destruct (chosen (selectUtxosGreedy utxos (btcToSats (amount req) + 1000)))
    as [| u c] eqn:Hc; [| simpl; lia].
  exfalso. destruct Hend as [-> | [Hc' _]]; [| now apply Hc'].
  apply Hne, Permutation_nil. cbn [app] in Hs. rewrite <- Hs.
  apply sortByValue_perm.
Qed.

End BtcFee.

(** X9.  When the caller supplies no fee rate, the fee of a BTC send is the
    exact product of the virtual size and the integer rate that
    [fetchFeeRate] resolved, provided the product fits the 53 bits of a
    number; it is then at least 140 satoshi, the size of a transaction with
    one input and two outputs at rate 1. *)
Theorem fetched_rate_fee `{F : Float} (P : Provider) (req : SendRequest)
  (utxos : list Utxo) :
  BtcTraceSpec.rate_supplied req = false ->
  utxos <> [] ->
  let n := Z.of_nat (List.length (chosen (selection req utxos))) in
  exists z,
    1 <= z /\
    fetchedRate P = inject_Z z /\
    (estimateTxVsize n 2 * z <= 2 ^ 53 ->
     sendFee P req utxos = estimateTxVsize n 2 * z /\
     140 <= sendFee P req utxos).
Proof.
  intros Hrate Hne n.
  destruct (fetchFeeRate_bounds P) as (z & Hz & Hf).
  exists z. split; [exact Hz |]. split; [exact Hf |].
  intros Hfit.
  pose proof (selection_chosen_nonempty req utxos Hne) as Hlen.
  assert (Hv : 140 <= estimateTxVsize n 2).
  { unfold estimateTxVsize, VBYTE_PER_INPUT, VBYTE_PER_OUTPUT,
      TX_OVERHEAD_VBYTES, n. lia. }
  assert (Heff : effectiveRate P req = inject_Z z).
  { unfold effectiveRate, BtcTraceSpec.rate_supplied in *.
    destruct (feeRate req) as [r |]; [rewrite Hrate |]; exact Hf. }
  unfold sendFee. fold n. rewrite Heff.
  rewrite txFee_integer_rate by (rewrite Z.abs_eq; nia).
  split; [reflexivity | nia].
Qed.

(** An instance of X9: no rate supplied and an explorer that does not
    answer, so the rate is 10 and the fee 1400. *)
Lemma fetched_rate_fee_witness :
  let F := Fixtures.exact_float in
  let P := Fixtures.btc_provider [mkUtxo "tx0" 0 100002400] in
  let req := Btc.mkSendRequest "bc1qalice" "alice" "bc1qbob" (inject_Z 1) None in
  140 <= @sendFee F P req [mkUtxo "tx0" 0 100002400].
Proof.
  intros F P req.
  destruct (@fetched_rate_fee F P req [mkUtxo "tx0" 0 100002400] eq_refl
              ltac:(discriminate)) as (z & Hz & Hf & Hfee).
  assert (z = 10) by (injection Hf as Hf; lia). subst z.
  apply Hfee. vm_compute. discriminate.
Defined.

(** X10.  The BTC send does not check the sign of a fee rate the caller
    supplies: with a negative integer rate the fee is negative, and the
    transaction that is signed pays out more than its inputs hold. *)
Theorem negative_fee_rate_overdraws `{F : Float} `{L : Btc.Lib}
  (P : Provider) (req : SendRequest) (z : Z) key psbt :
  feeRate req = Some (inject_Z z) ->
  z < 0 ->
  estimateTxVsize (Z.of_nat (List.length (inputs psbt))) 2 * - z <= 2 ^ 53 ->
  In (SignInputs key psbt) (snd (send P req)) ->
  input_total psbt < output_total psbt.
Proof.
  intros Hrate Hz Hfit Hin.
  destruct (send_signed_inv P req key psbt Hin)
    as (utxos & _ & _ & _ & _ & _ & _ & ->).
  cbn [inputs] in Hfit. rewrite length_map in Hfit.
  rewrite input_total_map.
  unfold output_total. cbn [outputs fold_right snd].
  pose proof (selectUtxosGreedy_sum utxos (btcToSats (amount req) + 1000)) as Hsum.
  fold (selection req utxos) in Hsum.
  assert (Heff : effectiveRate P req = inject_Z z).
  { unfold effectiveRate. rewrite Hrate, truthy_number_inject_Z.
    destruct (Z.eqb_spec z 0); [lia | reflexivity]. }
  set (n := Z.of_nat (List.length (chosen (selection req utxos)))) in *.
  assert (Hfee : sendFee P req utxos = estimateTxVsize n 2 * z).
  { unfold sendFee. fold n. rewrite Heff.
    apply txFee_integer_rate.
    pose proof (estimateTxVsize_ge n ltac:(unfold n; lia)).
    rewrite Z.abs_neq by nia. lia. }
  pose proof (estimateTxVsize_ge n ltac:(unfold n; lia)).
  rewrite Hfee. nia.
Qed.

(** An instance of X10: rate -10 on the fixture; the change output alone
    exceeds the input. *)
Lemma negative_fee_rate_overdraws_witness :
  let F := Fixtures.exact_float in
  let P := Fixtures.btc_provider [mkUtxo "tx0" 0 100002400] in
  let req := Btc.mkSendRequest "bc1qalice" "alice" "bc1qbob" (inject_Z 1)
               (Some (inject_Z (-10))) in
  let psbt := mkPsbt
                [mkPsbtInput "tx0" 0 (Fixtures.text_bytes "alice") 100002400]
                [("bc1qbob", 100000000); ("bc1qalice", 3800)] in
  In (SignInputs Fixtures.alice psbt) (snd (@send F Fixtures.btc_lib P req)) /\
  input_total psbt < output_total psbt.
Proof.
  intros F P req psbt.
  assert (Hin : In (SignInputs Fixtures.alice psbt)
                  (snd (@send F Fixtures.btc_lib P req))).
  { right. left. reflexivity. }
  split; [exact Hin |].
  apply (@negative_fee_rate_overdraws F Fixtures.btc_lib P req (-10)
           Fixtures.alice psbt eq_refl); [lia | vm_compute; discriminate | exact Hin].
Defined.

(** ** Importing a BTC wallet and sending from it *)

Section BtcImport.
Context `{F : Float} `{L : Btc.Lib}.

(** A send whose key owns the declared sender starts by listing the
    sender's unspent outputs. *)
Lemma send_passes_check (P : Provider) (req : SendRequest) (key : ECPair) :
  well_formed req ->
  ECPair_fromWIF (privateKeyWIF req) = Ok key ->
  p2wpkh_address (publicKey key) = from req ->
  (exists rest, snd (send P req) = GetUtxos (from req) :: rest) /\
  fst (send P req) <> error_response 400 "privateKey mismatch".
Proof.
  intros Hwf Hkey Haddr.
  unfold send, run, send_handler, fetchUtxos, fetchFeeRate, broadcastTx.
  rewrite bind_reject_if, (well_formed_check req Hwf), bind_lift, Hkey.
  cbv zeta. rewrite Haddr, bind_reject_if, String.eqb_refl. cbn [negb].
  act_run.
  all: split; [eexists; reflexivity | cbn [fst]; discriminate].
Qed.

Lemma btc_import_run_wif (wif : string) :
  BtcWallet.import wif =
  (if negb (truthy_string wif)
   then error_response 400 "privateKeyWIF required"
   else match ECPair_fromWIF wif with
        | Ok keyPair =>
            json [("network", FStr "mainnet");
                  ("address", FStr (p2wpkh_address (publicKey keyPair)));
                  ("privateKeyWIF", FStr wif)]
        | Err msg => error_response 500 msg
        end, []).
Proof.
  unfold BtcWallet.import, run, BtcWallet.import_handler.
  rewrite bind_reject_if. destruct (negb (truthy_string wif)); [reflexivity |].
  rewrite bind_lift. destruct (ECPair_fromWIF wif); reflexivity.
Qed.

End BtcImport.

(** X11.  Importing a WIF key performs no provider call; it answers 400
    when the key is missing and 500 when it does not decode.  The address
    it reports for a key is the address the send accepts as the sender for
    that key: such a send is never refused with "privateKey mismatch" and
    goes on to list the outputs of that address. *)
Theorem btc_imported_key_can_send `{F : Float} `{L : Btc.Lib} (wif : string) :
  snd (BtcWallet.import wif) = [] /\
  (truthy_string wif = false ->
   fst (BtcWallet.import wif) = error_response 400 "privateKeyWIF required") /\
  (truthy_string wif = true ->
   forall msg, ECPair_fromWIF wif = Err msg ->
   fst (BtcWallet.import wif) = error_response 500 msg) /\
  (forall fields a (P : Provider) (req : SendRequest),
     fst (BtcWallet.import wif) = json fields ->
     In ("address", FStr a) fields ->
     privateKeyWIF req = wif ->
     from req = a ->
     truthy_string (to req) = true ->
     truthy_number (amount req) = true ->
     (exists rest, snd (send P req) = GetUtxos a :: rest) /\
     fst (send P req) <> error_response 400 "privateKey mismatch").
Proof.
  rewrite btc_import_run_wif. cbn [fst snd].
  split; [reflexivity |].
  split; [intros ->; reflexivity |].
  split; [intros -> msg ->; reflexivity |].
  intros fields a P req Himp Hin Hwif Hfrom Hto Hamt.
  destruct (truthy_string wif) eqn:Hw; cbn [negb] in Himp; [| discriminate].
  destruct (ECPair_fromWIF wif) as [key | msg] eqn:Hkey; [| discriminate].
  injection Himp as <-.
  cbn [In] in Hin.
  destruct Hin as [H | [H | [H | []]]]; try discriminate H.
  injection H as <-.
  subst wif. rewrite <- Hfrom.
  apply (send_passes_check P req key); [repeat split | |];
    first [assumption | symmetry; assumption].
Qed.

(** An instance of X11: alice's key, imported and then used. *)
Lemma btc_imported_key_can_send_witness :
  let F := Fixtures.exact_float in
  let P := Fixtures.btc_provider [] in
  let req := Fixtures.btc_request "bc1qalice" in
  exists rest, snd (@send F Fixtures.btc_lib P req) = GetUtxos "bc1qalice" :: rest.
Proof.
  intros F P req.
  destruct (@btc_imported_key_can_send F Fixtures.btc_lib "alice")
    as (_ & _ & _ & Hsend).
  destruct (Hsend _ "bc1qalice" P req eq_refl) as [Hrest _];
    try reflexivity.
  - cbn [In]. right. left. reflexivity.
  - exact Hrest.
Defined.

(** X12.  Importing a wallet from a mnemonic is answered with an address
    and a WIF key that the send accepts together, provided the WIF encoding
    of the derived node decodes to a key pair with the node's public key
    (the round trip of the key library). *)
Theorem btc_derived_wallet_can_send `{F : Float} `{A : Bip39.Api}
  `{L : Btc.Lib} (m : string) (account idx : nat) :
  let child := derivePath (bip32_fromSeed (Bip39.mnemonicToSeedSync m))
                 (derivation_path account idx) in
  truthy_string m = true ->
  truthy_string (toWIF child) = true ->
  (exists kp, ECPair_fromWIF (toWIF child) = Ok kp /\
              publicKey kp = node_publicKey child) ->
  forall fields a wif (P : Provider) (req : SendRequest),
    fst (import_mnemonic (mkMnemonicRequest m account idx)) = json fields ->
    In ("address", FStr a) fields ->
    In ("privateKeyWIF", FStr wif) fields ->
    privateKeyWIF req = wif ->
    from req = a ->
    truthy_string (to req) = true ->
    truthy_number (amount req) = true ->
    (exists rest, snd (send P req) = GetUtxos a :: rest) /\
    fst (send P req) <> error_response 400 "privateKey mismatch".
Proof.
  intros child Hm Hwif (kp & Hkp & Hpub) fields a wif P req Himp Ha Hw
    Hreq Hfrom Hto Hamt.
  rewrite (btc_import_run (mkMnemonicRequest m account idx) Hm) in Himp.
  cbn [fst mnemonic accountIndex addressIndex] in Himp.
  unfold deriveFromMnemonic in Himp.
  destruct (Bip39.validateMnemonic m); cbn [negb] in Himp; [| discriminate].
  cbv zeta in Himp. fold child in Himp. cbn [fst snd] in Himp.
  unfold wallet_payload, buildAddressFromNode in Himp.
  injection Himp as <-.
  cbn [In] in Ha, Hw.
  destruct Ha as [H | [H | [H | [H | [H | []]]]]]; try discriminate H.
  injection H as <-.
  destruct Hw as [H | [H | [H | [H | [H | []]]]]]; try discriminate H.
  injection H as <-.
  rewrite <- Hfrom.
  apply (send_passes_check P req kp).
  - repeat split; [rewrite Hreq |..]; assumption.
  - rewrite Hreq. exact Hkp.
  - rewrite Hpub. symmetry. exact Hfrom.
Qed.

(** An instance of X12 on the example library. *)
Lemma btc_derived_wallet_can_send_witness :
  let F := Fixtures.exact_float in
  let A := Fixtures.bip39_api in
  let L := Fixtures.btc_lib in
  let P := Fixtures.btc_provider [] in
  let req := Btc.mkSendRequest "bc1qword7m/84'/0'/0'/0/0" "word7m/84'/0'/0'/0/0"
               "bc1qbob" (inject_Z 1) None in
  exists rest,
    snd (@send F L P req) = GetUtxos "bc1qword7m/84'/0'/0'/0/0" :: rest.
Proof.
  intros F A L P req.
  destruct (@btc_derived_wallet_can_send F A L "word7" 0%nat 0%nat eq_refl eq_refl
              ltac:(eexists; split; reflexivity)
              _ "bc1qword7m/84'/0'/0'/0/0" "word7m/84'/0'/0'/0/0" P req eq_refl)
    as [Hrest _]; try reflexivity.
  - cbn [In]. do 3 right. left. reflexivity.
  - cbn [In]. do 4 right. left. reflexivity.
  - exact Hrest.
Defined.

(** ** Derivation paths *)

Section Paths.
Import PathSpec.

Lemma string_app_assoc (a b c : string) :
  ((a ++ b) ++ c)%string = (a ++ (b ++ c))%string.
Proof. induction a as [| x a IH]; simpl; [reflexivity | now rewrite IH]. Qed.

Lemma decimal_digits_S (f n : nat) (acc : string) :
  decimal_digits (S f) n acc =
  match Nat.div n 10 with
  | O => String (digit_char (Nat.modulo n 10)) acc
  | S q => decimal_digits f (S q) (String (digit_char (Nat.modulo n 10)) acc)
  end.
Proof. reflexivity. Qed.

Lemma decimal_digits_acc (fuel : nat) :
  forall n acc,
    decimal_digits fuel n acc = (decimal_digits fuel n EmptyString ++ acc)%string.
Proof.
  induction fuel as [| f IH]; intros n acc; [reflexivity |].
  rewrite !decimal_digits_S.
  destruct (Nat.div n 10) as [| q] eqn:Hq; [reflexivity |].
  rewrite IH. rewrite (IH (S q) (String _ EmptyString)).
  rewrite string_app_assoc. reflexivity.
Qed.

Lemma decimal_value_app (s r : string) :
  forall acc,
    decimal_value (s ++ r) acc = decimal_value r (decimal_value s acc).
Proof. induction s as [| c s IH]; intros acc; simpl; [reflexivity | apply IH]. Qed.

Lemma all_digits_app (s r : string) :
  all_digits (s ++ r) = (all_digits s && all_digits r)%bool.
Proof.
  induction s as [| c s IH]; simpl; [reflexivity |].
  rewrite IH. now rewrite andb_assoc.
Qed.

Lemma digit_char_code (d : nat) :
  (d < 10)%nat -> nat_of_ascii (digit_char d) = (48 + d)%nat.
Proof. intros Hd. unfold digit_char. apply nat_ascii_embedding. lia. Qed.

Lemma decimal_digits_value (fuel : nat) :
  forall n,
    (n < fuel)%nat ->
    decimal_value (decimal_digits fuel n EmptyString) 0 = n /\
    all_digits (decimal_digits fuel n EmptyString) = true.
Proof.
  induction fuel as [| f IH]; intros n Hn; [lia |].
  rewrite decimal_digits_S.
  pose proof (Nat.mod_upper_bound n 10 ltac:(lia)) as Hmod.
  pose proof (Nat.div_mod_eq n 10) as Hdm.
  destruct (Nat.div n 10) as [| q] eqn:Hq.
  - cbn [decimal_value all_digits]. unfold is_digit.
    rewrite digit_char_code by exact Hmod.
    split; [lia |].
    apply andb_true_iff. split; [| reflexivity].
    apply andb_true_iff. split; apply Nat.leb_le; lia.
  - rewrite decimal_digits_acc.
    destruct (IH (S q) ltac:(lia)) as [Hv Hd].
    rewrite decimal_value_app, all_digits_app, Hv, Hd.
    cbn [decimal_value all_digits]. unfold is_digit.
    rewrite digit_char_code by exact Hmod.
    split; [lia |].
    cbn [andb]. apply andb_true_iff. split; [| reflexivity].
    apply andb_true_iff. split; apply Nat.leb_le; lia.
Qed.

Lemma decimal_value_decimal (n : nat) :
  decimal_value (decimal n) 0 = n /\ all_digits (decimal n) = true.
Proof. apply decimal_digits_value. lia. Qed.

Lemma decimal_inj (a b : nat) : decimal a = decimal b -> a = b.
Proof.
  intros H. rewrite <- (proj1 (decimal_value_decimal a)),
    <- (proj1 (decimal_value_decimal b)). now rewrite H.
Qed.

Lemma append_cancel_l (p x y : string) :
  (p ++ x)%string = (p ++ y)%string -> x = y.
Proof.
  induction p as [| c p IH]; simpl; intros H; [exact H |].
  injection H as H. now apply IH.
Qed.

(** Two strings of digits followed by an apostrophe. *)
Lemma split_at_apostrophe (s s' r r' : string) :
  all_digits s = true -> all_digits s' = true ->
  (s ++ String "'" r)%string = (s' ++ String "'" r')%string ->
  s = s' /\ r = r'.
Proof.
  revert s'. induction s as [| c s IH]; intros [| c' s'] Hs Hs' H; simpl in *.
  - injection H as H. now split.
  - injection H as Hc _. subst c'. discriminate.
  - injection H as Hc _. subst c. discriminate.
  - injection H as Hc H. subst c'.
    apply andb_true_iff in Hs as [_ Hs]. apply andb_true_iff in Hs' as [_ Hs'].
    destruct (IH s' Hs Hs' H) as [-> ->]. now split.
Qed.

End Paths.

(** X13.  Distinct path parameters are never conflated: the derivation
    path of the BTC routers determines the account and the address index,
    and the path of the Solana router determines the account and the
    change index. *)
Theorem derivation_paths_are_injective :
  (forall a i a' i',
     Btc.derivation_path a i = Btc.derivation_path a' i' -> a = a' /\ i = i') /\
  (forall a c a' c',
     Solana.mnemonic_path a c = Solana.mnemonic_path a' c' -> a = a' /\ c = c').
Proof.
  split.
  - intros a i a' i' H. unfold Btc.derivation_path in H.
    change (decimal DEFAULT_PURPOSE) with "84" in H.
    change (decimal DEFAULT_COIN) with "0" in H.
    cbn [String.append] in H.
    repeat (injection H as H).
    apply split_at_apostrophe in H;
      try apply (proj2 (decimal_value_decimal _)).
    destruct H as [Ha Hi]. apply decimal_inj in Ha.
    cbn [String.append] in Hi. repeat (injection Hi as Hi).
    apply decimal_inj in Hi. now split.
  - intros a c a' c' H. unfold Solana.mnemonic_path in H.
    cbn [String.append] in H.
    repeat (injection H as H).
    apply split_at_apostrophe in H;
      try apply (proj2 (decimal_value_decimal _)).
    destruct H as [Ha Hc]. apply decimal_inj in Ha.
    cbn [String.append] in Hc. injection Hc as Hc.
    apply (split_at_apostrophe _ _ EmptyString EmptyString) in Hc;
      try apply (proj2 (decimal_value_decimal _)).
    destruct Hc as [Hc _]. apply decimal_inj in Hc. now split.
Qed.

(** An instance of X13: two address indices of one account. *)
Lemma derivation_paths_are_injective_witness :
  Btc.derivation_path 3 12 <> Btc.derivation_path 3 120.
Proof.
  intros H.
  destruct (proj1 derivation_paths_are_injective 3%nat 12%nat 3%nat 120%nat H)
    as [_ Hi].
  discriminate Hi.
Defined.

(** ** The Tatum-backed BTC send *)

(** X14.  The Tatum-backed BTC send never signs: a request that carries
    its four fields makes exactly one provider call, which posts the
    declared sender address together with the private key and the amount
    as the caller gave it (in BTC, not converted to satoshi); a request
    that lacks a field makes no call and is answered 400.  The answer is
    200 whenever the POST succeeds, whether or not the reply carries a
    transaction id: the route does not look for one, and a reply without
    it is answered 200 with no [txId]. *)
Theorem tatum_send_forwards_key (P : BtcTatum.Provider)
  (req : BtcTatum.SendRequest) :
  let payload :=
    BtcTatum.mkTatumPayload
      [(BtcTatum.from req, BtcTatum.privateKey req)]
      [(BtcTatum.to req, BtcTatum.amount req)] in
  let complete :=
    (truthy_string (BtcTatum.from req) && truthy_string (BtcTatum.to req)
     && truthy_number (BtcTatum.amount req)
     && truthy_string (BtcTatum.privateKey req))%bool in
  (complete = true ->
   snd (BtcTatum.send P req) = [BtcTatum.PostTransaction payload]) /\
  (complete = false ->
   BtcTatum.send P req =
   (error_response 400 "from, to, amount, privateKey required", [])) /\
  (status (fst (BtcTatum.send P req)) = 200 <->
   complete = true /\
   exists reply, BtcTatum.transaction_reply P payload = Ok reply) /\
  (complete = true ->
   BtcTatum.transaction_reply P payload = Ok None ->
   fst (BtcTatum.send P req) =
   json [("chain", FStr "BTC"); ("from", FStr (BtcTatum.from req));
         ("to", FStr (BtcTatum.to req));
         ("amount", FNum (BtcTatum.amount req))]) /\
  (complete = true ->
   forall msg, BtcTatum.transaction_reply P payload = Err msg ->
   fst (BtcTatum.send P req) = error_response 500 msg).
Proof.
  intros payload complete.
  unfold BtcTatum.send, run, BtcTatum.send_handler. rewrite bind_reject_if.
  cbv zeta. fold payload.
  assert (Hc : negb (truthy_string (BtcTatum.from req))
               || negb (truthy_string (BtcTatum.to req))
               || negb (truthy_number (BtcTatum.amount req))
               || negb (truthy_string (BtcTatum.privateKey req))
               = negb complete).
  { unfold complete.
    destruct (truthy_string (BtcTatum.from req)),
      (truthy_string (BtcTatum.to req)), (truthy_number (BtcTatum.amount req)),
      (truthy_string (BtcTatum.privateKey req)); reflexivity. }
  rewrite Hc. destruct complete; cbn [negb].
  - rewrite bind_await.
    destruct (BtcTatum.transaction_reply P payload) as [reply | msg].
    + split; [reflexivity |]. split; [discriminate |].
      split; [split; [intros _; split; [reflexivity | eexists; reflexivity]
                     | reflexivity] |].
      split; [| intros _ msg H; discriminate H].
      intros _ H. injection H as ->. reflexivity.
    + split; [reflexivity |]. split; [discriminate |].
      split; [split; [discriminate | intros [_ [r Hr]]; discriminate] |].
      split; [intros _ H; discriminate H |].
      intros _ m H. injection H as ->. reflexivity.
  - split; [discriminate |]. split; [reflexivity |].
    split; [split; [discriminate | intros [H _]; discriminate] |].
    split; intros H; discriminate H.
Qed.

(** An instance of X14: a reply without a transaction id is answered
    200. *)
Lemma tatum_send_forwards_key_witness :
  let req := BtcTatum.mkSendRequest "bc1qalice" "bc1qbob" (1 # 2) "alice" in
  let P := BtcTatum.mkProvider (fun _ => Ok None) in
  snd (BtcTatum.send P req) =
  [BtcTatum.PostTransaction
     (BtcTatum.mkTatumPayload [("bc1qalice", "alice")] [("bc1qbob", 1 # 2)])] /\
  fst (BtcTatum.send P req) =
  json [("chain", FStr "BTC"); ("from", FStr "bc1qalice");
        ("to", FStr "bc1qbob"); ("amount", FNum (1 # 2))].
Proof.
  intros req P.
  destruct (tatum_send_forwards_key P req) as (Htr & _ & _ & Hnone & _).
  split; [apply Htr; reflexivity | apply Hnone; reflexivity].
Defined.

(** ** The EVM router *)

Section EvmMore.
Context `{L : Evm.Lib}.
Import Evm EvmTraceSpec.

Lemma getProvider_Ok (chain : string) (cfg : ChainConfig) :
  getProvider chain = Ok cfg -> name cfg = chain /\ supported chain.
Proof.
  unfold getProvider, supported, CHAINS. cbn [lookup_chain].
  repeat match goal with
         | |- context [String.eqb ?k chain] =>
             destruct (String.eqb_spec k chain) as [<- | ?]
         end;
    intros H; try discriminate H; injection H as <-;
    (split; [reflexivity | cbn [In]; intuition]).
Qed.

Lemma getProvider_supported (chain : string) :
  supported chain -> exists cfg, getProvider chain = Ok cfg.
Proof.
  unfold supported. cbn [In].
  intros [<- | [<- | [<- | [<- | []]]]]; eexists; reflexivity.
Qed.

Lemma getProvider_unsupported (chain : string) :
  ~ supported chain ->
  getProvider chain = Err ("Unsupported chain: " ++ chain)%string.
Proof.
  intros Hn. destruct (getProvider chain) as [cfg | msg] eqn:H.
  - exfalso. apply Hn. now apply getProvider_Ok in H.
  - unfold getProvider in *. destruct (lookup_chain chain CHAINS);
      [discriminate | now symmetry].
Qed.

Lemma well_formed_checks (req : SendRequest) :
  EvmSpec.well_formed req ->
  negb (isAddress (from req)) || negb (isAddress (to req)) = false /\
  negb (truthy_string (req_privateKey req)) = false.
Proof. intros (H1 & H2 & H3). now rewrite H1, H2, H3. Qed.

(** Whatever the EVM send hands to the signer. *)
Lemma evm_send_signed_inv (P : Provider) (req : SendRequest)
  (w : Wallet) (tx : Tx) :
  In (SendTransaction w tx) (snd (send P req)) ->
  exists B fd g p,
    loadWalletFromPrivateKey (req_privateKey req) (chain req) = Ok w /\
    toLowerCase (address w) = toLowerCase (from req) /\
    balance_reply P (from req) = Ok B /\
    feeData_reply P = Ok fd /\
    gasLimit req = None /\
    estimateGas_reply P (from req) (to req) = Ok g /\
    quotedPrice fd = Some p /\
    0 < B /\
    tx_to tx = to req /\
    tx_gasLimit tx = g /\
    tx_value tx + g * p <= B /\
    (wants_max (amount req) = true -> tx_value tx = B - g * p /\ 0 < tx_value tx) /\
    (wants_max (amount req) = false ->
     parseFixed18 (amount_number (amount req)) = Ok (tx_value tx)).
Proof.
  unfold send, run, send_handler, quotedPrice.
  act_run.
  all: try absent.
  all: intros Hin; cbn [In] in Hin.
  all: repeat match type of Hin with
              | _ \/ _ => destruct Hin as [Hin | Hin]
              end; try discriminate Hin; try contradiction Hin.
  all: injection Hin as Hw Htx; subst.
  all: repeat match goal with
       | H : negb (String.eqb _ _) = false |- _ =>
           apply negb_false_iff, String.eqb_eq in H
       | H : (_ <=? _) = false |- _ => apply Z.leb_gt in H
       | H : (_ >? _) = false |- _ => rewrite Z.gtb_ltb in H; apply Z.ltb_ge in H
       | H : gas_times _ _ = Ok _ |- _ => unfold gas_times in H
       | H : gas_units _ = Ok _ |- _ => cbn [gas_units] in H
       end.
  all: repeat match goal with
       | H : match ?x with Some _ => _ | None => _ end = Ok _ |- _ =>
           destruct x eqn:?; [| discriminate H]
       | H : Ok _ = Ok _ |- _ => injection H as H; subst
       | H : Err _ = Ok _ |- _ => discriminate H
       end.
  all: do 4 eexists.
  all: repeat match goal with
              | |- _ /\ _ => split
              | |- Ok _ = Ok _ => reflexivity
              | |- None = None => reflexivity
              | |- toLowerCase _ = toLowerCase _ => assumption
              | |- nullish_or _ _ = Some _ => eassumption
              end.
  all: cbn [tx_to tx_gasLimit tx_value]; try reflexivity; try lia.
  all: intros Hmax; try discriminate Hmax; try assumption.
  all: split; [reflexivity | lia].
Qed.

End EvmMore.

(** X15.  The EVM routes validate before they call the provider: a send
    with an invalid address or without a key is answered 400, and one for
    a chain name for which the table has no entry or with a key the
    library rejects is answered 500, all with no provider call; an account
    without balance is answered 400 after the one balance request.  The
    balance route answers an invalid address with 400 and such a chain
    name with 500 without asking the provider. *)
Theorem evm_validation_precedes_calls `{L : Evm.Lib} (P : Evm.Provider)
  (req : Evm.SendRequest) :
  (Evm.isAddress (Evm.from req) = false \/ Evm.isAddress (Evm.to req) = false ->
   Evm.send P req = (error_response 400 "invalid address", [])) /\
  (Evm.isAddress (Evm.from req) = true -> Evm.isAddress (Evm.to req) = true ->
   truthy_string (Evm.req_privateKey req) = false ->
   Evm.send P req = (error_response 400 "privateKey required", [])) /\
  (EvmSpec.well_formed req ->
   EvmTraceSpec.unlisted (Evm.chain req) ->
   Evm.send P req =
   (error_response 500 ("Unsupported chain: " ++ Evm.chain req)%string, [])) /\
  (EvmSpec.well_formed req ->
   EvmTraceSpec.supported (Evm.chain req) ->
   forall msg, Evm.Wallet_new (Evm.req_privateKey req) = Err msg ->
   Evm.send P req = (error_response 500 msg, [])) /\
  (EvmSpec.well_formed req ->
   forall w B,
     Evm.loadWalletFromPrivateKey (Evm.req_privateKey req) (Evm.chain req) = Ok w ->
     toLowerCase (Evm.address w) = toLowerCase (Evm.from req) ->
     Evm.balance_reply P (Evm.from req) = Ok B ->
     B <= 0 ->
     Evm.send P req =
     (error_response 400 "insufficient balance", [Evm.GetBalance (Evm.from req)])) /\
  (forall addr chain,
     (Evm.isAddress addr = false ->
      EvmWallet.balance P addr chain = (error_response 400 "invalid address", [])) /\
     (Evm.isAddress addr = true -> EvmTraceSpec.unlisted chain ->
      EvmWallet.balance P addr chain =
      (error_response 500 ("Unsupported chain: " ++ chain)%string, []))).
Proof.
  repeat apply conj.
  - intros Hbad. unfold Evm.send, run, Evm.send_handler.
    rewrite bind_reject_if.
    destruct Hbad as [H | H]; rewrite H; cbn [negb orb];
      rewrite ?orb_true_r; reflexivity.
  - intros Hf Ht Hk. unfold Evm.send, run, Evm.send_handler.
    rewrite bind_reject_if, Hf, Ht. cbn [negb orb].
    rewrite bind_reject_if, Hk. reflexivity.
  - intros Hwf Hn. destruct (well_formed_checks req Hwf) as [H1 H2].
    unfold Evm.send, run, Evm.send_handler.
    rewrite bind_reject_if, H1, bind_reject_if, H2, bind_lift.
    unfold Evm.loadWalletFromPrivateKey.
    rewrite (getProvider_unsupported _ (proj1 Hn)). reflexivity.
  - intros Hwf Hs msg Hnew. destruct (well_formed_checks req Hwf) as [H1 H2].
    destruct (getProvider_supported _ Hs) as [cfg Hcfg].
    unfold Evm.send, run, Evm.send_handler.
    rewrite bind_reject_if, H1, bind_reject_if, H2, bind_lift.
    unfold Evm.loadWalletFromPrivateKey. rewrite Hcfg, Hnew. reflexivity.
  - intros Hwf w B Hw Haddr Hbal HB.
    destruct (well_formed_checks req Hwf) as [H1 H2].
    unfold Evm.send, run, Evm.send_handler.
    rewrite bind_reject_if, H1, bind_reject_if, H2, bind_lift, Hw.
    rewrite bind_reject_if, Haddr, String.eqb_refl. cbn [negb].
    rewrite bind_await, Hbal, bind_reject_if.
    apply Z.leb_le in HB. rewrite HB. reflexivity.
  - intros addr chain. split.
    + intros Hbad. unfold EvmWallet.balance, run, EvmWallet.balance_handler.
      rewrite bind_reject_if, Hbad. reflexivity.
    + intros Hok Hn. unfold EvmWallet.balance, run, EvmWallet.balance_handler.
      rewrite bind_reject_if, Hok. cbn [negb].
      rewrite bind_lift, (getProvider_unsupported _ (proj1 Hn)). reflexivity.
Qed.

(** An instance of X15: a chain the table does not list. *)
Lemma evm_validation_precedes_calls_witness :
  @EvmWallet.balance Fixtures.evm_lib (Fixtures.evm_provider 1 1 1)
    "0xa11ce" "bitcoin" =
  (error_response 500 "Unsupported chain: bitcoin", []).
Proof.
  destruct (@evm_validation_precedes_calls Fixtures.evm_lib
              (Fixtures.evm_provider 1 1 1)
              (Fixtures.evm_request "0xa11ce" Evm.AmountMax))
    as (_ & _ & _ & _ & _ & Hbal).
  apply (Hbal "0xa11ce" "bitcoin"); [reflexivity |].
  unfold EvmTraceSpec.unlisted, EvmTraceSpec.supported, EvmTraceSpec.inherited.
  cbn [In]. split; intuition discriminate.
Defined.

(** X16.  Every transaction the EVM send hands to the signer is within the
    sender's means: it is signed by the wallet of the supplied key, which
    owns the declared sender address, it goes to the requested
    destination with the estimated gas limit, and its value plus the gas
    cost does not exceed the balance that was fetched; with the maximum
    amount its value is positive. *)
Theorem evm_send_is_solvent `{L : Evm.Lib} (P : Evm.Provider)
  (req : Evm.SendRequest) (w : Evm.Wallet) (tx : Evm.Tx) :
  In (Evm.SendTransaction w tx) (snd (Evm.send P req)) ->
  exists B fd p,
    Evm.Wallet_new (Evm.req_privateKey req) = Ok w /\
    toLowerCase (Evm.address w) = toLowerCase (Evm.from req) /\
    Evm.balance_reply P (Evm.from req) = Ok B /\
    Evm.feeData_reply P = Ok fd /\
    EvmTraceSpec.quotedPrice fd = Some p /\
    Evm.estimateGas_reply P (Evm.from req) (Evm.to req) = Ok (Evm.tx_gasLimit tx) /\
    Evm.tx_to tx = Evm.to req /\
    Evm.tx_value tx + Evm.tx_gasLimit tx * p <= B /\
    (Evm.wants_max (Evm.amount req) = true -> 0 < Evm.tx_value tx).
Proof.
  intros Hin.
  destruct (evm_send_signed_inv P req w tx Hin)
    as (B & fd & g & p & Hw & Ha & Hb & Hf & _ & Hg & Hp & _ & Hto & Hgl & Hsolv
        & Hmax & _).
  exists B, fd, p. subst g.
  assert (Hnew : Evm.Wallet_new (Evm.req_privateKey req) = Ok w).
  { unfold Evm.loadWalletFromPrivateKey in Hw.
    destruct (Evm.getProvider (Evm.chain req)); [exact Hw | discriminate]. }
  repeat split; try assumption.
  intros Hm. now apply Hmax.
Qed.

(** An instance of X16: the maximum send of the fixture. *)
Lemma evm_send_is_solvent_witness :
  let P := Fixtures.evm_provider 1000 21 10 in
  let req := Fixtures.evm_request "0xa11ce" Evm.AmountMax in
  let w := Evm.mkWallet "0xA11CE" "A11CE" in
  let tx := Evm.mkTx "0xB0B" 790 21 None None in
  exists B p, Evm.tx_value tx + Evm.tx_gasLimit tx * p <= B /\
              Evm.balance_reply P "0xa11ce" = Ok B.
Proof.
  intros P req w tx.
  assert (Hin : In (Evm.SendTransaction w tx)
                  (snd (@Evm.send Fixtures.evm_lib P req))).
  { do 3 right. left. reflexivity. }
  destruct (@evm_send_is_solvent Fixtures.evm_lib P req w tx Hin)
    as (B & fd & p & _ & _ & Hb & _ & _ & _ & _ & Hs & _).
  exists B, p. split; assumption.
Defined.

(** X17.  A gas limit supplied in the request body makes the EVM send
    fail: it is a JSON number, which cannot be multiplied with the BigInt
    gas price, so the send never signs, never asks for a gas estimate and
    never answers 200; once the balance and a gas price have been fetched
    it answers 500. *)
Theorem evm_supplied_gas_limit_fails `{L : Evm.Lib} (P : Evm.Provider)
  (req : Evm.SendRequest) (limit : Q) :
  Evm.gasLimit req = Some limit ->
  status (fst (Evm.send P req)) <> 200 /\
  (forall e, In e (snd (Evm.send P req)) ->
     e = Evm.GetBalance (Evm.from req) \/ e = Evm.GetFeeData) /\
  (forall w B fd p,
     EvmSpec.well_formed req ->
     Evm.loadWalletFromPrivateKey (Evm.req_privateKey req) (Evm.chain req) = Ok w ->
     toLowerCase (Evm.address w) = toLowerCase (Evm.from req) ->
     Evm.balance_reply P (Evm.from req) = Ok B ->
     0 < B ->
     Evm.feeData_reply P = Ok fd ->
     EvmTraceSpec.quotedPrice fd = Some p ->
     Evm.send P req =
     (error_response 500
        "Cannot mix BigInt and other types, use explicit conversions",
      [Evm.GetBalance (Evm.from req); Evm.GetFeeData])).
Proof.
  intros Hlimit. split; [| split].
  - unfold Evm.send, run, Evm.send_handler. rewrite Hlimit.
    act_run.
    all: cbn [status error_response fst]; try discriminate.
    all: match goal with
         | H : Evm.gas_times (Evm.GasNumber _) _ = Ok _ |- _ =>
             cbn in H; discriminate H
         end.
  - unfold Evm.send, run, Evm.send_handler. rewrite Hlimit.
    act_run.
    all: try match goal with
         | H : Evm.gas_times (Evm.GasNumber _) _ = Ok _ |- _ =>
             cbn in H; discriminate H
         end.
    all: intros e He; cbn [In] in He; intuition.
  - intros w B fd p Hwf Hw Ha Hb HB Hf Hp.
    destruct (well_formed_checks req Hwf) as [H1 H2].
    unfold EvmTraceSpec.quotedPrice in Hp.
    unfold Evm.send, run, Evm.send_handler.
    rewrite bind_reject_if, H1, bind_reject_if, H2, bind_lift, Hw.
    rewrite bind_reject_if, Ha, String.eqb_refl. cbn [negb].
    rewrite bind_await, Hb, bind_reject_if.
    apply Z.leb_gt in HB. rewrite HB.
    rewrite bind_await, Hf, Hlimit. cbv beta iota.
    rewrite bind_ret. cbv beta zeta.
    rewrite Hp, bind_lift. reflexivity.
Qed.

(** An instance of X17: the fixture with a gas limit of 21000. *)
Lemma evm_supplied_gas_limit_fails_witness :
  let P := Fixtures.evm_provider 1000 21 10 in
  let req := Evm.mkSendRequest "0xa11ce" "0xB0B" Evm.AmountMax "A11CE"
               "ethereum" (Some (inject_Z 21000)) in
  status (fst (@Evm.send Fixtures.evm_lib P req)) <> 200.
Proof.
  intros P req.
  apply (@evm_supplied_gas_limit_fails Fixtures.evm_lib P req (inject_Z 21000)).
  reflexivity.
Defined.

(** X18.  A numeric amount of the EVM send is converted to wei by rounding
    to the nearest integer, halves upwards, not by flooring: the value
    that is signed lies within half a wei of [amount * 10^18] and may
    exceed it. *)
Theorem evm_amount_is_rounded `{L : Evm.Lib} (P : Evm.Provider)
  (req : Evm.SendRequest) (w : Evm.Wallet) (tx : Evm.Tx) :
  In (Evm.SendTransaction w tx) (snd (Evm.send P req)) ->
  Evm.wants_max (Evm.amount req) = false ->
  let x := (Evm.amount_number (Evm.amount req) * inject_Z (10 ^ 18))%Q in
  (x - (1 # 2) < inject_Z (Evm.tx_value tx))%Q /\
  (inject_Z (Evm.tx_value tx) <= x + (1 # 2))%Q.
Proof.
  intros Hin Hmax x.
  destruct (evm_send_signed_inv P req w tx Hin)
    as (B & fd & g & p & _ & _ & _ & _ & _ & _ & _ & _ & _ & _ & _ & _ & Hnum).
  specialize (Hnum Hmax). unfold Evm.parseFixed18 in Hnum.
  fold x in Hnum. clearbody x.
  destruct (Qle_bool _ _); [discriminate |].
  injection Hnum as <-. unfold Math_round.
  pose proof (Math_floor_le (x + (1 # 2))) as Hle.
  pose proof (Math_floor_gt (x + (1 # 2))) as Hgt.
  unfold Math_floor in Hle, Hgt.
  set (f := inject_Z (Qfloor (x + (1 # 2)))) in *. clearbody f.
  split; lra.
Qed.

(** An instance of X18: 1.6 wei is sent as 2 wei. *)
Lemma evm_amount_is_rounded_witness :
  let P := Fixtures.evm_provider 1000 21 10 in
  let req := Fixtures.evm_request "0xa11ce"
               (Evm.AmountNumber (16 # 10000000000000000000)) in
  let w := Evm.mkWallet "0xA11CE" "A11CE" in
  let tx := Evm.mkTx "0xB0B" 2 21 None None in
  In (Evm.SendTransaction w tx) (snd (@Evm.send Fixtures.evm_lib P req)) /\
  (inject_Z (Evm.tx_value tx) <=
   Evm.amount_number (Evm.amount req) * inject_Z (10 ^ 18) + (1 # 2))%Q.
Proof.
  intros P req w tx.
  assert (Hin : In (Evm.SendTransaction w tx)
                  (snd (@Evm.send Fixtures.evm_lib P req))).
  { do 3 right. left. reflexivity. }
  split; [exact Hin |].
  apply (@evm_amount_is_rounded Fixtures.evm_lib P req w tx Hin). reflexivity.
Defined.

(** ** Importing an EVM key, and the ERC20 balance *)

Section EvmImport.
Context `{L : Evm.Lib}.
Import Evm EvmTraceSpec.

Lemma evm_import_run_key (pk chain : string) :
  EvmWallet.import pk chain =
  (if negb (truthy_string pk) then error_response 400 "privateKey required"
   else match loadWalletFromPrivateKey pk chain with
        | Ok w => json [("address", FStr (address w)); ("chain", FStr chain)]
        | Err msg => error_response 500 msg
        end, []).
Proof.
  unfold EvmWallet.import, run, EvmWallet.import_handler.
  rewrite bind_reject_if. destruct (negb (truthy_string pk)); [reflexivity |].
  rewrite bind_lift. destruct (loadWalletFromPrivateKey pk chain); reflexivity.
Qed.

Lemma evm_send_passes_check (P : Provider) (req : SendRequest) (w : Wallet) :
  EvmSpec.well_formed req ->
  loadWalletFromPrivateKey (req_privateKey req) (chain req) = Ok w ->
  toLowerCase (address w) = toLowerCase (from req) ->
  (exists rest, snd (send P req) = GetBalance (from req) :: rest) /\
  fst (send P req) <> error_response 400 "privateKey mismatch".
Proof.
  intros Hwf Hw Ha. destruct (well_formed_checks req Hwf) as [H1 H2].
  unfold send, run, send_handler.
  rewrite bind_reject_if, H1, bind_reject_if, H2, bind_lift, Hw.
  rewrite bind_reject_if, Ha, String.eqb_refl. cbn [negb].
  act_run.
  all: split; [eexists; reflexivity | cbn [fst]; discriminate].
Qed.

End EvmImport.

(** X19.  Importing an EVM private key performs no provider call; it
    answers 400 when the key is missing and 500 for a chain name for which
    the table has no entry.  The address it reports is accepted as the sender by the send
    of the same key and chain in any letter case: such a send is never
    refused with "privateKey mismatch" and goes on to ask for the balance
    of the sender. *)
Theorem evm_imported_key_can_send `{L : Evm.Lib} (pk chain : string) :
  snd (EvmWallet.import pk chain) = [] /\
  (truthy_string pk = false ->
   fst (EvmWallet.import pk chain) = error_response 400 "privateKey required") /\
  (truthy_string pk = true -> EvmTraceSpec.unlisted chain ->
   fst (EvmWallet.import pk chain) =
   error_response 500 ("Unsupported chain: " ++ chain)%string) /\
  (forall fields a (P : Evm.Provider) (req : Evm.SendRequest),
     fst (EvmWallet.import pk chain) = json fields ->
     In ("address", FStr a) fields ->
     Evm.req_privateKey req = pk ->
     Evm.chain req = chain ->
     toLowerCase (Evm.from req) = toLowerCase a ->
     Evm.isAddress (Evm.from req) = true ->
     Evm.isAddress (Evm.to req) = true ->
     (exists rest, snd (Evm.send P req) = Evm.GetBalance (Evm.from req) :: rest) /\
     fst (Evm.send P req) <> error_response 400 "privateKey mismatch").
Proof.
  rewrite evm_import_run_key. cbn [fst snd].
  split; [reflexivity |].
  split; [intros ->; reflexivity |].
  split.
  { intros -> Hn. cbn [negb]. unfold Evm.loadWalletFromPrivateKey.
    rewrite (getProvider_unsupported _ (proj1 Hn)). reflexivity. }
  intros fields a P req Himp Hin Hpk Hchain Hfrom Hf Ht.
  destruct (truthy_string pk) eqn:Hk; cbn [negb] in Himp; [| discriminate].
  destruct (Evm.loadWalletFromPrivateKey pk chain) as [w | msg] eqn:Hw;
    [| discriminate].
  injection Himp as <-.
  cbn [In] in Hin.
  destruct Hin as [H | [H | []]]; try discriminate H.
  injection H as <-.
  subst pk chain.
  apply (evm_send_passes_check P req w).
  - unfold EvmSpec.well_formed. repeat split; assumption.
  - exact Hw.
  - symmetry. exact Hfrom.
Qed.

(** An instance of X19: the fixture key, imported and then used with the
    address in lower case. *)
Lemma evm_imported_key_can_send_witness :
  let P := Fixtures.evm_provider 1000 21 10 in
  let req := Fixtures.evm_request "0xa11ce" Evm.AmountMax in
  exists rest,
    snd (@Evm.send Fixtures.evm_lib P req) = Evm.GetBalance "0xa11ce" :: rest.
Proof.
  intros P req.
  destruct (@evm_imported_key_can_send Fixtures.evm_lib "A11CE" "ethereum")
    as (_ & _ & _ & Hsend).
  destruct (Hsend _ "0xA11CE" P req eq_refl) as [Hrest _];
    try reflexivity.
  - cbn [In]. left. reflexivity.
  - exact Hrest.
Defined.

(** X20.  The ERC20 balance route validates both addresses and the chain
    before it calls the contract; it asks for the balance once and for the
    decimals once, in this order, and a failure of the decimals call is
    not an error: the balance is then formatted with 18 decimals.  A
    failure of the balance call is answered 500 before the decimals are
    asked, and so is a balance the library cannot format. *)
Theorem token_balance_defaults_to_18_decimals `{L : Evm.Lib}
  `{U : EvmWallet.Units} (T : EvmWallet.TokenProvider)
  (chain token owner : string) :
  (Evm.isAddress token = false \/ Evm.isAddress owner = false ->
   EvmWallet.token_balance T chain token owner =
   (error_response 400 "invalid address", [])) /\
  (Evm.isAddress token = true -> Evm.isAddress owner = true ->
   EvmTraceSpec.unlisted chain ->
   EvmWallet.token_balance T chain token owner =
   (error_response 500 ("Unsupported chain: " ++ chain)%string, [])) /\
  (Evm.isAddress token = true -> Evm.isAddress owner = true ->
   EvmTraceSpec.supported chain ->
   (forall msg, EvmWallet.balanceOf_reply T token owner = Err msg ->
      EvmWallet.token_balance T chain token owner =
      (error_response 500 msg, [EvmWallet.BalanceOf token owner])) /\
   (forall raw, EvmWallet.balanceOf_reply T token owner = Ok raw ->
      let dec := match EvmWallet.decimals_reply T token with
                 | Ok d => d
                 | Err _ => 18
                 end in
      EvmWallet.token_balance T chain token owner =
      (match EvmWallet.formatUnits raw dec with
       | Ok balance =>
           json [("chain", FStr chain); ("tokenAddress", FStr token);
                 ("owner", FStr owner); ("balance", FStr balance)]
       | Err msg => error_response 500 msg
       end,
       [EvmWallet.BalanceOf token owner; EvmWallet.Decimals token]))).
Proof.
  unfold EvmWallet.token_balance, run, EvmWallet.token_balance_handler.
  split; [| split].
  - intros Hbad. rewrite bind_reject_if.
    destruct Hbad as [H | H]; rewrite H; cbn [negb orb];
      rewrite ?orb_true_r; reflexivity.
  - intros Ht Ho Hn. rewrite bind_reject_if, Ht, Ho. cbn [negb orb].
    rewrite bind_lift, (getProvider_unsupported _ (proj1 Hn)). reflexivity.
  - intros Ht Ho Hs. destruct (getProvider_supported _ Hs) as [cfg Hcfg].
    split.
    + intros msg Hb. rewrite bind_reject_if, Ht, Ho. cbn [negb orb].
      rewrite bind_lift, Hcfg, bind_await, Hb. reflexivity.
    + intros raw Hb. cbv zeta. rewrite bind_reject_if, Ht, Ho. cbn [negb orb].
      rewrite bind_lift, Hcfg, bind_await, Hb.
      unfold EvmWallet.decimals_or_18. rewrite bind_assoc, bind_emit.
      destruct (EvmWallet.decimals_reply T token) as [d | msg];
        rewrite bind_ret, bind_lift;
        match goal with
        | |- context [EvmWallet.formatUnits ?r ?d] =>
            destruct (EvmWallet.formatUnits r d); reflexivity
        end.
Qed.

(** An instance of X20: a token without [decimals]. *)
Lemma token_balance_defaults_to_18_decimals_witness :
  @EvmWallet.token_balance Fixtures.evm_lib WalletFixtures.units
    (WalletFixtures.plain_token 5) "base" "0x70" "0xa11ce" =
  (json [("chain", FStr "base"); ("tokenAddress", FStr "0x70");
         ("owner", FStr "0xa11ce"); ("balance", FStr "5e-18")],
   [EvmWallet.BalanceOf "0x70" "0xa11ce"; EvmWallet.Decimals "0x70"]).
Proof.
  destruct (@token_balance_defaults_to_18_decimals Fixtures.evm_lib
              WalletFixtures.units (WalletFixtures.plain_token 5)
              "base" "0x70" "0xa11ce") as (_ & _ & Hok).
  destruct (Hok eq_refl eq_refl) as [_ Hbal].
  - unfold EvmTraceSpec.supported. cbn [In]. tauto.
  - exact (Hbal 5 eq_refl).
Defined.

(** ** The Solana router *)

Section SolanaMore.
Context `{F : Float} `{L : Solana.Lib}.
Import Solana.

Lemma to_uint8_of_byte (x : Byte.byte) : to_uint8 (Z.of_N (Byte.to_N x)) = x.
Proof. destruct x; reflexivity. Qed.

Lemma Uint8Array_from_Array_from (b : bytes) :
  Uint8Array_from (SolanaWallet.Array_from b) = b.
Proof.
  unfold Uint8Array_from, SolanaWallet.Array_from. rewrite map_map.
  induction b as [| x b IH]; [reflexivity |].
  cbn [map]. now rewrite to_uint8_of_byte, IH.
Qed.

Lemma Uint8Array_from_mod (a b : list Z) :
  Forall2 (fun x y => x mod 256 = y mod 256) a b ->
  Uint8Array_from a = Uint8Array_from b.
Proof.
  induction 1 as [| x y a b Hxy _ IH]; [reflexivity |].
  unfold Uint8Array_from in *. cbn [map]. rewrite IH.
  unfold to_uint8. now rewrite Hxy.
Qed.

Lemma solana_well_formed_check (req : SendRequest) :
  SolanaSpec.well_formed req ->
  negb (truthy_input (privateKey req)) || negb (truthy_string (to req))
  || negb (truthy_number (amount req)) = false.
Proof. intros (-> & -> & ->). reflexivity. Qed.

Lemma solana_import_run_key (input : KeyInput) :
  SolanaWallet.import input =
  (if negb (truthy_input input) then error_response 400 "privateKey required"
   else match keypairFromPrivateKeyInput input with
        | Ok kp => json (exportKeypair kp)
        | Err msg => error_response 500 msg
        end, []).
Proof.
  unfold SolanaWallet.import, run, SolanaWallet.import_handler.
  rewrite bind_reject_if. destruct (negb (truthy_input input)); [reflexivity |].
  rewrite bind_lift. destruct (keypairFromPrivateKeyInput input); reflexivity.
Qed.

Lemma solana_send_run (P : Provider) (req : SendRequest) (kp : Keypair) :
  SolanaSpec.well_formed req ->
  keypairFromPrivateKeyInput (privateKey req) = Ok kp ->
  bs58_encode (publicKey kp) = from req ->
  send P req =
  match PublicKey_new (to req) with
  | Err msg => (error_response 500 msg, [])
  | Ok toPub =>
      let lamports := Math_floor (fmul (amount req) (inject_Z LAMPORTS_PER_SOL)) in
      let tx := mkTransfer (publicKey kp) toPub lamports in
      (match sendAndConfirm_reply P tx kp with
       | Ok sig => json [("from", FStr (from req)); ("to", FStr (to req));
                         ("amount", FNum (amount req)); ("lamports", FInt lamports);
                         ("txSignature", FStr sig)]
       | Err msg => error_response 500 msg
       end, [SendAndConfirmTransaction tx kp])
  end.
Proof.
  intros Hwf Hkey Hfrom. unfold send, run, send_handler.
  rewrite bind_reject_if, (solana_well_formed_check req Hwf), bind_lift, Hkey.
  rewrite bind_reject_if, Hfrom, String.eqb_refl. cbn [negb]. cbv zeta.
  rewrite bind_lift. destruct (PublicKey_new (to req)); [| reflexivity].
  rewrite bind_await. destruct (sendAndConfirm_reply P _ kp); reflexivity.
Qed.

Lemma solana_send_trace (P : Provider) (req : SendRequest) :
  (List.length (snd (send P req)) <= 1)%nat /\
  (status (fst (send P req)) = 200 ->
   exists tx kp sig fields,
     send P req = (json fields, [SendAndConfirmTransaction tx kp]) /\
     sendAndConfirm_reply P tx kp = Ok sig /\
     In ("txSignature", FStr sig) fields).
Proof.
  unfold send, run, send_handler.
  act_run.
  all: split; [cbn [List.length]; lia |].
  all: cbn [status error_response fst]; try discriminate.
  all: intros _; do 4 eexists; split; [reflexivity |].
  all: split; [eassumption | cbn [In]; tauto].
Qed.

End SolanaMore.

(** X21.  What the Solana import answers can be imported again: for a key
    pair that the library rebuilds from its own secret key, the
    [secretKeyArray] of the answer, given back as the key, yields the same
    key pair and the same answer; so does the base58 [privateKey] string,
    provided it decodes to the 64 bytes it encodes and is not JSON for an
    array. *)
Theorem solana_export_can_be_imported `{L : Solana.Lib} (kp : Solana.Keypair) :
  Solana.Keypair_fromSecretKey (Solana.secretKey kp) = Ok kp ->
  let array := Solana.KeyArray (SolanaWallet.Array_from (Solana.secretKey kp)) in
  let text := Solana.bs58_encode (Solana.secretKey kp) in
  Solana.keypairFromPrivateKeyInput array = Ok kp /\
  SolanaWallet.import array = (json (Solana.exportKeypair kp), []) /\
  (truthy_string text = true ->
   (forall l, Solana.JSON_parse text <> Ok (Solana.JArray l)) ->
   Solana.bs58_decode text = Ok (Solana.secretKey kp) ->
   List.length (Solana.secretKey kp) = 64%nat ->
   Solana.keypairFromPrivateKeyInput (Solana.KeyString text) = Ok kp /\
   SolanaWallet.import (Solana.KeyString text) =
   (json (Solana.exportKeypair kp), [])).
Proof.
  intros Hlaw array text.
  assert (Harr : Solana.keypairFromPrivateKeyInput array = Ok kp).
  { unfold array, Solana.keypairFromPrivateKeyInput.
    cbn [Solana.truthy_input negb].
    now rewrite Uint8Array_from_Array_from. }
  split; [exact Harr |]. split.
  - rewrite solana_import_run_key, Harr. reflexivity.
  - intros Htext Hjson Hdec Hlen.
    assert (Hstr : Solana.keypairFromPrivateKeyInput (Solana.KeyString text) = Ok kp).
    { rewrite (keypairFromPrivateKeyInput_string text Htext).
      assert (Hj : Solana.decode_json_array (Solana.KeyString text) = None).
      { unfold Solana.decode_json_array.
        destruct (Solana.JSON_parse text) as [[l |] | msg] eqn:Hp; try reflexivity.
        exfalso. exact (Hjson l eq_refl). }
      rewrite Hj. unfold Solana.decode_base58, Solana.key_of_bytes.
      rewrite Hdec, Hlen, Hlaw. reflexivity. }
    split; [exact Hstr |].
    rewrite solana_import_run_key, Hstr.
    cbn [Solana.truthy_input]. rewrite Htext. reflexivity.
Qed.

(** An instance of X21: the 64-byte key of the fixture. *)
Lemma solana_export_can_be_imported_witness :
  @Solana.keypairFromPrivateKeyInput Fixtures.solana_lib
    (Solana.KeyString SolanaFixtures.secret) = Ok SolanaFixtures.pair /\
  @Solana.keypairFromPrivateKeyInput Fixtures.solana_lib
    (Solana.KeyArray (SolanaWallet.Array_from
                        (Solana.secretKey SolanaFixtures.pair))) =
  Ok SolanaFixtures.pair.
Proof.
  destruct (@solana_export_can_be_imported Fixtures.solana_lib
              SolanaFixtures.pair eq_refl) as (Harr & _ & Htext).
  split; [| exact Harr].
  apply Htext; try reflexivity.
  intros l. discriminate.
Defined.

(** X22.  The numbers of a key given as an array are taken modulo 256:
    two arrays whose entries agree modulo 256 are the same key to the
    import and to every other route, so an entry outside 0..255 is not
    rejected. *)
Theorem solana_array_key_wraps `{L : Solana.Lib} (a b : list Z) :
  Forall2 (fun x y => x mod 256 = y mod 256) a b ->
  Solana.keypairFromPrivateKeyInput (Solana.KeyArray a) =
  Solana.keypairFromPrivateKeyInput (Solana.KeyArray b) /\
  SolanaWallet.import (Solana.KeyArray a) = SolanaWallet.import (Solana.KeyArray b).
Proof.
  intros Hab.
  assert (H : Solana.keypairFromPrivateKeyInput (Solana.KeyArray a) =
              Solana.keypairFromPrivateKeyInput (Solana.KeyArray b)).
  { unfold Solana.keypairFromPrivateKeyInput. cbn [Solana.truthy_input negb].
    now rewrite (Uint8Array_from_mod a b Hab). }
  split; [exact H |].
  rewrite !solana_import_run_key, H. reflexivity.
Qed.

(** An instance of X22: 304 and -208 stand for the byte 48. *)
Lemma solana_array_key_wraps_witness :
  @SolanaWallet.import Fixtures.solana_lib (Solana.KeyArray (repeat 304 64)) =
  @SolanaWallet.import Fixtures.solana_lib (Solana.KeyArray (repeat (-208) 64)).
Proof.
  apply (@solana_array_key_wraps Fixtures.solana_lib).
  cbn [repeat]. repeat constructor.
Defined.

(** X23.  Importing a Solana key performs no provider call; it answers 400
    when the key is missing and 500 when no format fits.  The public key
    it reports is the sender the send accepts for that key: such a send is
    not refused with "privateKey mismatch" or any other 400. *)
Theorem solana_imported_key_can_send `{F : Float} `{L : Solana.Lib}
  (input : Solana.KeyInput) :
  snd (SolanaWallet.import input) = [] /\
  (Solana.truthy_input input = false ->
   fst (SolanaWallet.import input) = error_response 400 "privateKey required") /\
  (Solana.truthy_input input = true ->
   forall msg, Solana.keypairFromPrivateKeyInput input = Err msg ->
   fst (SolanaWallet.import input) = error_response 500 msg) /\
  (forall fields a (P : Solana.Provider) (req : Solana.SendRequest),
     fst (SolanaWallet.import input) = json fields ->
     In ("publicKey", FStr a) fields ->
     Solana.privateKey req = input ->
     Solana.from req = a ->
     truthy_string (Solana.to req) = true ->
     truthy_number (Solana.amount req) = true ->
     status (fst (Solana.send P req)) <> 400).
Proof.
  rewrite solana_import_run_key. cbn [fst snd].
  split; [reflexivity |].
  split; [intros ->; reflexivity |].
  split; [intros -> msg ->; reflexivity |].
  intros fields a P req Himp Hin Hkey Hfrom Hto Hamt.
  destruct (Solana.truthy_input input) eqn:Hi; cbn [negb] in Himp; [| discriminate].
  destruct (Solana.keypairFromPrivateKeyInput input) as [kp | msg] eqn:Hkp;
    [| discriminate].
  injection Himp as <-.
  unfold Solana.exportKeypair in Hin. cbn [In] in Hin.
  destruct Hin as [H | [H | [H | []]]]; try discriminate H.
  injection H as <-.
  subst input.
  rewrite (solana_send_run P req kp); [| repeat split; assumption | exact Hkp
                                       | symmetry; exact Hfrom].
  destruct (Solana.PublicKey_new (Solana.to req)); cbv zeta; cbn [fst].
  - destruct (Solana.sendAndConfirm_reply P _ kp); cbn [status]; discriminate.
  - cbn [status error_response]. discriminate.
Qed.

(** An instance of X23: the fixture key, imported and then used. *)
Lemma solana_imported_key_can_send_witness :
  let F := Fixtures.exact_float in
  let a := "ABCDEFGHIJKLMNOPQRSTUVWXYZabcdef" in
  let req := SolanaFixtures.request a (inject_Z 2) in
  status (fst (@Solana.send F Fixtures.solana_lib Fixtures.solana_provider req))
  <> 400.
Proof.
  intros F a req.
  destruct (@solana_imported_key_can_send F Fixtures.solana_lib
              (Solana.KeyString SolanaFixtures.secret))
    as (_ & _ & _ & Hsend).
  apply (Hsend _ a Fixtures.solana_provider req eq_refl); try reflexivity.
  cbn [In]. left. reflexivity.
Defined.

(** X24.  The Solana send submits at most one transaction.  With a
    destination the library rejects it answers 500 without submitting
    anything; otherwise, for a number of lamports that fits the unsigned
    64 bits of the transfer instruction, it submits exactly one transfer,
    signed by the key pair of the request, and answers 200 with the
    signature when the transaction is confirmed and 500 when it is not.
    It answers 200 only when a transaction was confirmed. *)
Theorem solana_send_outcomes `{F : Float} `{L : Solana.Lib}
  (P : Solana.Provider) (req : Solana.SendRequest) :
  (List.length (snd (Solana.send P req)) <= 1)%nat /\
  (status (fst (Solana.send P req)) = 200 ->
   exists tx kp sig fields,
     Solana.send P req = (json fields, [Solana.SendAndConfirmTransaction tx kp]) /\
     Solana.sendAndConfirm_reply P tx kp = Ok sig /\
     In ("txSignature", FStr sig) fields) /\
  (forall kp,
     SolanaSpec.well_formed req ->
     Solana.keypairFromPrivateKeyInput (Solana.privateKey req) = Ok kp ->
     Solana.bs58_encode (Solana.publicKey kp) = Solana.from req ->
     (forall msg, Solana.PublicKey_new (Solana.to req) = Err msg ->
        Solana.send P req = (error_response 500 msg, [])) /\
     (forall toPub, Solana.PublicKey_new (Solana.to req) = Ok toPub ->
        let tx := Solana.mkTransfer (Solana.publicKey kp) toPub
                    (Math_floor (fmul (Solana.amount req)
                                   (inject_Z Solana.LAMPORTS_PER_SOL))) in
        0 <= Solana.lamports tx < 2 ^ 64 ->
        snd (Solana.send P req) = [Solana.SendAndConfirmTransaction tx kp] /\
        (forall msg, Solana.sendAndConfirm_reply P tx kp = Err msg ->
           fst (Solana.send P req) = error_response 500 msg) /\
        (forall sig, Solana.sendAndConfirm_reply P tx kp = Ok sig ->
           status (fst (Solana.send P req)) = 200))).
Proof.
  destruct (solana_send_trace P req) as [Hlen Hok].
  split; [exact Hlen |]. split; [exact Hok |].
  intros kp Hwf Hkey Hfrom.
  rewrite (solana_send_run P req kp Hwf Hkey Hfrom).
  split.
  - intros msg ->. reflexivity.
  - intros toPub ->. cbv zeta. cbn [fst snd]. intros _.
    split; [reflexivity |].
    split; [intros msg ->; reflexivity | intros sig ->; reflexivity].
Qed.

(** An instance of X24: two SOL to bob are two thousand million
    lamports. *)
Lemma solana_send_outcomes_witness :
  let F := Fixtures.exact_float in
  let req := Solana.mkSendRequest "ABCDEFGHIJKLMNOPQRSTUVWXYZabcdef"
               (Solana.KeyString SolanaFixtures.secret) "bob" (inject_Z 2) in
  exists tx,
    snd (@Solana.send F Fixtures.solana_lib Fixtures.solana_provider req) =
    [Solana.SendAndConfirmTransaction tx SolanaFixtures.pair] /\
    Solana.lamports tx = 2000000000.
Proof.
  intros F req.
  destruct (@solana_send_outcomes F Fixtures.solana_lib Fixtures.solana_provider req)
    as (_ & _ & Hrun).
  destruct (Hrun SolanaFixtures.pair) as [_ Hcall];
    [repeat split | reflexivity | reflexivity |].
  destruct (Hcall _ eq_refl) as (Htr & _ & _); [vm_compute; intuition discriminate |].
  eexists. split; [exact Htr | reflexivity].
Defined.

(** ** The Cardano routers *)

Section CardanoMore.
Context `{F : Float} `{A : Bip39.Api} `{L : Cardano.Lib}.
Import Cardano CardanoSpec.

Lemma cardano_well_formed_checks (req : SendRequest) :
  well_formed req ->
  negb (truthy_string (mnemonic req)) || negb (truthy_string (to req))
  || negb (truthy_number (req_amount req)) = false /\
  negb (startsWith (to req) "addr") = false.
Proof. intros (-> & -> & -> & ->). split; reflexivity. Qed.

(** The first router after its checks. *)
Lemma cardano_send_run (P : Provider) (req : SendRequest) (keys : Keys) :
  well_formed req ->
  1000000 <= amountLovelace req ->
  deriveKeysFromMnemonic (mnemonic req) = Ok keys ->
  let from := address keys in
  let early := [DeriveKeys (mnemonic req); GetUtxos from] in
  send P req =
  match utxos_reply P from with
  | Err msg => (error_response 500 msg, early)
  | Ok utxos =>
      if Nat.eqb (List.length utxos) 0
      then (error_response 400 "No UTXO available", early)
      else
        match add_output Builder_new (to req) (amountLovelace req) with
        | Err msg => (error_response 500 msg, early)
        | Ok b1 =>
            match addInputs from utxos (amountLovelace req + 3000000) b1 0 with
            | Err msg => (error_response 500 msg, early)
            | Ok r =>
                match build_reply P (fst r) from with
                | Err msg => (error_response 500 msg, early)
                | Ok txBody =>
                    let signedTx := signed_bytes P (paymentKey keys) txBody in
                    (match submit_reply P signedTx with
                     | Ok submit =>
                         json [("from", FStr from); ("to", FStr (to req));
                               ("amount", FNum (req_amount req));
                               ("txHash", FStr submit)]
                     | Err msg => error_response 500 msg
                     end,
                     early ++ [MakeWitness (paymentKey keys) (fst r);
                               SubmitTx signedTx])
                end
            end
        end
  end.
Proof.
  intros Hwf Hmin Hkeys from early.
  destruct (cardano_well_formed_checks req Hwf) as [H1 H2].
  apply Z.ltb_ge in Hmin.
  unfold send, run, send_handler.
  rewrite bind_reject_if, H1, bind_reject_if, H2. cbv zeta.
  rewrite bind_reject_if, Hmin, bind_emit, bind_lift, Hkeys.
  fold from. rewrite bind_await.
  destruct (utxos_reply P from) as [utxos | msg]; [| reflexivity].
  rewrite bind_reject_if.
  destruct (Nat.eqb (List.length utxos) 0); [reflexivity |].
  rewrite bind_lift.
  destruct (add_output Builder_new (to req) (amountLovelace req)); [| reflexivity].
  rewrite bind_lift.
  destruct (addInputs from utxos _ _ 0) as [r | msg]; [| reflexivity].
  rewrite bind_lift.
  destruct (build_reply P (fst r) from) as [txBody | msg]; [| reflexivity].
  rewrite bind_emit, bind_await.
  destruct (submit_reply P _); reflexivity.
Qed.

Lemma firstFit_all (l : list TxInput) (t : Z) :
  forall acc,
    (forall i, In i l -> 0 <= in_value i) ->
    acc + total l < t ->
    firstFit l t acc = l.
Proof.
  induction l as [| i r IH]; intros acc Hpos Hlow; [reflexivity |].
  cbn [firstFit]. cbn [total fold_right] in Hlow. fold (total r) in Hlow.
  assert (Hr : 0 <= total r).
  { clear - Hpos. induction r as [| j r IH]; [cbn; lia |].
    cbn [total fold_right]. fold (total r).
    assert (0 <= in_value j) by (apply Hpos; right; left; reflexivity).
    assert (0 <= total r).
    { apply IH. intros k [Hk | Hk]; apply Hpos; [left | right; right]; assumption. }
    lia. }
  destruct (Z.geb_spec (acc + in_value i) t) as [Hge | Hlt]; [lia |].
  f_equal. apply IH.
  - intros k Hk. apply Hpos. now right.
  - lia.
Qed.

(** The shapes a trace of the first router can have. *)
Lemma cardano_send_trace (P : Provider) (req : SendRequest) :
  let tr := snd (send P req) in
  let m := mnemonic req in
  (tr = [] \/
   (tr = [DeriveKeys m] /\ exists msg, deriveKeysFromMnemonic m = Err msg) \/
   exists keys,
     deriveKeysFromMnemonic m = Ok keys /\
     (tr = [DeriveKeys m; GetUtxos (address keys)] \/
      exists b txBody,
        build_reply P b (address keys) = Ok txBody /\
        tr = [DeriveKeys m; GetUtxos (address keys);
              MakeWitness (paymentKey keys) b;
              SubmitTx (signed_bytes P (paymentKey keys) txBody)])) /\
  (status (fst (send P req)) = 200 ->
   exists keys b txBody submit,
     build_reply P b (address keys) = Ok txBody /\
     submit_reply P (signed_bytes P (paymentKey keys) txBody) = Ok submit /\
     tr = [DeriveKeys m; GetUtxos (address keys);
           MakeWitness (paymentKey keys) b;
           SubmitTx (signed_bytes P (paymentKey keys) txBody)]).
Proof.
  unfold send, run, send_handler.
  act_run.
  all: split; [| cbn [status error_response json fst]; try discriminate].
  all: try (left; reflexivity).
  all: try (right; left; split; [reflexivity | eexists; reflexivity]).
  all: try (right; right; eexists; split; [reflexivity |]; left; reflexivity).
  all: try (right; right; eexists; split; [reflexivity |]; right;
            do 2 eexists; split; [eassumption | reflexivity]).
  all: intros _; do 4 eexists; split; [eassumption |];
         split; [eassumption | reflexivity].
Qed.

(** The shapes a trace of the second router can have. *)
Lemma cardano_sendB_trace (P : Provider) (req : SendRequest) :
  let tr := snd (B.send P req) in
  let m := mnemonic req in
  (tr = [] \/
   (tr = [DeriveKeys m] /\ exists msg, B.deriveKeysFromMnemonic m = Err msg) \/
   exists keys,
     B.deriveKeysFromMnemonic m = Ok keys /\
     (tr = [DeriveKeys m; GetUtxos (address keys)] \/
      exists b txBody,
        build_reply P b (address keys) = Ok txBody /\
        tr = [DeriveKeys m; GetUtxos (address keys);
              MakeWitness (paymentKey keys) b;
              SubmitTx (signed_bytes P (paymentKey keys) txBody)])) /\
  (status (fst (B.send P req)) = 200 ->
   exists keys b txBody submit,
     build_reply P b (address keys) = Ok txBody /\
     submit_reply P (signed_bytes P (paymentKey keys) txBody) = Ok submit /\
     tr = [DeriveKeys m; GetUtxos (address keys);
           MakeWitness (paymentKey keys) b;
           SubmitTx (signed_bytes P (paymentKey keys) txBody)]).
Proof.
  unfold B.send, run, B.send_handler.
  act_run.
  all: split; [| cbn [status error_response json fst]; try discriminate].
  all: try (left; reflexivity).
  all: try (right; left; split; [reflexivity | eexists; reflexivity]).
  all: try (right; right; eexists; split; [reflexivity |]; left; reflexivity).
  all: try (right; right; eexists; split; [reflexivity |]; right;
            do 2 eexists; split; [eassumption | reflexivity]).
  all: intros _; do 4 eexists; split; [eassumption |];
         split; [eassumption | reflexivity].
Qed.

End CardanoMore.

(** X25.  The first Cardano send validates in a fixed order: a missing
    field, then a destination that does not start with "addr", are
    answered 400 with no effect; an invalid mnemonic is answered 500
    before any request to the provider; a failed listing of the unspent
    outputs is answered 500 and an empty one 400, in both cases with
    nothing built or signed. *)
Theorem cardano_send_validates_in_order `{F : Float} `{A : Bip39.Api}
  `{L : Cardano.Lib} (P : Cardano.Provider) (req : Cardano.SendRequest) :
  let m := Cardano.mnemonic req in
  (truthy_string m = false \/ truthy_string (Cardano.to req) = false \/
   truthy_number (Cardano.req_amount req) = false ->
   Cardano.send P req = (error_response 400 "mnemonic, to, amount required", [])) /\
  (truthy_string m = true -> truthy_string (Cardano.to req) = true ->
   truthy_number (Cardano.req_amount req) = true ->
   startsWith (Cardano.to req) "addr" = false ->
   Cardano.send P req = (error_response 400 "Invalid Cardano address", [])) /\
  (CardanoSpec.well_formed req ->
   1000000 <= Cardano.amountLovelace req ->
   (Bip39.validateMnemonic m = false ->
    Cardano.send P req =
    (error_response 500 "Invalid mnemonic", [Cardano.DeriveKeys m])) /\
   (forall keys,
      Cardano.deriveKeysFromMnemonic m = Ok keys ->
      let early := [Cardano.DeriveKeys m; Cardano.GetUtxos (Cardano.address keys)] in
      (forall msg, Cardano.utxos_reply P (Cardano.address keys) = Err msg ->
         Cardano.send P req = (error_response 500 msg, early)) /\
      (Cardano.utxos_reply P (Cardano.address keys) = Ok [] ->
       Cardano.send P req = (error_response 400 "No UTXO available", early)))).
Proof.
  intros m. split; [| split].
  - intros Hbad. unfold Cardano.send, run, Cardano.send_handler.
    rewrite bind_reject_if. fold m.
    destruct Hbad as [H | [H | H]]; rewrite H; cbn [negb orb];
      rewrite ?orb_true_r; reflexivity.
  - intros Hm Ht Ha Hs. unfold Cardano.send, run, Cardano.send_handler.
    rewrite bind_reject_if. fold m. rewrite Hm, Ht, Ha. cbn [negb orb].
    rewrite bind_reject_if, Hs. reflexivity.
  - intros Hwf Hmin. split.
    + intros Hbad.
      destruct (cardano_well_formed_checks req Hwf) as [H1 H2].
      apply Z.ltb_ge in Hmin.
      unfold Cardano.send, run, Cardano.send_handler.
      rewrite bind_reject_if, H1, bind_reject_if, H2. cbv zeta.
      rewrite bind_reject_if, Hmin, bind_emit, bind_lift.
      unfold Cardano.deriveKeysFromMnemonic. fold m. rewrite Hbad. reflexivity.
    + intros keys Hkeys early.
      rewrite (cardano_send_run P req keys Hwf Hmin Hkeys). cbv zeta.
      split; [intros msg ->; reflexivity | intros ->; reflexivity].
Qed.

(** An instance of X25: an account without unspent outputs. *)
Lemma cardano_send_validates_in_order_witness :
  let F := Fixtures.exact_float in
  let req := Cardano.mkSendRequest "seed phrase" "addr1bob" (inject_Z 2) in
  exists from,
    @Cardano.send F Fixtures.bip39_api Fixtures.cardano_lib
      (Fixtures.cardano_provider []) req =
    (error_response 400 "No UTXO available",
     [Cardano.DeriveKeys "seed phrase"; Cardano.GetUtxos from]).
Proof.
  intros F req.
  destruct (@cardano_send_validates_in_order F Fixtures.bip39_api
              Fixtures.cardano_lib (Fixtures.cardano_provider []) req)
    as (_ & _ & Hrun).
  destruct Hrun as [_ Hkeys].
  - repeat split.
  - vm_compute. discriminate.
  - eexists. apply (Hkeys _ eq_refl). reflexivity.
Defined.

(** X26.  The first Cardano send does not check the funds itself: the 3
    ADA above the amount are where the loop over the outputs stops, not a
    requirement.  When the outputs of the account together stay below
    that target, all of them become inputs, the request is never answered
    400, and the transaction goes to the library's builder; if the builder
    accepts it, it is witnessed and submitted. *)
Theorem cardano_send_does_not_check_funds `{F : Float} `{A : Bip39.Api}
  `{L : Cardano.Lib} (P : Cardano.Provider) (req : Cardano.SendRequest)
  (keys : Cardano.Keys) (utxos : list Cardano.Utxo) :
  CardanoSpec.well_formed req ->
  1000000 <= Cardano.amountLovelace req ->
  Cardano.deriveKeysFromMnemonic (Cardano.mnemonic req) = Ok keys ->
  Cardano.utxos_reply P (Cardano.address keys) = Ok utxos ->
  utxos <> [] ->
  Cardano.Address_from_bech32 (Cardano.to req) = Ok tt ->
  Cardano.BigNum_from_str (Cardano.amountLovelace req) = Ok tt ->
  CardanoSpec.accepted (Cardano.address keys) (CardanoSpec.candidates utxos) ->
  (forall i, In i (CardanoSpec.candidates utxos) -> 0 <= Cardano.in_value i) ->
  CardanoSpec.total (CardanoSpec.candidates utxos) <
  Cardano.amountLovelace req + 3000000 ->
  let b := Cardano.mkBuilder [(Cardano.to req, Cardano.amountLovelace req)]
             (CardanoSpec.candidates utxos) in
  let early := [Cardano.DeriveKeys (Cardano.mnemonic req);
                Cardano.GetUtxos (Cardano.address keys)] in
  status (fst (Cardano.send P req)) <> 400 /\
  (forall msg, Cardano.build_reply P b (Cardano.address keys) = Err msg ->
     Cardano.send P req = (error_response 500 msg, early)) /\
  (forall txBody, Cardano.build_reply P b (Cardano.address keys) = Ok txBody ->
     snd (Cardano.send P req) =
     early ++ [Cardano.MakeWitness (Cardano.paymentKey keys) b;
               Cardano.SubmitTx
                 (Cardano.signed_bytes P (Cardano.paymentKey keys) txBody)]).
Proof.
  intros Hwf Hmin Hkeys Hu Hne Hto Hamt Hacc Hpos Hlow b early.
  rewrite (cardano_send_run P req keys Hwf Hmin Hkeys). cbv zeta.
  rewrite Hu.
  destruct utxos as [| u0 us]; [congruence |].
  cbn [List.length Nat.eqb].
  unfold Cardano.add_output, Cardano.andThen. rewrite Hto, Hamt.
  cbn [Cardano.Builder_new Cardano.b_outputs Cardano.b_inputs app].
  rewrite (addInputs_accepted (Cardano.address keys) (u0 :: us) _ _ 0 Hacc).
  rewrite (firstFit_all _ _ 0 Hpos) by lia.
  cbn [Cardano.b_outputs Cardano.b_inputs app fst]. fold b.
  split; [| split].
  - destruct (Cardano.build_reply P b (Cardano.address keys)); cbn [fst].
    + destruct (Cardano.submit_reply P _); cbn [status json error_response];
        discriminate.
    + cbn [status error_response]. discriminate.
  - intros msg ->. reflexivity.
  - intros txBody ->. reflexivity.
Qed.

(** An instance of X26: one ADA sent from an account that holds two. *)
Lemma cardano_send_does_not_check_funds_witness :
  let F := Fixtures.exact_float in
  let req := Cardano.mkSendRequest "seed phrase" "addr1bob" (inject_Z 1) in
  let P := Fixtures.cardano_provider [Fixtures.ada "h1" 0 2000000] in
  exists key body,
    In (Cardano.MakeWitness key
          (Cardano.mkBuilder [("addr1bob", 1000000)]
             [Cardano.mkTxInput "h1" 0 2000000]))
       (snd (@Cardano.send F Fixtures.bip39_api Fixtures.cardano_lib P req)) /\
    In (Cardano.SubmitTx body)
       (snd (@Cardano.send F Fixtures.bip39_api Fixtures.cardano_lib P req)).
Proof.
  intros F req P.
  destruct (@Cardano.deriveKeysFromMnemonic Fixtures.bip39_api
              Fixtures.cardano_lib "seed phrase") as [keys | msg] eqn:Hkeys;
    [| discriminate Hkeys].
  destruct (@cardano_send_does_not_check_funds F Fixtures.bip39_api
              Fixtures.cardano_lib P req keys [Fixtures.ada "h1" 0 2000000])
    as (_ & _ & Hok).
  - repeat split.
  - vm_compute. discriminate.
  - exact Hkeys.
  - reflexivity.
  - discriminate.
  - reflexivity.
  - reflexivity.
  - split; [injection Hkeys as <-; reflexivity |].
    intros i [<- | []]. split; reflexivity.
  - intros i [<- | []]. vm_compute. discriminate.
  - vm_compute. reflexivity.
  - rewrite (Hok _ eq_refl). do 2 eexists. split.
    + do 2 right. left. reflexivity.
    + do 3 right. left. reflexivity.
Defined.

(** X27.  Both Cardano sends submit at most one transaction and nothing
    they did not witness: whenever a transaction is submitted, the whole
    trace is the derivation of the keys, the listing of the sender's
    outputs, one witness and that one submission, and the submitted bytes
    are the built body signed with the payment key derived from the
    mnemonic of the request.  A send is answered 200 only when the
    provider accepted the submission. *)
Theorem cardano_send_submits_what_it_signed `{F : Float} `{A : Bip39.Api}
  `{L : Cardano.Lib} (P : Cardano.Provider) (req : Cardano.SendRequest) :
  let m := Cardano.mnemonic req in
  let disciplined (derive : string -> Result Cardano.Keys)
                  (out : Response * list Cardano.Event) :=
    (forall tx, In (Cardano.SubmitTx tx) (snd out) ->
       exists keys b txBody,
         derive m = Ok keys /\
         Cardano.build_reply P b (Cardano.address keys) = Ok txBody /\
         tx = Cardano.signed_bytes P (Cardano.paymentKey keys) txBody /\
         snd out = [Cardano.DeriveKeys m; Cardano.GetUtxos (Cardano.address keys);
                    Cardano.MakeWitness (Cardano.paymentKey keys) b;
                    Cardano.SubmitTx tx]) /\
    (status (fst out) = 200 ->
       exists tx submit,
         In (Cardano.SubmitTx tx) (snd out) /\
         Cardano.submit_reply P tx = Ok submit) in
  disciplined Cardano.deriveKeysFromMnemonic (Cardano.send P req) /\
  disciplined Cardano.B.deriveKeysFromMnemonic (Cardano.B.send P req).
Proof.
  intros m disciplined. subst disciplined. cbv beta.
  split.
  - destruct (cardano_send_trace P req) as [Hshape Hok]. cbv zeta in Hshape, Hok.
    fold m in Hshape, Hok. split.
    + intros tx Hin.
      destruct Hshape as [E | [[E _] | (keys & Hk & [E | (b & body & Hb & E)])]];
        rewrite E in Hin; cbn [In] in Hin.
      * contradiction.
      * destruct Hin as [H | []]. discriminate H.
      * destruct Hin as [H | [H | []]]; discriminate H.
      * destruct Hin as [H | [H | [H | [H | []]]]]; try discriminate H.
        injection H as <-. exists keys, b, body.
        repeat split; assumption.
    + intros H200. destruct (Hok H200) as (keys & b & body & h & Hb & Hs & E).
      do 2 eexists. split; [| exact Hs].
      rewrite E. do 3 right. left. reflexivity.
  - destruct (cardano_sendB_trace P req) as [Hshape Hok]. cbv zeta in Hshape, Hok.
    fold m in Hshape, Hok. split.
    + intros tx Hin.
      destruct Hshape as [E | [[E _] | (keys & Hk & [E | (b & body & Hb & E)])]];
        rewrite E in Hin; cbn [In] in Hin.
      * contradiction.
      * destruct Hin as [H | []]. discriminate H.
      * destruct Hin as [H | [H | []]]; discriminate H.
      * destruct Hin as [H | [H | [H | [H | []]]]]; try discriminate H.
        injection H as <-. exists keys, b, body.
        repeat split; assumption.
    + intros H200. destruct (Hok H200) as (keys & b & body & h & Hb & Hs & E).
      do 2 eexists. split; [| exact Hs].
      rewrite E. do 3 right. left. reflexivity.
Qed.

(** An instance of X27: the fixture send is answered 200, so the provider
    accepted what was submitted. *)
Lemma cardano_send_submits_what_it_signed_witness :
  let F := Fixtures.exact_float in
  let req := Cardano.mkSendRequest "seed phrase" "addr1bob" (inject_Z 1) in
  let P := Fixtures.cardano_provider [Fixtures.ada "h1" 0 5000000] in
  exists tx submit,
    In (Cardano.SubmitTx tx)
       (snd (@Cardano.send F Fixtures.bip39_api Fixtures.cardano_lib P req)) /\
    Cardano.submit_reply P tx = Ok submit.
Proof.
  intros F req P.
  destruct (@cardano_send_submits_what_it_signed F Fixtures.bip39_api
              Fixtures.cardano_lib P req) as [[_ Hok] _].
  apply Hok. reflexivity.
Defined.

(** X28.  The two Cardano routers derive the same payment key from a
    mnemonic, and the same address when the configured network is
    "mainnet" or "testnet" (the key hash being the same whichever way the
    library computes it).  For every other network name they disagree on
    the network id of the address: the first router uses 1, the second
    0. *)
Theorem cardano_routers_derive_alike `{A : Bip39.Api} `{L : Cardano.Lib}
  (m : string) :
  (forall k, Cardano.raw_public_hash k = Cardano.public_raw_hash k) ->
  (forall k1 k2,
     Cardano.deriveKeysFromMnemonic m = Ok k1 ->
     Cardano.B.deriveKeysFromMnemonic m = Ok k2 ->
     Cardano.paymentKey k1 = Cardano.paymentKey k2) /\
  (Cardano.NETWORK = "mainnet" \/ Cardano.NETWORK = "testnet" ->
   Cardano.B.deriveKeysFromMnemonic m = Cardano.deriveKeysFromMnemonic m) /\
  (Cardano.NETWORK <> "mainnet" -> Cardano.NETWORK <> "testnet" ->
   Bip39.validateMnemonic m = true ->
   exists pay stake key,
     Cardano.deriveKeysFromMnemonic m =
     Ok (Cardano.mkKeys (Cardano.BaseAddress_to_bech32 1 pay stake) key) /\
     Cardano.B.deriveKeysFromMnemonic m =
     Ok (Cardano.mkKeys (Cardano.BaseAddress_to_bech32 0 pay stake) key)).
Proof.
  intros Hhash.
  unfold Cardano.deriveKeysFromMnemonic, Cardano.B.deriveKeysFromMnemonic.
  cbv zeta. rewrite !Hhash.
  split; [| split].
  - intros k1 k2.
    destruct (negb (Bip39.validateMnemonic m)); [discriminate |].
    intros H1 H2. injection H1 as <-. injection H2 as <-. reflexivity.
  - intros [-> | ->]; reflexivity.
  - intros Hm Ht ->. cbn [negb].
    apply String.eqb_neq in Hm. apply String.eqb_neq in Ht.
    rewrite Hm, Ht. do 3 eexists. split; reflexivity.
Qed.

(** An instance of X28: the fixture library, whose network is unset and so
    "mainnet". *)
Lemma cardano_routers_derive_alike_witness :
  @Cardano.B.deriveKeysFromMnemonic Fixtures.bip39_api Fixtures.cardano_lib
    "seed phrase" =
  @Cardano.deriveKeysFromMnemonic Fixtures.bip39_api Fixtures.cardano_lib
    "seed phrase".
Proof.
  destruct (@cardano_routers_derive_alike Fixtures.bip39_api Fixtures.cardano_lib
              "seed phrase" (fun k => eq_refl)) as (_ & Hsame & _).
  apply Hsame. left. reflexivity.
Defined.

(** X29.  Importing a Cardano wallet performs no provider call and answers
    400 when the mnemonic is missing.  The address it reports is the
    sender of a send with the same mnemonic: after the checks of the
    request the send asks the provider for the unspent outputs of exactly
    that address. *)
Theorem cardano_imported_wallet_is_the_sender `{F : Float} `{A : Bip39.Api}
  `{L : Cardano.Lib} (m : string) :
  snd (Cardano.import m) = [] /\
  (truthy_string m = false ->
   fst (Cardano.import m) = error_response 400 "Mnemonic required") /\
  (forall fields a (P : Cardano.Provider) (req : Cardano.SendRequest),
     fst (Cardano.import m) = json fields ->
     In ("address", FStr a) fields ->
     Cardano.mnemonic req = m ->
     CardanoSpec.well_formed req ->
     1000000 <= Cardano.amountLovelace req ->
     exists rest,
       snd (Cardano.send P req) =
       Cardano.DeriveKeys m :: Cardano.GetUtxos a :: rest).
Proof.
  split; [| split].
  - unfold Cardano.import, run, Cardano.import_handler.
    rewrite bind_reject_if. destruct (negb (truthy_string m)); [reflexivity |].
    rewrite bind_lift. destruct (Cardano.deriveKeysFromMnemonic m); reflexivity.
  - intros Hm. unfold Cardano.import, run, Cardano.import_handler.
    rewrite bind_reject_if, Hm. reflexivity.
  - intros fields a P req Himp Hin Hreq Hwf Hmin.
    assert (Hm : truthy_string m = true) by (subst m; apply Hwf).
    rewrite (cardano_import_run m Hm) in Himp. cbn [fst] in Himp.
    destruct (Cardano.deriveKeysFromMnemonic m) as [keys | msg] eqn:Hkeys;
      [| discriminate].
    injection Himp as <-. cbn [In] in Hin.
    destruct Hin as [H | [H | [H | []]]]; try discriminate H.
    injection H as <-. subst m.
    rewrite (cardano_send_run P req keys Hwf Hmin Hkeys). cbv zeta.
    destruct (Cardano.utxos_reply P (Cardano.address keys)) as [utxos | msg];
      [| eexists; reflexivity].
    destruct (Nat.eqb (List.length utxos) 0); [eexists; reflexivity |].
    destruct (Cardano.add_output _ _ _); [| eexists; reflexivity].
    destruct (Cardano.addInputs _ _ _ _ _); [| eexists; reflexivity].
    destruct (Cardano.build_reply P _ _); eexists; reflexivity.
Qed.

(** An instance of X29: the fixture wallet. *)
Lemma cardano_imported_wallet_is_the_sender_witness :
  let F := Fixtures.exact_float in
  let req := Cardano.mkSendRequest "seed phrase" "addr1bob" (inject_Z 1) in
  let P := Fixtures.cardano_provider [Fixtures.ada "h1" 0 5000000] in
  exists rest,
    snd (@Cardano.send F Fixtures.bip39_api Fixtures.cardano_lib P req) =
    Cardano.DeriveKeys "seed phrase"
    :: Cardano.GetUtxos "addr1seed phrase03800" :: rest.
Proof.
  intros F req P.
  destruct (@cardano_imported_wallet_is_the_sender F Fixtures.bip39_api
              Fixtures.cardano_lib "seed phrase") as (_ & _ & Hsend).
  apply (Hsend _ "addr1seed phrase03800" P req eq_refl).
  - do 2 right. left. reflexivity.
  - reflexivity.
  - repeat split.
  - vm_compute. discriminate.
Defined.

(** ** C10: the amount placed in the transaction *)

Section CardanoSecondRouter.
Context `{F : Float} `{A : Bip39.Api} `{L : Cardano.Lib}.
Import Cardano CardanoSpec.

Lemma addInputsB_accepted (from : string) (utxos : list Utxo) (target : Z) :
  forall b totalInput,
    accepted from (candidatesB utxos) ->
    B.addInputs from utxos target b totalInput =
    Ok (mkBuilder (b_outputs b)
          (b_inputs b ++ firstFit (candidatesB utxos) target totalInput),
        totalInput + total (firstFit (candidatesB utxos) target totalInput)).
Proof.
  induction utxos as [| u r IH]; intros b t [Ha Hall]; simpl.
  - rewrite app_nil_r, Z.add_0_r. now destruct b.
  - set (v := match find_lovelace u with
              | Some lov => quantity lov
              | None => 0
              end) in *.
    destruct (Hall _ (or_introl eq_refl)) as [Hh Hv]. simpl in Hh, Hv.
    rewrite (add_input_accepted b from u v Ha Hh Hv).
    destruct (t + v >=? target).
    + simpl. rewrite Z.add_0_r. reflexivity.
    + rewrite IH by (split; [exact Ha | intros i Hi; apply Hall; now right]).
      simpl. rewrite <- app_assoc. simpl. f_equal. f_equal. lia.
Qed.

(** The second router after its check of the fields. *)
Lemma cardano_sendB_run (P : Provider) (req : SendRequest) (keys : Keys) :
  truthy_string (mnemonic req) = true ->
  truthy_string (to req) = true ->
  truthy_number (req_amount req) = true ->
  B.deriveKeysFromMnemonic (mnemonic req) = Ok keys ->
  let from := address keys in
  let early := [DeriveKeys (mnemonic req); GetUtxos from] in
  B.send P req =
  match utxos_reply P from with
  | Err msg => (error_response 500 msg, early)
  | Ok utxos =>
      if Nat.eqb (List.length utxos) 0
      then (error_response 400 "No UTXO available", early)
      else
        match add_output Builder_new (to req) (amountLovelace req) with
        | Err msg => (error_response 500 msg, early)
        | Ok b1 =>
            match B.addInputs from utxos (amountLovelace req + 2000000) b1 0 with
            | Err msg => (error_response 500 msg, early)
            | Ok r =>
                match build_reply P (fst r) from with
                | Err msg => (error_response 500 msg, early)
                | Ok txBody =>
                    let signedTx := signed_bytes P (paymentKey keys) txBody in
                    (match submit_reply P signedTx with
                     | Ok submit =>
                         json [("from", FStr from); ("to", FStr (to req));
                               ("amount", FNum (req_amount req));
                               ("txHash", FStr submit)]
                     | Err msg => error_response 500 msg
                     end,
                     early ++ [MakeWitness (paymentKey keys) (fst r);
                               SubmitTx signedTx])
                end
            end
        end
  end.
Proof.
  intros Hm Ht Ha Hkeys from early.
  unfold B.send, run, B.send_handler.
  rewrite bind_reject_if, Hm, Ht, Ha. cbn [negb orb]. cbv zeta.
  rewrite bind_emit, bind_lift, Hkeys.
  fold from. rewrite bind_await.
  destruct (utxos_reply P from) as [utxos | msg]; [| reflexivity].
  rewrite bind_reject_if.
  destruct (Nat.eqb (List.length utxos) 0); [reflexivity |].
  rewrite bind_lift.
  destruct (add_output Builder_new (to req) (amountLovelace req)); [| reflexivity].
  rewrite bind_lift.
  destruct (B.addInputs from utxos _ _ 0) as [r | msg]; [| reflexivity].
  rewrite bind_lift.
  destruct (build_reply P (fst r) from) as [txBody | msg]; [| reflexivity].
  rewrite bind_emit, bind_await.
  destruct (submit_reply P _); reflexivity.
Qed.

End CardanoSecondRouter.

(** C10.  The BTC, Solana and Cardano sends convert the caller's decimal
    amount to base units by flooring the product [amount * 10^decimals]
    (8, 9 and 6 decimals), and that floor is the amount placed in the
    transaction: an integer not above the product and less than one unit
    below it, never rounded up.  On each chain this holds of whatever the
    send signs, and the send does sign such a transaction once the
    request, the key, the funds and the libraries let it through. *)
Theorem amounts_are_floored :
  (forall (F : Float) btc, AmountSpec.floored btc 8 (btcToSats btc)) /\
  (forall (F : Float) (L : Btc.Lib) (P : Btc.Provider) (req : Btc.SendRequest),
     (forall key psbt,
        In (SignInputs key psbt) (snd (send P req)) ->
        exists v change,
          outputs psbt = [(to req, v); (from req, change)] /\
          AmountSpec.floored (amount req) 8 v) /\
     (forall key utxos,
        well_formed req ->
        ECPair_fromWIF (privateKeyWIF req) = Ok key ->
        p2wpkh_address (publicKey key) = from req ->
        utxo_reply P (from req) = Ok utxos ->
        utxos <> [] ->
        btcToSats (amount req) + sendFee P req utxos
          <= sum (selection req utxos) ->
        (forall a v, In (a, v) (BtcTraceSpec.sendOutputs P req utxos) ->
           checkOutput a v = Ok tt) ->
        exists psbt v change,
          In (SignInputs key psbt) (snd (send P req)) /\
          outputs psbt = [(to req, v); (from req, change)] /\
          AmountSpec.floored (amount req) 8 v)) /\
  (forall (F : Float) (L : Solana.Lib) (P : Solana.Provider)
          (req : Solana.SendRequest),
     (forall tx signer,
        In (Solana.SendAndConfirmTransaction tx signer) (snd (Solana.send P req)) ->
        AmountSpec.floored (Solana.amount req) 9 (Solana.lamports tx)) /\
     (forall kp toPub,
        SolanaSpec.well_formed req ->
        Solana.keypairFromPrivateKeyInput (Solana.privateKey req) = Ok kp ->
        Solana.bs58_encode (Solana.publicKey kp) = Solana.from req ->
        Solana.PublicKey_new (Solana.to req) = Ok toPub ->
        0 <= Math_floor (fmul (Solana.amount req)
                           (inject_Z Solana.LAMPORTS_PER_SOL)) < 2 ^ 64 ->
        exists tx,
          In (Solana.SendAndConfirmTransaction tx kp) (snd (Solana.send P req)) /\
          Solana.toPubkey tx = toPub /\
          AmountSpec.floored (Solana.amount req) 9 (Solana.lamports tx))) /\
  (forall (F : Float) (A : Bip39.Api) (L : Cardano.Lib) (P : Cardano.Provider)
          (req : Cardano.SendRequest),
     (forall key b,
        (In (Cardano.MakeWitness key b) (snd (Cardano.send P req)) \/
         In (Cardano.MakeWitness key b) (snd (Cardano.B.send P req))) ->
        exists v,
          Cardano.b_outputs b = [(Cardano.to req, v)] /\
          AmountSpec.floored (Cardano.req_amount req) 6 v) /\
     (forall keys utxos txBody,
        CardanoSpec.well_formed req ->
        1000000 <= Cardano.amountLovelace req ->
        Cardano.deriveKeysFromMnemonic (Cardano.mnemonic req) = Ok keys ->
        Cardano.utxos_reply P (Cardano.address keys) = Ok utxos ->
        utxos <> [] ->
        Cardano.Address_from_bech32 (Cardano.to req) = Ok tt ->
        Cardano.BigNum_from_str (Cardano.amountLovelace req) = Ok tt ->
        CardanoSpec.accepted (Cardano.address keys) (CardanoSpec.candidates utxos) ->
        Cardano.build_reply P
          (Cardano.mkBuilder [(Cardano.to req, Cardano.amountLovelace req)]
             (CardanoSpec.firstFit (CardanoSpec.candidates utxos)
                (Cardano.amountLovelace req + 3000000) 0))
          (Cardano.address keys) = Ok txBody ->
        exists b v,
          In (Cardano.MakeWitness (Cardano.paymentKey keys) b)
             (snd (Cardano.send P req)) /\
          Cardano.b_outputs b = [(Cardano.to req, v)] /\
          AmountSpec.floored (Cardano.req_amount req) 6 v) /\
     (forall keys utxos txBody,
        truthy_string (Cardano.mnemonic req) = true ->
        truthy_string (Cardano.to req) = true ->
        truthy_number (Cardano.req_amount req) = true ->
        Cardano.B.deriveKeysFromMnemonic (Cardano.mnemonic req) = Ok keys ->
        Cardano.utxos_reply P (Cardano.address keys) = Ok utxos ->
        utxos <> [] ->
        Cardano.Address_from_bech32 (Cardano.to req) = Ok tt ->
        Cardano.BigNum_from_str (Cardano.amountLovelace req) = Ok tt ->
        CardanoSpec.accepted (Cardano.address keys) (CardanoSpec.candidatesB utxos) ->
        Cardano.build_reply P
          (Cardano.mkBuilder [(Cardano.to req, Cardano.amountLovelace req)]
             (CardanoSpec.firstFit (CardanoSpec.candidatesB utxos)
                (Cardano.amountLovelace req + 2000000) 0))
          (Cardano.address keys) = Ok txBody ->
        exists b v,
          In (Cardano.MakeWitness (Cardano.paymentKey keys) b)
             (snd (Cardano.B.send P req)) /\
          Cardano.b_outputs b = [(Cardano.to req, v)] /\
          AmountSpec.floored (Cardano.req_amount req) 6 v)).
Proof.
  split; [intros F btc; now apply floored_intro |].
  split; [| split].
  - intros F L P req. split.
    + intros key psbt Hin.
      destruct (send_signed_inv P req key psbt Hin)
        as (utxos & _ & _ & _ & _ & _ & _ & ->).
      do 2 eexists. split; [reflexivity |]. now apply floored_intro.
    + intros key utxos Hwf Hkey Haddr Hutxo Hne Hfunds Hout.
      rewrite (send_after_utxos P req key utxos Hwf Hkey Haddr Hutxo Hne Hfunds).
      unfold BtcTraceSpec.sendOutputs in Hout.
      unfold addOutput. cbn [inputs outputs app snd].
      rewrite (Hout _ _ (or_introl eq_refl)).
      cbn [inputs outputs app].
      rewrite (Hout _ _ (or_intror (or_introl eq_refl))).
      do 3 eexists. split; [| split; [| now apply (floored_intro (amount req) 8)]].
      * cbn [snd]. right. apply in_or_app. right. left. reflexivity.
      * reflexivity.
  - intros F L P req. split.
    + intros tx signer Hin.
      destruct (solana_send_signed_inv P req tx signer Hin) as (_ & _ & _ & ->).
      now apply floored_intro.
    + intros kp toPub Hwf Hkey Hfrom Hto _.
      rewrite (solana_send_run P req kp Hwf Hkey Hfrom), Hto. cbv zeta.
      cbn [snd]. eexists. split; [left; reflexivity |].
      split; [reflexivity |]. cbn [Solana.lamports]. now apply floored_intro.
  - intros F A L P req. split; [| split].
    + intros key b [Hin | Hin].
      * destruct (cardano_send_signed_inv P req key b Hin)
          as (keys & utxos & _ & _ & _ & _ & Hout & _).
        eexists. split; [exact Hout |]. now apply floored_intro.
      * destruct (cardano_sendB_signed_inv P req key b Hin)
          as (keys & utxos & _ & _ & _ & Hout & _).
        eexists. split; [exact Hout |]. now apply floored_intro.
    + intros keys utxos txBody Hwf Hmin Hkeys Hu Hne Hto Hamt Hacc Hbuild.
      rewrite (cardano_send_run P req keys Hwf Hmin Hkeys). cbv zeta.
      rewrite Hu. destruct utxos as [| u0 us]; [congruence |].
      cbn [List.length Nat.eqb].
      unfold Cardano.add_output, Cardano.andThen. rewrite Hto, Hamt.
      cbn [Cardano.Builder_new Cardano.b_outputs Cardano.b_inputs app].
      rewrite (addInputs_accepted (Cardano.address keys) (u0 :: us) _ _ 0 Hacc).
      cbn [Cardano.b_outputs Cardano.b_inputs app fst].
      rewrite Hbuild. cbn [snd].
      do 2 eexists. split; [do 2 right; left; reflexivity |].
      split; [reflexivity |]. now apply floored_intro.
    + intros keys utxos txBody Hm Ht Ha Hkeys Hu Hne Hto Hamt Hacc Hbuild.
      rewrite (cardano_sendB_run P req keys Hm Ht Ha Hkeys). cbv zeta.
      rewrite Hu. destruct utxos as [| u0 us]; [congruence |].
      cbn [List.length Nat.eqb].
      unfold Cardano.add_output, Cardano.andThen. rewrite Hto, Hamt.
      cbn [Cardano.Builder_new Cardano.b_outputs Cardano.b_inputs app].
      rewrite (addInputsB_accepted (Cardano.address keys) (u0 :: us) _ _ 0 Hacc).
      cbn [Cardano.b_outputs Cardano.b_inputs app fst].
      rewrite Hbuild. cbn [snd].
      do 2 eexists. split; [do 2 right; left; reflexivity |].
      split; [reflexivity |]. now apply floored_intro.
Qed.

(** An instance of C10 on each chain: 1.000000005 BTC are sent as
    100000000 satoshi, 1.0000000005 SOL as 1000000000 lamports and
    1.5000009 ADA as 1500000 lovelace. *)
Lemma amounts_are_floored_witness :
  let F := Fixtures.exact_float in
  let btc := Btc.mkSendRequest "bc1qalice" "alice" "bc1qbob"
               (1000000005 # 1000000000) (Some (inject_Z 10)) in
  let sol := SolanaFixtures.request "ABCDEFGHIJKLMNOPQRSTUVWXYZabcdef"
               (10000000005 # 10000000000) in
  let ada := Cardano.mkSendRequest "seed phrase" "addr1bob"
               (15000009 # 10000000) in
  (exists psbt change,
     In (SignInputs Fixtures.alice psbt)
        (snd (@send F Fixtures.btc_lib
                (Fixtures.btc_provider [mkUtxo "tx0" 0 100002400]) btc)) /\
     outputs psbt = [("bc1qbob", 100000000); ("bc1qalice", change)]) /\
  (exists tx,
     In (Solana.SendAndConfirmTransaction tx SolanaFixtures.pair)
        (snd (@Solana.send F Fixtures.solana_lib Fixtures.solana_provider sol)) /\
     Solana.lamports tx = 1000000000) /\
  (exists key b,
     In (Cardano.MakeWitness key b)
        (snd (@Cardano.send F Fixtures.bip39_api Fixtures.cardano_lib
                (Fixtures.cardano_provider [Fixtures.ada "h1" 0 5000000]) ada)) /\
     Cardano.b_outputs b = [("addr1bob", 1500000)]).
Proof.
  intros F btc sol ada.
  destruct amounts_are_floored as (_ & Hbtc & Hsol & Hada).
  split; [| split].
  - destruct (Hbtc F Fixtures.btc_lib
                (Fixtures.btc_provider [mkUtxo "tx0" 0 100002400]) btc)
      as [_ Hrun].
    destruct (Hrun Fixtures.alice [mkUtxo "tx0" 0 100002400])
      as (psbt & v & change & Hin & Hout & Hv & _).
    + repeat split.
    + reflexivity.
    + reflexivity.
    + reflexivity.
    + discriminate.
    + vm_compute. discriminate.
    + intros a v [H | [H | []]]; injection H as <- <-; reflexivity.
    + exists psbt, change. split; [exact Hin |].
      rewrite Hout, Hv. reflexivity.
  - destruct (Hsol F Fixtures.solana_lib Fixtures.solana_provider sol)
      as [_ Hrun].
    destruct (Hrun SolanaFixtures.pair (Fixtures.text_bytes "bob"))
      as (tx & Hin & _ & Hv & _).
    + repeat split.
    + reflexivity.
    + reflexivity.
    + reflexivity.
    + vm_compute. split; [discriminate | reflexivity].
    + exists tx. split; [exact Hin |]. rewrite Hv. reflexivity.
  - destruct (@Cardano.deriveKeysFromMnemonic Fixtures.bip39_api
                Fixtures.cardano_lib "seed phrase") as [keys | msg] eqn:Hkeys;
      [| discriminate Hkeys].
    destruct (Hada F Fixtures.bip39_api Fixtures.cardano_lib
                (Fixtures.cardano_provider [Fixtures.ada "h1" 0 5000000]) ada)
      as (_ & Hrun & _).
    destruct (Hrun keys [Fixtures.ada "h1" 0 5000000] [])
      as (b & v & Hin & Hout & Hv & _).
    + repeat split.
    + vm_compute. discriminate.
    + exact Hkeys.
    + reflexivity.
    + discriminate.
    + reflexivity.
    + reflexivity.
    + split; [injection Hkeys as <-; reflexivity |].
      intros i [<- | []]. split; reflexivity.
    + reflexivity.
    + exists (Cardano.paymentKey keys), b. split; [exact Hin |].
      rewrite Hout, Hv. reflexivity.
Defined.
